(** * rbcapp1 monitoring: the status-observation pipeline

    A shallow embedding of [api/app.py] (the REST API in front of
    Elasticsearch) and of [monitor/monitor-services.py] (the periodic
    emitter), with the properties of the status pipeline proved about it.

    Conventions.
    - JSON data (request bodies, Elasticsearch responses, stored documents)
      is the inductive [json]; a Python [dict] is an association list in
      insertion order, read by first match.  Numbers are integers: no code
      path computes on floats.
    - The Elasticsearch client, the clock and the file system are external:
      their answers are given by an environment record whose fields are
      functions of the calls made so far, so that every behaviour of the
      store (including one that changes between two calls of one request)
      is covered.  Every call is recorded in a trace, newest first.
    - Code that can raise runs in a state-and-exception monad in which the
      state survives a raise, as a Python global does. *)

From Stdlib Require Import String Ascii List ZArith Bool Lia DecimalString.
Import ListNotations.
Open Scope list_scope.
Open Scope string_scope.

(* ------------------------------------------------------------------ *)
(** ** JSON values and Python dictionaries *)

#[local] Set Warnings "-register-all".

Inductive json : Type :=
| JNull
| JBool (b : bool)
| JNum (n : Z)
| JStr (s : string)
| JArr (l : list json)
| JObj (d : list (string * json)).

(** A [dict] with string keys, in insertion order. *)
Definition dict (V : Type) : Type := list (string * V).

Fixpoint dict_get {V} (k : string) (d : dict V) : option V :=
  match d with
  | [] => None
  | (k', v) :: d' => if String.eqb k k' then Some v else dict_get k d'
  end.

(** [d[k] = v]: an existing key keeps its place, a new key goes last. *)
Fixpoint dict_set {V} (k : string) (v : V) (d : dict V) : dict V :=
  match d with
  | [] => [(k, v)]
  | (k', v') :: d' =>
      if String.eqb k k' then (k', v) :: d' else (k', v') :: dict_set k v d'
  end.

Definition dict_mem {V} (k : string) (d : dict V) : bool :=
  match dict_get k d with Some _ => true | None => false end.

Definition dict_keys {V} (d : dict V) : list string := map fst d.

(** [d.get(k, default)] *)
Definition dict_get_default {V} (k : string) (default : V) (d : dict V) : V :=
  match dict_get k d with Some v => v | None => default end.

(** [x in l] for a list of strings. *)
Definition str_in (x : string) (l : list string) : bool :=
  existsb (String.eqb x) l.

(** [sub in s] for two strings. *)
Definition substring_in (sub s : string) : bool :=
  match String.index 0 sub s with Some _ => true | None => false end.

(* ------------------------------------------------------------------ *)
(** ** Exceptions and outcomes

    [exc] ranges over instances of Python's [Exception]: what the
    Elasticsearch client and the interpreter raise on the paths below, and
    what every [except Exception] clause of [app.py] catches. *)

Record exc : Type := Exc { exc_class : string; exc_str : string }.

Inductive outcome (E A : Type) : Type :=
| Ok (a : A)
| Raise (e : E).
Arguments Ok {E A} a.
Arguments Raise {E A} e.

Definition KeyError (k : string) : exc := Exc "KeyError" ("'" ++ k ++ "'").
Definition IndexError (m : string) : exc := Exc "IndexError" m.
Definition TypeError (m : string) : exc := Exc "TypeError" m.
Definition AttributeError (m : string) : exc := Exc "AttributeError" m.

(** The name Python gives the type of a JSON value in its messages. *)
Definition py_type (v : json) : string :=
  match v with
  | JNull => "NoneType"
  | JBool _ => "bool"
  | JNum _ => "int"
  | JStr _ => "str"
  | JArr _ => "list"
  | JObj _ => "dict"
  end.

(** [v[k]] with a string key. *)
Definition getitem (v : json) (k : string) : outcome exc json :=
  match v with
  | JObj d =>
      match dict_get k d with
      | Some x => Ok x
      | None => Raise (KeyError k)
      end
  | JArr _ => Raise (TypeError "list indices must be integers or slices, not str")
  | JStr _ => Raise (TypeError "string indices must be integers")
  | _ => Raise (TypeError ("'" ++ py_type v ++ "' object is not subscriptable"))
  end.

(** [v[0]]. A JSON object has string keys only, so [0] is never a key. *)
Definition getitem0 (v : json) : outcome exc json :=
  match v with
  | JArr (x :: _) => Ok x
  | JArr [] => Raise (IndexError "list index out of range")
  | JStr (String c _) => Ok (JStr (String c EmptyString))
  | JStr EmptyString => Raise (IndexError "string index out of range")
  | JObj _ => Raise (Exc "KeyError" "0")
  | _ => Raise (TypeError ("'" ++ py_type v ++ "' object is not subscriptable"))
  end.

(** [v > 0]; [True] and [False] compare as 1 and 0. *)
Definition gt_zero (v : json) : outcome exc bool :=
  match v with
  | JNum n => Ok (0 <? n)%Z
  | JBool b => Ok b
  | _ => Raise (TypeError ("'>' not supported between instances of '"
                           ++ py_type v ++ "' and 'int'"))
  end.

(** [v.get(k, default)]: only a dict has [get]. *)
Definition get_method (v : json) (k : string) (default : json)
  : outcome exc json :=
  match v with
  | JObj d => Ok (dict_get_default k default d)
  | _ => Raise (AttributeError ("'" ++ py_type v
                                ++ "' object has no attribute 'get'"))
  end.

(** [k in v] for a string [k]: key of a dict, element of a list,
    substring of a string; the other JSON values are not containers. *)
Definition contains (v : json) (k : string) : outcome exc bool :=
  match v with
  | JObj d => Ok (dict_mem k d)
  | JArr l =>
      Ok (existsb (fun x => match x with
                            | JStr s => String.eqb k s
                            | _ => false
                            end) l)
  | JStr s => Ok (substring_in k s)
  | _ => Raise (TypeError ("argument of type '" ++ py_type v
                           ++ "' is not iterable"))
  end.

(** [v in l] for a list of strings [l]: only an equal string is a member. *)
Definition json_in (v : json) (l : list string) : bool :=
  match v with
  | JStr s => str_in s l
  | _ => false
  end.

(** [repr(v)] and [str(v)], which an f-string placeholder prints. *)
Definition str_of_Z (n : Z) : string := NilZero.string_of_int (Z.to_int n).

(** [repr] of a [str]: enclosed in single quotes, or in double quotes when
    the text holds a single quote and no double quote; the enclosing
    quote and the backslash are escaped with a backslash, tab, line feed
    and carriage return are written [\t], [\n], [\r], and the other
    control characters and DEL as [\xhh].  The bytes of a character
    outside ASCII are kept, as Python keeps a printable character. *)
Definition double_quote : ascii := ascii_of_nat 34.
Definition backslash : ascii := ascii_of_nat 92.

Fixpoint has_char (c : ascii) (s : string) : bool :=
  match s with
  | EmptyString => false
  | String c' s' => Ascii.eqb c c' || has_char c s'
  end.

Definition hex_digit (n : nat) : ascii :=
  if Nat.ltb n 10 then ascii_of_nat (48 + n) else ascii_of_nat (87 + n).

Definition repr_char (quote c : ascii) : string :=
  let n := nat_of_ascii c in
  if Ascii.eqb c quote || Ascii.eqb c backslash then
    String backslash (String c "")
  else if Nat.eqb n 9 then String backslash "t"
  else if Nat.eqb n 10 then String backslash "n"
  else if Nat.eqb n 13 then String backslash "r"
  else if Nat.ltb n 32 || Nat.eqb n 127 then
    String backslash
           (String "x" (String (hex_digit (n / 16))
                               (String (hex_digit (n mod 16)) "")))
  else String c "".

Fixpoint repr_chars (quote : ascii) (s : string) : string :=
  match s with
  | EmptyString => ""
  | String c s' => repr_char quote c ++ repr_chars quote s'
  end.

Definition repr_str (s : string) : string :=
  let quote := if has_char "'" s && negb (has_char double_quote s)
               then double_quote else "'"%char in
  String quote (repr_chars quote s ++ String quote "").

Fixpoint py_repr (v : json) : string :=
  match v with
  | JNull => "None"
  | JBool true => "True"
  | JBool false => "False"
  | JNum n => str_of_Z n
  | JStr s => repr_str s
  | JArr l =>
      "[" ++ (fix items (l : list json) : string :=
                match l with
                | [] => ""
                | [x] => py_repr x
                | x :: l' => py_repr x ++ ", " ++ items l'
                end) l ++ "]"
  | JObj d =>
      "{" ++ (fix items (d : list (string * json)) : string :=
                match d with
                | [] => ""
                | [(k, x)] => repr_str k ++ ": " ++ py_repr x
                | (k, x) :: d' => repr_str k ++ ": " ++ py_repr x ++ ", " ++ items d'
                end) d ++ "}"
  end.

Definition py_str (v : json) : string :=
  match v with
  | JStr s => s
  | _ => py_repr v
  end.

(* ------------------------------------------------------------------ *)
(** ** Time: [datetime.utcnow()], [isoformat()] and [strftime]

    The fields are within the ranges of Python's [datetime] (year
    1..9999, month 1..12, ..., microsecond 0..999999), where the
    zero-padded decimal fields below are what Python prints. *)

Record datetime : Type := Datetime {
  year : nat; month : nat; day : nat;
  hour : nat; minute : nat; second : nat; microsecond : nat
}.

Definition digit (n : nat) : ascii := ascii_of_nat (48 + n mod 10).

(** [n] in [w] decimal digits, zero-padded: the format [%0wd]. *)
Fixpoint pad (w n : nat) : string :=
  match w with
  | O => EmptyString
  | S w' => pad w' (n / 10) ++ String (digit n) EmptyString
  end.

(** [dt.isoformat()]: the fraction is printed only when it is not zero. *)
Definition isoformat (dt : datetime) : string :=
  pad 4 (year dt) ++ "-" ++ pad 2 (month dt) ++ "-" ++ pad 2 (day dt)
  ++ "T" ++ pad 2 (hour dt) ++ ":" ++ pad 2 (minute dt) ++ ":"
  ++ pad 2 (second dt)
  ++ (if Nat.eqb (microsecond dt) 0 then ""
      else "." ++ pad 6 (microsecond dt)).

(** [dt.strftime('%Y%m%dT%H%M%S')] *)
Definition strftime_compact (dt : datetime) : string :=
  pad 4 (year dt) ++ pad 2 (month dt) ++ pad 2 (day dt) ++ "T"
  ++ pad 2 (hour dt) ++ pad 2 (minute dt) ++ pad 2 (second dt).

(** [datetime.utcnow().isoformat() + "Z"] for a clock reading [dt]. *)
Definition utc_stamp (dt : datetime) : string := isoformat dt ++ "Z".

(** The shape of an ISO-8601 UTC instant: [pat] is matched character by
    character, a [d] of the pattern standing for a decimal digit. *)
Definition is_digit (c : ascii) : bool :=
  (48 <=? nat_of_ascii c)%nat && (nat_of_ascii c <=? 57)%nat.

Fixpoint matches (pat s : string) : bool :=
  match pat, s with
  | EmptyString, EmptyString => true
  | String p pat', String c s' =>
      (if Ascii.eqb p "d" then is_digit c else Ascii.eqb p c)
      && matches pat' s'
  | _, _ => false
  end.

(** [w] digits, as a pattern. *)
Fixpoint digits (w : nat) : string :=
  match w with
  | O => EmptyString
  | S w' => digits w' ++ "d"
  end.

Definition iso8601_utc_z (s : string) : bool :=
  matches "dddd-dd-ddTdd:dd:ddZ" s
  || matches "dddd-dd-ddTdd:dd:dd.ddddddZ" s.

(** A document whose [timestamp] and [@timestamp] are the same reading of
    the clock, printed as [utc_stamp] prints it. *)
Definition time_fields_agree (doc : json) : Prop :=
  exists t, getitem doc "timestamp" = Ok (JStr (utc_stamp t))
            /\ getitem doc "@timestamp" = Ok (JStr (utc_stamp t)).

(* ------------------------------------------------------------------ *)
(** ** State-and-exception monad

    [M X S A] is a computation over a state [S] that returns an [A] or
    raises an [X]; the state reached is kept in both cases. *)

Definition M (X S A : Type) : Type := S -> outcome X A * S.

Definition ret {X S A} (a : A) : M X S A := fun st => (Ok a, st).

Definition bind {X S A B} (m : M X S A) (k : A -> M X S B) : M X S B :=
  fun st =>
    match m st with
    | (Ok a, st') => k a st'
    | (Raise e, st') => (Raise e, st')
    end.

Definition raise {X S A} (e : X) : M X S A := fun st => (Raise e, st).

(** [try: m  except ... as e: h e], for a handler that takes every [X]. *)
Definition try_except {X S A} (m : M X S A) (h : X -> M X S A) : M X S A :=
  fun st =>
    match m st with
    | (Ok a, st') => (Ok a, st')
    | (Raise e, st') => h e st'
    end.

Definition lift {X S A} (o : outcome X A) : M X S A := fun st => (o, st).

Declare Scope monad_scope.
Delimit Scope monad_scope with monad.
Notation "x <- m ;; k" := (bind m (fun x => k))
  (at level 61, m at next level, right associativity) : monad_scope.
Notation "m ;; k" := (bind m (fun _ => k))
  (at level 61, right associativity) : monad_scope.
Open Scope monad_scope.

(** [for x in l: acc = body acc x], left to right; a raise ends the loop. *)
Fixpoint for_each {X S A Y} (body : A -> Y -> M X S A) (l : list Y) (acc : A)
  : M X S A :=
  match l with
  | [] => ret acc
  | x :: l' => acc' <- body acc x ;; for_each body l' acc'
  end.

(** [[x for x in l if keep x]] where the test can raise. *)
Fixpoint filter_m {X S Y} (keep : Y -> M X S bool) (l : list Y)
  : M X S (list Y) :=
  match l with
  | [] => ret []
  | x :: l' =>
      b <- keep x ;;
      r <- filter_m keep l' ;;
      ret (if b then x :: r else r)
  end.

(** A log record: level and formatted message. *)
Inductive level : Type := INFO | WARNING | ERROR.

Record log_record : Type := Log { log_level : level; log_msg : string }.

(* ------------------------------------------------------------------ *)
(** ** [api/app.py] *)

Module Api.

(** Calls made on the Elasticsearch side, as the code makes them. *)
Inductive event : Type :=
| EvConstruct (url : string)            (* Elasticsearch([es_url]) *)
| EvPing                                (* es.ping(request_timeout=5) *)
| EvSearch (index : string)             (* es.search(index=.., size=1, sort=..) *)
| EvIndex (index : string) (body : json). (* es.index(index=.., body=..) *)

(** What is outside the program.  Each answer of the client depends on the
    calls made before it ([list event], newest first) and on the call. *)
Record env : Type := Env {
  ES_HOST : string;
  es_construct : list event -> string -> outcome exc unit;
  es_ping : list event -> outcome exc bool;
  es_search : list event -> string -> outcome exc json;
  es_index : list event -> string -> json -> outcome exc json;
  utcnow : nat -> datetime   (* the n-th reading of the clock *)
}.

(** The process: the global [es_client] (the client is identified by the
    URL it was built with), the calls made, the log and the number of
    clock readings. *)
Record state : Type := State {
  es_client : option string;
  trace : list event;
  log : list log_record;
  clock_reads : nat
}.

Definition initial_state : state := State None [] [] 0.

Definition SUPPORTED_SERVICES : list string := ["httpd"; "rabbitmq"; "postgresql"].

Record response : Type := Response { body : json; code : nat }.

(** [jsonify(d), code] *)
Definition jsonify (d : dict json) (code : nat) : response :=
  Response (JObj d) code.

(** The request as [add_status] reads it: [request.is_json] and the result
    of [request.get_json()], which raises on a body that does not parse
    (the framework answers 400 for that exception). *)
Record request : Type := Request {
  is_json : bool;
  get_json : outcome exc json
}.

Section WithEnv.
Variable E : env.

#[local] Abbreviation M := (M exc state).

(** *** Primitive steps *)

Definition logger (lv : level) (msg : string) : M unit :=
  fun st => (Ok tt, State (es_client st) (trace st)
                          (Log lv msg :: log st) (clock_reads st)).

Definition read_es_client : M (option string) :=
  fun st => (Ok (es_client st), st).

Definition write_es_client (c : option string) : M unit :=
  fun st => (Ok tt, State c (trace st) (log st) (clock_reads st)).

Definition record (ev : event) (st : state) : state :=
  State (es_client st) (ev :: trace st) (log st) (clock_reads st).

Definition Elasticsearch (url : string) : M string :=
  fun st =>
    (match es_construct E (trace st) url with
     | Ok _ => Ok url
     | Raise e => Raise e
     end, record (EvConstruct url) st).

Definition ping : M bool :=
  fun st => (es_ping E (trace st), record EvPing st).

Definition search (index : string) : M json :=
  fun st => (es_search E (trace st) index, record (EvSearch index) st).

Definition index_doc (index : string) (doc : json) : M json :=
  fun st => (es_index E (trace st) index doc, record (EvIndex index doc) st).

Definition datetime_utcnow : M datetime :=
  fun st => (Ok (utcnow E (clock_reads st)),
             State (es_client st) (trace st) (log st) (S (clock_reads st))).

(** *** [get_elasticsearch_client] *)

Definition es_url : string :=
  if substring_in "://" (ES_HOST E) then ES_HOST E else "http://" ++ ES_HOST E.

Definition get_elasticsearch_client : M (option string) :=
  c <- read_es_client ;;
  match c with
  | Some _ => ret c
  | None =>
      try_except
        (logger INFO ("Connecting to Elasticsearch at: " ++ es_url) ;;
         cl <- Elasticsearch es_url ;;
         write_es_client (Some cl) ;;
         logger INFO "Elasticsearch client created successfully")
        (fun e =>
           logger ERROR ("Failed to create Elasticsearch client: " ++ exc_str e) ;;
           write_es_client None) ;;
      read_es_client
  end.

(** *** [is_elasticsearch_healthy] *)

Definition is_elasticsearch_healthy : M bool :=
  try_except
    (es <- get_elasticsearch_client ;;
     match es with
     | None => logger ERROR "Elasticsearch client is None" ;; ret false
     | Some _ =>
         up <- ping ;;
         if up then logger INFO "Elasticsearch is healthy" ;; ret true
         else logger WARNING "Elasticsearch ping returned False" ;; ret false
     end)
    (fun e =>
       logger ERROR ("Error checking Elasticsearch: " ++ exc_str e) ;;
       ret false).

Definition index_name (service : string) : string := "rbcapp1-" ++ service.

(** [result["hits"]["total"]["value"] > 0] *)
Definition has_hits (result : json) : outcome exc bool :=
  match getitem result "hits" with
  | Raise e => Raise e
  | Ok h =>
      match getitem h "total" with
      | Raise e => Raise e
      | Ok t =>
          match getitem t "value" with
          | Raise e => Raise e
          | Ok v => gt_zero v
          end
      end
  end.

(** [result["hits"]["hits"][0]["_source"]] *)
Definition first_source (result : json) : outcome exc json :=
  match getitem result "hits" with
  | Raise e => Raise e
  | Ok h =>
      match getitem h "hits" with
      | Raise e => Raise e
      | Ok hs =>
          match getitem0 hs with
          | Raise e => Raise e
          | Ok h0 => getitem h0 "_source"
          end
      end
  end.

(** *** [get_service_status_from_elasticsearch]: the latest document of
    the service, or [None]. *)

Definition get_service_status_from_elasticsearch (service_name : string)
  : M (option json) :=
  try_except
    (es <- get_elasticsearch_client ;;
     match es with
     | None =>
         logger ERROR "Cannot query Elasticsearch: client is None" ;;
         ret None
     | Some _ =>
         result <- search (index_name service_name) ;;
         found <- lift (has_hits result) ;;
         if found then
           hit <- lift (first_source result) ;;
           shown <- lift (get_method hit "service_status" (JStr "UNKNOWN")) ;;
           logger INFO ("Retrieved status for " ++ service_name ++ ": "
                        ++ py_str shown) ;;
           ret (Some hit)
         else
           logger WARNING ("No status found for service: " ++ service_name) ;;
           ret None
     end)
    (fun e =>
       logger ERROR ("Error querying Elasticsearch for " ++ service_name
                     ++ ": " ++ exc_str e) ;;
       ret None).

(** *** [get_all_services_status] *)

Definition status_entry (status timestamp : json) : json :=
  JObj [("status", status); ("timestamp", timestamp)].

(** The body of the loop over [SUPPORTED_SERVICES], with its own [try]. *)
Definition query_one (all_statuses : dict json) (service : string)
  : M (dict json) :=
  try_except
    (result <- search (index_name service) ;;
     found <- lift (has_hits result) ;;
     if found then
       hit <- lift (first_source result) ;;
       status <- lift (get_method hit "service_status" (JStr "UNKNOWN")) ;;
       timestamp <- lift (get_method hit "@timestamp" (JStr "N/A")) ;;
       ret (dict_set service (status_entry status timestamp) all_statuses)
     else
       ret (dict_set service (status_entry (JStr "NO_DATA") (JStr "N/A"))
                     all_statuses))
    (fun e =>
       logger WARNING ("Could not query " ++ service ++ ": " ++ exc_str e) ;;
       ret (dict_set service (status_entry (JStr "ERROR") (JStr "N/A"))
                     all_statuses)).

Definition get_all_services_status : M (option (dict json)) :=
  try_except
    (es <- get_elasticsearch_client ;;
     match es with
     | None =>
         logger ERROR "Cannot query Elasticsearch: client is None" ;;
         ret None
     | Some _ =>
         all_statuses <- for_each query_one SUPPORTED_SERVICES [] ;;
         ret (Some all_statuses)
     end)
    (fun e =>
       logger ERROR ("Error querying all services: " ++ exc_str e) ;;
       ret None).

(** *** The views *)

Definition services_json : json := JArr (map JStr SUPPORTED_SERVICES).

(** [GET /health] *)
Definition health : M response :=
  logger INFO "GET /health" ;;
  healthy <- is_elasticsearch_healthy ;;
  if healthy then
    logger INFO "Health status: HEALTHY" ;;
    ret (jsonify [("status", JStr "healthy")] 200)
  else
    logger WARNING "Health status: UNHEALTHY" ;;
    ret (jsonify [("status", JStr "unhealthy")] 503).

(** [GET /healthcheck] *)
Definition healthcheck : M response :=
  logger INFO "GET /healthcheck" ;;
  healthy <- is_elasticsearch_healthy ;;
  if negb healthy then
    logger WARNING "Cannot retrieve statuses: Elasticsearch unavailable" ;;
    ret (jsonify [("error", JStr "Elasticsearch unavailable");
                  ("status", JStr "UNKNOWN")] 503)
  else
    all_statuses <- get_all_services_status ;;
    match all_statuses with
    | None =>
        logger ERROR "Failed to retrieve services status" ;;
        ret (jsonify [("error", JStr "Failed to retrieve services status");
                      ("status", JStr "ERROR")] 500)
    | Some statuses =>
        now <- datetime_utcnow ;;
        let response := [("timestamp", JStr (utc_stamp now));
                         ("services", JObj statuses)] in
        logger INFO ("Returning status for all services: "
                     ++ py_str (JObj statuses)) ;;
        ret (jsonify response 200)
    end.

(** The end of [healthcheck_service], from [if service_status is None]. *)
Definition report_status (service : string) (service_status : option json)
  : M response :=
  match service_status with
  | None =>
      logger INFO ("No data found for " ++ service) ;;
      ret (jsonify [("service", JStr service);
                    ("status", JStr "NO_DATA");
                    ("message", JStr ("No status data found for " ++ service))]
                   200)
  | Some doc =>
      status <- lift (get_method doc "service_status" (JStr "UNKNOWN")) ;;
      host_name <- lift (get_method doc "host_name" (JStr "N/A")) ;;
      timestamp <- lift (get_method doc "@timestamp" (JStr "N/A")) ;;
      let response := [("service", JStr service);
                       ("status", status);
                       ("host_name", host_name);
                       ("timestamp", timestamp)] in
      logger INFO ("Returning status for " ++ service ++ ": "
                   ++ py_str (JObj response)) ;;
      ret (jsonify response 200)
  end.

(** [GET /healthcheck/<service>] *)
Definition healthcheck_service (service : string) : M response :=
  logger INFO ("GET /healthcheck/" ++ service ++ " - service: " ++ service) ;;
  if negb (str_in service SUPPORTED_SERVICES) then
    logger WARNING ("Unknown service requested: " ++ service) ;;
    ret (jsonify [("error", JStr ("Unknown service: " ++ service));
                  ("available_services", services_json)] 400)
  else
    healthy <- is_elasticsearch_healthy ;;
    if negb healthy then
      logger WARNING ("Cannot retrieve " ++ service
                      ++ " status: Elasticsearch unavailable") ;;
      ret (jsonify [("service", JStr service);
                    ("status", JStr "UNKNOWN");
                    ("reason", JStr "Elasticsearch unavailable")] 503)
    else
      service_status <- get_service_status_from_elasticsearch service ;;
      report_status service service_status.

Definition required_fields : list string :=
  ["service_name"; "service_status"; "host_name"].

(** [[field for field in required_fields if field not in data]] *)
Definition missing_fields (data : json) : M (list string) :=
  filter_m (fun field => present <- lift (contains data field) ;;
                         ret (negb present))
           required_fields.

(** [data[k] = v] *)
Definition setitem (data : json) (k : string) (v : json) : outcome exc json :=
  match data with
  | JObj d => Ok (JObj (dict_set k v d))
  | JArr _ => Raise (TypeError "list indices must be integers or slices, not str")
  | _ => Raise (TypeError ("'" ++ py_type data
                           ++ "' object does not support item assignment"))
  end.

(** [es.index(index=.., body=..)] on what [get_elasticsearch_client]
    returned: [None] has no attribute [index]. *)
Definition es_index_call (es : option string) (index : string) (doc : json)
  : M json :=
  match es with
  | Some _ => index_doc index doc
  | None => raise (AttributeError "'NoneType' object has no attribute 'index'")
  end.

(** The [try] block of [add_status] and its [except]: stamp, write,
    answer. *)
Definition insert_status (data service_name : json) : M response :=
  try_except
    (es <- get_elasticsearch_client ;;
     now <- datetime_utcnow ;;
     data1 <- lift (setitem data "@timestamp" (JStr (utc_stamp now))) ;;
     stamp <- lift (getitem data1 "@timestamp") ;;
     data2 <- lift (setitem data1 "timestamp" stamp) ;;
     let index := "rbcapp1-" ++ py_str service_name in
     result <- es_index_call es index data2 ;;
     logger INFO ("Successfully inserted status for "
                  ++ py_str service_name ++ " into " ++ index) ;;
     logger INFO ("Elasticsearch response: " ++ py_str result) ;;
     status <- lift (get_method data2 "service_status" JNull) ;;
     host_name <- lift (get_method data2 "host_name" JNull) ;;
     stamp' <- lift (getitem data2 "@timestamp") ;;
     id <- lift (get_method result "_id" JNull) ;;
     ret (jsonify
            [("message", JStr ("Status for " ++ py_str service_name
                               ++ " successfully added to Elasticsearch"));
             ("service", service_name);
             ("status", status);
             ("host_name", host_name);
             ("timestamp", stamp');
             ("elasticsearch_id", id)] 201))
    (fun e =>
       logger ERROR ("Error inserting status into Elasticsearch: "
                     ++ exc_str e) ;;
       ret (jsonify [("error", JStr ("Failed to insert status: " ++ exc_str e));
                     ("status", JStr "FAILED")] 500)).

(** [POST /add] *)
Definition add_status (req : request) : M response :=
  logger INFO "POST /add" ;;
  if negb (is_json req) then
    logger ERROR "Request is not JSON" ;;
    ret (jsonify [("error", JStr "Request must be JSON")] 400)
  else
    data <- lift (get_json req) ;;
    logger INFO ("Received JSON: " ++ py_str data) ;;
    missing <- missing_fields data ;;
    match missing with
    | _ :: _ =>
        logger ERROR ("Missing required fields: "
                      ++ py_str (JArr (map JStr missing))) ;;
        ret (jsonify [("error", JStr ("Missing required fields: "
                                      ++ py_str (JArr (map JStr missing))));
                      ("required_fields", JArr (map JStr required_fields))]
                     400)
    | [] =>
        service_name <- lift (get_method data "service_name" JNull) ;;
        if negb (json_in service_name SUPPORTED_SERVICES) then
          logger ERROR ("Unknown service: " ++ py_str service_name) ;;
          ret (jsonify [("error", JStr ("Unknown service: "
                                        ++ py_str service_name));
                        ("supported_services", services_json)] 400)
        else
          healthy <- is_elasticsearch_healthy ;;
          if negb healthy then
            logger ERROR "Cannot insert status: Elasticsearch unavailable" ;;
            ret (jsonify [("error", JStr "Elasticsearch unavailable");
                          ("status", JStr "FAILED")] 503)
          else insert_status data service_name
    end.

End WithEnv.

(** *** Vocabulary of the properties

    [since st st' evs]: [evs] is what was called between [st] and [st'],
    newest first.  A store access is a read ([search]) or a write
    ([index]). *)

Definition since (st st' : state) (evs : list event) : Prop :=
  trace st' = (evs ++ trace st)%list.

Definition is_store_access (ev : event) : bool :=
  match ev with
  | EvSearch _ | EvIndex _ _ => true
  | EvConstruct _ | EvPing => false
  end.

Definition no_store_access (evs : list event) : Prop :=
  forallb (fun ev => negb (is_store_access ev)) evs = true.

(** The indices searched, in the order of the calls. *)
Definition searched (evs : list event) : list string :=
  flat_map (fun ev => match ev with EvSearch i => [i] | _ => [] end) (rev evs).

(** The documents written, in the order of the calls. *)
Definition written (evs : list event) : list (string * json) :=
  flat_map (fun ev => match ev with EvIndex i d => [(i, d)] | _ => [] end)
           (rev evs).

(** What the probe answers in a state; [false] stands for unreachable. *)
Definition healthy (E : env) (st : state) : bool :=
  match is_elasticsearch_healthy E st with
  | (Ok b, _) => b
  | (Raise _, _) => false
  end.

(** Two states in which the store side is the same: the client handle and
    the calls made. *)
Definition same_backend (st1 st2 : state) : Prop :=
  es_client st1 = es_client st2 /\ trace st1 = trace st2.

(** The answers of the views, named. *)
Definition no_data_response (service : string) : response :=
  jsonify [("service", JStr service);
           ("status", JStr "NO_DATA");
           ("message", JStr ("No status data found for " ++ service))] 200.

Definition unknown_service_response (service : string) : response :=
  jsonify [("error", JStr ("Unknown service: " ++ service));
           ("available_services", services_json)] 400.

Definition service_unavailable_response (service : string) : response :=
  jsonify [("service", JStr service);
           ("status", JStr "UNKNOWN");
           ("reason", JStr "Elasticsearch unavailable")] 503.

Definition all_unavailable_response : response :=
  jsonify [("error", JStr "Elasticsearch unavailable");
           ("status", JStr "UNKNOWN")] 503.

Definition missing_fields_response (missing : list string) : response :=
  jsonify [("error", JStr ("Missing required fields: "
                           ++ py_str (JArr (map JStr missing))));
           ("required_fields", JArr (map JStr required_fields))] 400.

Definition unknown_service_add_response (service_name : json) : response :=
  jsonify [("error", JStr ("Unknown service: " ++ py_str service_name));
           ("supported_services", services_json)] 400.

Definition add_unavailable_response : response :=
  jsonify [("error", JStr "Elasticsearch unavailable");
           ("status", JStr "FAILED")] 503.

Definition created_response (service : string) (data : dict json)
  (stamp : json) (reply : dict json) : response :=
  jsonify [("message", JStr ("Status for " ++ service
                             ++ " successfully added to Elasticsearch"));
           ("service", JStr service);
           ("status", dict_get_default "service_status" JNull data);
           ("host_name", dict_get_default "host_name" JNull data);
           ("timestamp", stamp);
           ("elasticsearch_id", dict_get_default "_id" JNull reply)] 201.

(** The document that [add_status] writes for the object [d]: both time
    fields set to [stamp]. *)
Definition stamped (stamp : json) (d : dict json) : dict json :=
  dict_set "timestamp" stamp (dict_set "@timestamp" stamp d).

(** A POST whose body is the JSON value [data]. *)
Definition json_request (data : json) : request := Request true (Ok data).

(** The fields of [required_fields] that the object [d] lacks. *)
Definition lacking (d : dict json) : list string :=
  filter (fun field => negb (dict_mem field d)) required_fields.

(** The [service_name] of the object [d], as [data.get] returns it. *)
Definition service_name_of (d : dict json) : json :=
  dict_get_default "service_name" JNull d.

(** The checks of [POST /add] in the order the specification gives them,
    to compare [add_status] with: the first check that fails names the
    error. *)
Inductive verdict : Type :=
| MalformedPayload (missing : list string)
| UnknownService (name : json)
| BackendUnavailable
| Accepted.

Definition spec_submit_checks (E : env) (st : state) (d : dict json) : verdict :=
  match lacking d with
  | _ :: _ => MalformedPayload (lacking d)
  | [] =>
      if negb (json_in (service_name_of d) SUPPORTED_SERVICES)
      then UnknownService (service_name_of d)
      else if negb (healthy E st) then BackendUnavailable
           else Accepted
  end.

Definition error_entry : json := status_entry (JStr "ERROR") (JStr "N/A").

Definition no_data_entry : json := status_entry (JStr "NO_DATA") (JStr "N/A").

Definition found_entry (doc : dict json) : json :=
  status_entry (dict_get_default "service_status" (JStr "UNKNOWN") doc)
               (dict_get_default "@timestamp" (JStr "N/A") doc).

(** What one turn of the loop of [get_all_services_status] stores for [s],
    the calls made before it being [tr]. *)
Definition entry_for (E : env) (tr : list event) (s : string) (entry : json)
  : Prop :=
  (forall e, es_search E tr (index_name s) = Raise e -> entry = error_entry)
  /\ (forall r, es_search E tr (index_name s) = Ok r ->
                has_hits r = Ok false -> entry = no_data_entry)
  /\ (forall r doc, es_search E tr (index_name s) = Ok r ->
                    has_hits r = Ok true -> first_source r = Ok (JObj doc) ->
                    entry = found_entry doc).

(** A search result that the lookups cannot read: the count of hits is
    not there or does not compare with 0, or hits are announced and the
    first one has no [_source] that is an object. *)
Definition unreadable (r : json) : Prop :=
  (exists e, has_hits r = Raise e)
  \/ (has_hits r = Ok true /\ forall doc, first_source r <> Ok (JObj doc)).

(** A store whose answers do not depend on the calls made before. *)
Definition steady (E : env) : Prop :=
  (forall tr tr' url, es_construct E tr url = es_construct E tr' url)
  /\ (forall tr tr', es_ping E tr = es_ping E tr')
  /\ (forall tr tr' i, es_search E tr i = es_search E tr' i).

(** The answer of [add_status] when the write raised [e]. *)
Definition insert_failed_response (e : exc) : response :=
  jsonify [("error", JStr ("Failed to insert status: " ++ exc_str e));
           ("status", JStr "FAILED")] 500.

(** The answer of [healthcheck_service] for a latest document [doc]. *)
Definition found_response (service : string) (doc : dict json) : response :=
  jsonify [("service", JStr service);
           ("status", dict_get_default "service_status" (JStr "UNKNOWN") doc);
           ("host_name", dict_get_default "host_name" (JStr "N/A") doc);
           ("timestamp", dict_get_default "@timestamp" (JStr "N/A") doc)] 200.

(** For a steady store: whether a handle can be had in [st] (it is cached,
    or the construction succeeds) and whether the ping returns True. *)
Definition obtainable (E : env) (st : state) : bool :=
  match es_client st with
  | Some _ => true
  | None => match es_construct E [] (es_url E) with
            | Ok _ => true
            | Raise _ => false
            end
  end.

Definition ping_true (E : env) : bool :=
  match es_ping E [] with
  | Ok b => b
  | Raise _ => false
  end.

(** How many times each call occurs among [evs]. *)
Definition pings (evs : list event) : nat :=
  length (filter (fun ev => match ev with EvPing => true | _ => false end) evs).

Definition constructions (evs : list event) : nat :=
  length (filter (fun ev => match ev with EvConstruct _ => true | _ => false end)
                 evs).

End Api.

(* ------------------------------------------------------------------ *)
(** ** [monitor/monitor-services.py] *)

Module Monitor.

(** What [main] tells apart: [KeyboardInterrupt], which is not an
    [Exception], and the instances of [Exception]. *)
Inductive raised : Type :=
| KeyboardInterrupt
| Error (e : exc).

(** A status file written: [open(filepath, "w")] and [json.dump]. *)
Inductive event : Type :=
| EvWrite (filepath : string) (payload : json).

Record env : Type := Env {
  nodename : string;                         (* os.uname().nodename *)
  utcnow : nat -> datetime;                  (* the n-th reading of the clock *)
  makedirs : outcome raised unit;            (* os.makedirs(.., exist_ok=True) *)
  write_file : list event -> string -> json -> outcome raised unit;
  sleep : nat -> outcome raised unit         (* time.sleep(60) of the n-th cycle *)
}.

Record state : Type := State {
  trace : list event;
  log : list log_record;
  clock_reads : nat
}.

Definition initial_state : state := State [] [] 0.

(** The object: [self.output_dir] and [self.service_status_config]. *)
Record ServiceMonitor : Type := Build_ServiceMonitor {
  output_dir : string;
  service_status_config : dict string
}.

(** [os.path.join(a, b)] *)
Definition path_join (a b : string) : string :=
  match b with
  | String "/" _ => b
  | _ =>
      match a with
      | EmptyString => b
      | _ => if String.eqb (substring (String.length a - 1) 1 a) "/"
             then a ++ b else a ++ "/" ++ b
      end
  end.

Definition str_of_nat (n : nat) : string := str_of_Z (Z.of_nat n).

(** How [main] ends: the loop is still going after the cycles that were
    run, or [main] returned after a [KeyboardInterrupt]. *)
Inductive ending : Type := Looping | Returned.

Section WithEnv.
Variable E : env.

#[local] Abbreviation M := (M raised state).

Definition logger (lv : level) (msg : string) : M unit :=
  fun st => (Ok tt, State (trace st) (Log lv msg :: log st) (clock_reads st)).

Definition datetime_utcnow : M datetime :=
  fun st => (Ok (utcnow E (clock_reads st)),
             State (trace st) (log st) (S (clock_reads st))).

Definition dump (filepath : string) (payload : json) : M unit :=
  fun st => (write_file E (trace st) filepath payload,
             State (EvWrite filepath payload :: trace st) (log st)
                   (clock_reads st)).

(** [ServiceMonitor.__init__] *)
Definition init : M ServiceMonitor :=
  let output_dir := "/var/tmp/rbcapp1-status" in
  lift (makedirs E) ;;
  logger INFO "Monitor initialized" ;;
  ret (Build_ServiceMonitor output_dir
         [("httpd", "UP");
          ("rabbitmq", "DOWN");  (* Initially simulate failure *)
          ("postgresql", "UP")]).

Definition get_service_status (self : ServiceMonitor) (service_name : string)
  : string :=
  dict_get_default service_name "UNKNOWN" (service_status_config self).

Definition generate_status_json (self : ServiceMonitor)
  (service_name status : string) : M unit :=
  now <- datetime_utcnow ;;
  let timestamp := utc_stamp now in
  let payload := JObj [("service_name", JStr service_name);
                       ("service_status", JStr status);
                       ("host_name", JStr (nodename E));
                       ("timestamp", JStr timestamp);
                       ("@timestamp", JStr timestamp)] in
  now' <- datetime_utcnow ;;
  let filename := service_name ++ "-" ++ status ++ "-"
                  ++ strftime_compact now' ++ ".json" in
  let filepath := path_join (output_dir self) filename in
  dump filepath payload ;;
  logger INFO ("Generated: " ++ filename ++ " -> " ++ status).

(** The body of the loop of [monitor_all_services]. *)
Definition cycle_body (self : ServiceMonitor) (_ : unit) (service : string)
  : M unit :=
  let status := get_service_status self service in
  generate_status_json self service status.

Definition monitor_all_services (self : ServiceMonitor) : M unit :=
  let services := dict_keys (service_status_config self) in
  for_each (cycle_body self) services tt ;;
  logger INFO "Monitor cycle complete".

(** [n] turns of [while True], the counter being at [cycle]. *)
Fixpoint cycles (n : nat) (monitor : ServiceMonitor) (cycle : nat) : M unit :=
  match n with
  | O => ret tt
  | S n' =>
      let cycle := cycle + 1 in
      logger INFO ("Starting monitoring cycle #" ++ str_of_nat cycle) ;;
      monitor_all_services monitor ;;
      logger INFO ("Cycle #" ++ str_of_nat cycle
                   ++ " complete. Waiting 60 seconds...") ;;
      lift (sleep E cycle) ;;
      cycles n' monitor cycle
  end.

Definition banner : string :=
  "============================================================".

(** [main], its loop run for [n] turns. *)
Definition main (n : nat) : M ending :=
  fun st =>
    match (logger INFO banner ;;
           logger INFO "rbcapp1 Service Monitor started" ;;
           logger INFO banner ;;
           monitor <- init ;;
           cycles n monitor 0) st with
    | (Ok _, st') => (Ok Looping, st')
    | (Raise KeyboardInterrupt, st') =>
        (logger INFO "Monitor interrupted. Shutting down..." ;;
         ret Returned) st'
    | (Raise (Error e), st') =>
        (logger ERROR ("Critical error: " ++ exc_str e) ;;
         raise (Error e)) st'
    end.

End WithEnv.

(** *** Vocabulary of the properties *)

Definition since (st st' : state) (evs : list event) : Prop :=
  trace st' = (evs ++ trace st)%list.

(** The service a status file is about. *)
Definition service_of (ev : event) : json :=
  match ev with
  | EvWrite _ payload =>
      match getitem payload "service_name" with
      | Ok v => v
      | Raise _ => JNull
      end
  end.

(** The services whose status file was attempted, in the order of the
    attempts. *)
Definition attempted (evs : list event) : list json :=
  map service_of (rev evs).

(** Writing the status file of [service] always succeeds, or always raises
    [x], whatever was written before and whatever the file name. *)
Definition writes_ok (E : env) (service : string) : Prop :=
  forall tr filepath payload,
    getitem payload "service_name" = Ok (JStr service) ->
    write_file E tr filepath payload = Ok tt.


(** The payload and the path of the status file of [service], for the
    clock readings [t] (payload) and [t'] (file name). *)
Definition status_payload (E : env) (service status : string) (t : datetime)
  : json :=
  JObj [("service_name", JStr service);
        ("service_status", JStr status);
        ("host_name", JStr (nodename E));
        ("timestamp", JStr (utc_stamp t));
        ("@timestamp", JStr (utc_stamp t))].

Definition status_filepath (self : ServiceMonitor) (service status : string)
  (t' : datetime) : string :=
  path_join (output_dir self)
            (service ++ "-" ++ status ++ "-" ++ strftime_compact t' ++ ".json").

(** The sleeps of the cycles after [c], up to [c + n], return. *)
Definition sleeps_return (E : env) (c n : nat) : Prop :=
  forall k, c < k -> k <= c + n -> sleep E k = Ok tt.

(** The services that [__init__] configures, in the order of the dict. *)
Definition configured_services : list string := ["httpd"; "rabbitmq"; "postgresql"].

End Monitor.

(* ------------------------------------------------------------------ *)
(** ** Concrete environments, used to run the model *)

Module Scenario.

(** A search response with [n] hits, the latest document being [doc]. *)
Definition search_result (n : Z) (docs : list json) : json :=
  JObj [("hits", JObj [("total", JObj [("value", JNum n)]);
                       ("hits", JArr (map (fun d => JObj [("_source", d)]) docs))])].

Definition httpd_up : json :=
  JObj [("service_name", JStr "httpd");
        ("service_status", JStr "UP");
        ("host_name", JStr "h1");
        ("timestamp", JStr "2025-01-09T07:04:00Z");
        ("@timestamp", JStr "2025-01-09T07:04:00Z")].

(** The fields of [httpd_up]. *)
Definition httpd_up_fields : dict json :=
  [("service_name", JStr "httpd");
   ("service_status", JStr "UP");
   ("host_name", JStr "h1");
   ("timestamp", JStr "2025-01-09T07:04:00Z");
   ("@timestamp", JStr "2025-01-09T07:04:00Z")].

(** A document written without [service_status] and [@timestamp]. *)
Definition bare_doc : json := JObj [("host_name", JStr "h1")].

(** A clock that advances by one second at each reading. *)
Definition clock (n : nat) : datetime :=
  Datetime 2025 1 9 7 ((5 + n / 60) mod 60) (n mod 60) 0.

Definition index_reply : json :=
  JObj [("_index", JStr "rbcapp1-httpd"); ("_id", JStr "Ab12"); ("result", JStr "created")].

(** The store answers; every collection is empty. *)
Definition empty_store : Api.env :=
  Api.Env "elasticsearch:9200"
    (fun _ _ => Ok tt) (fun _ => Ok true)
    (fun _ _ => Ok (search_result 0 []))
    (fun _ _ _ => Ok index_reply) clock.

(** The store answers; [rbcapp1-httpd] holds [httpd_up], the search on
    [rbcapp1-rabbitmq] raises and [rbcapp1-postgresql] is empty. *)
Definition flaky_store : Api.env :=
  Api.Env "elasticsearch:9200"
    (fun _ _ => Ok tt) (fun _ => Ok true)
    (fun _ index =>
       if String.eqb index "rbcapp1-httpd" then Ok (search_result 1 [httpd_up])
       else if String.eqb index "rbcapp1-rabbitmq"
            then Raise (Exc "NotFoundError" "no such index [rbcapp1-rabbitmq]")
            else Ok (search_result 0 []))
    (fun _ _ _ => Ok index_reply) clock.

(** The store answers; every collection holds [bare_doc]. *)
Definition bare_store : Api.env :=
  Api.Env "elasticsearch:9200"
    (fun _ _ => Ok tt) (fun _ => Ok true)
    (fun _ _ => Ok (search_result 1 [bare_doc]))
    (fun _ _ _ => Ok index_reply) clock.

(** The store does not answer the ping. *)
Definition store_down : Api.env :=
  Api.Env "elasticsearch:9200"
    (fun _ _ => Ok tt)
    (fun _ => Raise (Exc "ConnectionError" "Connection refused"))
    (fun _ _ => Raise (Exc "ConnectionError" "Connection refused"))
    (fun _ _ _ => Raise (Exc "ConnectionError" "Connection refused")) clock.

(** The client cannot be built at the first attempt and can afterwards. *)
Definition store_late : Api.env :=
  Api.Env "elasticsearch:9200"
    (fun tr _ => match tr with
                 | [] => Raise (Exc "ValueError" "URL must include a 'scheme'")
                 | _ => Ok tt
                 end)
    (fun _ => Ok true)
    (fun _ _ => Ok (search_result 0 []))
    (fun _ _ _ => Ok index_reply) clock.

(** The store answers the ping and refuses every write. *)
Definition store_read_only : Api.env :=
  Api.Env "elasticsearch:9200"
    (fun _ _ => Ok tt) (fun _ => Ok true)
    (fun _ _ => Ok (search_result 0 []))
    (fun _ _ _ => Raise (Exc "AuthorizationException" "index is read-only")) clock.

(** The store answers every search with a body without [hits]. *)
Definition store_garbled : Api.env :=
  Api.Env "elasticsearch:9200"
    (fun _ _ => Ok tt) (fun _ => Ok true)
    (fun _ _ => Ok (JObj [("took", JNum 3)]))
    (fun _ _ _ => Ok index_reply) clock.

Definition payload_httpd : dict json :=
  [("service_name", JStr "httpd"); ("service_status", JStr "UP");
   ("host_name", JStr "h1")].

(** The same payload, carrying a timestamp of its own. *)
Definition payload_stamped : dict json :=
  [("service_name", JStr "httpd"); ("service_status", JStr "UP");
   ("host_name", JStr "h1"); ("timestamp", JStr "2020-02-02T02:02:02Z")].

Definition payload_ftp : dict json :=
  [("service_name", JStr "ftp"); ("service_status", JStr "UP");
   ("host_name", JStr "h1")].

Definition payload_no_host : dict json :=
  [("service_name", JStr "ftp"); ("service_status", JStr "UP")].

(** A machine on which every status file is written. *)
Definition disk_ok : Monitor.env :=
  Monitor.Env "host1" clock (Ok tt) (fun _ _ _ => Ok tt) (fun _ => Ok tt).



Definition the_monitor : Monitor.ServiceMonitor :=
  Monitor.Build_ServiceMonitor "/var/tmp/rbcapp1-status"
    [("httpd", "UP"); ("rabbitmq", "DOWN"); ("postgresql", "UP")].

End Scenario.

(* ------------------------------------------------------------------ *)
(** ** Facts on dictionaries and on the monad *)

Section DictFacts.
Context {V : Type}.

Lemma dict_get_set_same (k : string) (v : V) (d : dict V) :
  dict_get k (dict_set k v d) = Some v.
Proof.
  induction d as [|[k' v'] d IH]; cbn.
  - now rewrite String.eqb_refl.
  - destruct (String.eqb k k') eqn:Hk; cbn; rewrite Hk; auto.
Qed.

Lemma dict_get_set_other (k k' : string) (v : V) (d : dict V) :
  k <> k' -> dict_get k (dict_set k' v d) = dict_get k d.
Proof.
  intros Hne. induction d as [|[k0 v0] d IH]; cbn.
  - destruct (String.eqb_spec k k'); congruence.
  - destruct (String.eqb_spec k' k0) as [->|Hk0]; cbn.
    + destruct (String.eqb_spec k k0); congruence.
    + destruct (String.eqb_spec k k0); auto.
Qed.

End DictFacts.

Lemma bind_ok {X S A B} (m : M X S A) (k : A -> M X S B) st a st' :
  m st = (Ok a, st') -> bind m k st = k a st'.
Proof. intros H. unfold bind. now rewrite H. Qed.

Lemma bind_raise {X S A B} (m : M X S A) (k : A -> M X S B) st e st' :
  m st = (Raise e, st') -> bind m k st = (Raise e, st').
Proof. intros H. unfold bind. now rewrite H. Qed.

Lemma str_in_In (x : string) (l : list string) :
  str_in x l = true <-> In x l.
Proof.
  unfold str_in. rewrite existsb_exists. split.
  - intros (y & Hy & Heq). apply String.eqb_eq in Heq. now subst.
  - intros H. exists x. split; [assumption | apply String.eqb_refl].
Qed.

(* ------------------------------------------------------------------ *)
(** ** Properties of the API *)

Module ApiProps.
Import Api.

Section Props.
Variable E : env.

Ltac run_client :=
  unfold get_elasticsearch_client, bind, read_es_client, try_except,
    Elasticsearch, logger, write_es_client, record, ret in *.

(** *** The client handle *)

Lemma get_elasticsearch_client_cached st u :
  es_client st = Some u ->
  get_elasticsearch_client E st = (Ok (Some u), st).
Proof.
  intros H. run_client. rewrite H. reflexivity.
Qed.

(** *** The probe *)

Lemma probe_returns st :
  exists b st' evs,
    is_elasticsearch_healthy E st = (Ok b, st')
    /\ since st st' evs /\ no_store_access evs
    /\ clock_reads st' = clock_reads st
    /\ (b = true -> exists u, es_client st' = Some u).
Proof.
  unfold is_elasticsearch_healthy, ping. run_client.
  destruct (es_client st) as [u|] eqn:Hc; cbn.
  - rewrite Hc.
    destruct (es_ping E (trace st)) as [[|]|e]; cbn;
      eexists _, _, [EvPing]; repeat split; try discriminate;
      intros _; cbn; eauto.
  - destruct (es_construct E (trace st) (es_url E)) as [[]|e]; cbn.
    + destruct (es_ping E _) as [[|]|e]; cbn;
        eexists _, _, [EvPing; EvConstruct (es_url E)];
        repeat split; try discriminate; intros _; cbn; eauto.
    + eexists _, _, [EvConstruct (es_url E)]; repeat split; discriminate.
Qed.

(** The probe does not look at the log or at the clock. *)
Lemma probe_same_backend st1 st2 :
  same_backend st1 st2 ->
  fst (is_elasticsearch_healthy E st1) = fst (is_elasticsearch_healthy E st2)
  /\ same_backend (snd (is_elasticsearch_healthy E st1))
                  (snd (is_elasticsearch_healthy E st2)).
Proof.
  destruct st1 as [c tr l1 k1], st2 as [c2 tr2 l2 k2].
  intros [Hc Ht]. cbn in Hc, Ht. subst c2 tr2.
  unfold is_elasticsearch_healthy, ping, same_backend. run_client. cbn.
  destruct c as [u|]; cbn.
  - destruct (es_ping E tr) as [[|]|e]; cbn; auto.
  - destruct (es_construct E tr (es_url E)) as [[]|e]; cbn; auto.
    destruct (es_ping E _) as [[|]|e]; cbn; auto.
Qed.

Lemma healthy_same_backend st1 st2 :
  same_backend st1 st2 -> healthy E st1 = healthy E st2.
Proof.
  intros H. apply probe_same_backend in H as [H _]. unfold healthy.
  destruct (is_elasticsearch_healthy E st1) as [[]]; 
    destruct (is_elasticsearch_healthy E st2) as [[]]; cbn in H; congruence.
Qed.

(** The probe as a view meets it, after the line logged on entry. *)
Lemma probe_after_log st lv msg :
  exists st' evs,
    is_elasticsearch_healthy E
      (State (es_client st) (trace st) (Log lv msg :: log st) (clock_reads st))
    = (Ok (healthy E st), st')
    /\ since st st' evs /\ no_store_access evs
    /\ clock_reads st' = clock_reads st
    /\ (healthy E st = true -> exists u, es_client st' = Some u).
Proof.
  set (st0 := State (es_client st) (trace st) (Log lv msg :: log st)
                    (clock_reads st)).
  destruct (probe_returns st0) as (b & st' & evs & Hrun & Hs & Hn & Hk & Hu).
  assert (Hb : healthy E st = b).
  { rewrite (healthy_same_backend st st0).
    - unfold healthy. now rewrite Hrun.
    - split; reflexivity. }
  rewrite Hb. exists st', evs. repeat split; assumption.
Qed.

(** *** The single lookup, the client handle being there *)

Lemma lookup_raises st u s e :
  es_client st = Some u ->
  es_search E (trace st) (index_name s) = Raise e ->
  get_service_status_from_elasticsearch E s st
  = (Ok None,
     State (Some u) (EvSearch (index_name s) :: trace st)
           (Log ERROR ("Error querying Elasticsearch for " ++ s ++ ": "
                       ++ exc_str e) :: log st)
           (clock_reads st)).
Proof.
  intros Hc Hs. unfold get_service_status_from_elasticsearch, try_except.
  rewrite (bind_ok _ _ _ _ _ (get_elasticsearch_client_cached _ _ Hc)).
  unfold bind, search, record, logger, ret. rewrite Hs, Hc. reflexivity.
Qed.

Lemma lookup_empty st u s r :
  es_client st = Some u ->
  es_search E (trace st) (index_name s) = Ok r ->
  has_hits r = Ok false ->
  get_service_status_from_elasticsearch E s st
  = (Ok None,
     State (Some u) (EvSearch (index_name s) :: trace st)
           (Log WARNING ("No status found for service: " ++ s) :: log st)
           (clock_reads st)).
Proof.
  intros Hc Hs Hh. unfold get_service_status_from_elasticsearch, try_except.
  rewrite (bind_ok _ _ _ _ _ (get_elasticsearch_client_cached _ _ Hc)).
  unfold bind, search, record, logger, ret, lift. rewrite Hs, Hh, Hc.
  reflexivity.
Qed.

Lemma lookup_found st u s r doc :
  es_client st = Some u ->
  es_search E (trace st) (index_name s) = Ok r ->
  has_hits r = Ok true ->
  first_source r = Ok (JObj doc) ->
  get_service_status_from_elasticsearch E s st
  = (Ok (Some (JObj doc)),
     State (Some u) (EvSearch (index_name s) :: trace st)
           (Log INFO ("Retrieved status for " ++ s ++ ": "
                      ++ py_str (dict_get_default "service_status"
                                   (JStr "UNKNOWN") doc)) :: log st)
           (clock_reads st)).
Proof.
  intros Hc Hs Hh Hf. unfold get_service_status_from_elasticsearch, try_except.
  rewrite (bind_ok _ _ _ _ _ (get_elasticsearch_client_cached _ _ Hc)).
  unfold bind, search, record, logger, ret, lift. rewrite Hs, Hh, Hf, Hc.
  reflexivity.
Qed.

(** The view up to the lookup: a registered service and a store that the
    probe finds reachable. *)
Lemma healthcheck_service_reaches_lookup st s :
  In s SUPPORTED_SERVICES ->
  healthy E st = true ->
  exists st1 u evs,
    es_client st1 = Some u
    /\ since st st1 evs /\ no_store_access evs
    /\ healthcheck_service E s st
       = (service_status <- get_service_status_from_elasticsearch E s ;;
          report_status s service_status) st1.
Proof.
  intros Hin Hh. apply str_in_In in Hin.
  destruct (probe_after_log st INFO
              ("GET /healthcheck/" ++ s ++ " - service: " ++ s))
    as (st1 & evs & Hrun & Hs & Hn & _ & Hu).
  destruct (Hu Hh) as [u Hc]. exists st1, u, evs. repeat split; try assumption.
  unfold healthcheck_service. rewrite Hin. cbn [negb].
  unfold bind at 1, logger at 1. unfold bind at 1. rewrite Hrun, Hh.
  reflexivity.
Qed.

End Props.

(** *** Single-service resolution *)

(** C7. For a registered service, a store that the probe finds reachable and
    a search that reports no hit in the service's collection,
    [GET /healthcheck/<service>] answers 200 with status NO_DATA. *)
Theorem resolveOne_empty_is_NO_DATA (E : env) (st : state) (s : string) (r : json) :
  In s SUPPORTED_SERVICES ->
  healthy E st = true ->
  (forall evs, es_search E (evs ++ trace st)%list (index_name s) = Ok r) ->
  has_hits r = Ok false ->
  exists st',
    healthcheck_service E s st = (Ok (no_data_response s), st')
    /\ code (no_data_response s) = 200
    /\ getitem (body (no_data_response s)) "status" = Ok (JStr "NO_DATA").
Proof.
  intros Hin Hh Hs Hempty.
  destruct (healthcheck_service_reaches_lookup E st s Hin Hh)
    as (st1 & u & evs & Hc & Hev & _ & Hview).
  rewrite Hview. specialize (Hs evs). rewrite <- Hev in Hs.
  rewrite (bind_ok _ _ _ _ _ (lookup_empty E st1 u s r Hc Hs Hempty)).
  eexists. repeat split.
Qed.

Lemma resolveOne_empty_is_NO_DATA_witness :
  exists st',
    healthcheck_service Scenario.empty_store "postgresql" initial_state
    = (Ok (no_data_response "postgresql"), st')
    /\ code (no_data_response "postgresql") = 200
    /\ getitem (body (no_data_response "postgresql")) "status"
       = Ok (JStr "NO_DATA").
Proof.
  apply (resolveOne_empty_is_NO_DATA Scenario.empty_store initial_state
           "postgresql" (Scenario.search_result 0 [])).
  - cbn. auto.
  - reflexivity.
  - intros tr. reflexivity.
  - reflexivity.
Defined.

(** C1, as the code has it. For a registered service and a store that the
    probe finds reachable, a search that raises makes
    [GET /healthcheck/<service>] answer 200 with status NO_DATA, the answer
    it gives for an empty collection; the error is logged at level ERROR
    and the request does not fail. *)
Theorem resolveOne_query_error_is_NO_DATA
  (E : env) (st : state) (s : string) (e : exc) :
  In s SUPPORTED_SERVICES ->
  healthy E st = true ->
  (forall evs, es_search E (evs ++ trace st)%list (index_name s) = Raise e) ->
  exists st',
    healthcheck_service E s st = (Ok (no_data_response s), st')
    /\ In (Log ERROR ("Error querying Elasticsearch for " ++ s ++ ": "
                      ++ exc_str e)) (log st').
Proof.
  intros Hin Hh Hs.
  destruct (healthcheck_service_reaches_lookup E st s Hin Hh)
    as (st1 & u & evs & Hc & Hev & _ & Hview).
  rewrite Hview. specialize (Hs evs). rewrite <- Hev in Hs.
  rewrite (bind_ok _ _ _ _ _ (lookup_raises E st1 u s e Hc Hs)).
  eexists. split; [reflexivity|]. cbn. auto.
Qed.

Lemma resolveOne_query_error_is_NO_DATA_witness :
  exists st',
    healthcheck_service Scenario.flaky_store "rabbitmq" initial_state
    = (Ok (no_data_response "rabbitmq"), st')
    /\ In (Log ERROR ("Error querying Elasticsearch for rabbitmq: "
                      ++ "no such index [rbcapp1-rabbitmq]")) (log st').
Proof.
  apply (resolveOne_query_error_is_NO_DATA Scenario.flaky_store initial_state
           "rabbitmq" (Exc "NotFoundError" "no such index [rbcapp1-rabbitmq]")).
  - cbn. auto.
  - reflexivity.
  - intros tr. reflexivity.
Defined.

(** C1 as worded fails: with the store reachable and the search on
    [rbcapp1-rabbitmq] raising, the answer carries NO_DATA, not UNKNOWN. *)
Lemma resolveOne_query_error_not_UNKNOWN :
  In "rabbitmq" SUPPORTED_SERVICES
  /\ healthy Scenario.flaky_store initial_state = true
  /\ (forall evs, es_search Scenario.flaky_store
                         (evs ++ trace initial_state)%list (index_name "rabbitmq")
                  = Raise (Exc "NotFoundError" "no such index [rbcapp1-rabbitmq]"))
  /\ ~ (exists resp st',
          healthcheck_service Scenario.flaky_store "rabbitmq" initial_state
          = (Ok resp, st')
          /\ getitem (body resp) "status" = Ok (JStr "UNKNOWN")).
Proof.
  split; [cbn; auto|]. split; [reflexivity|]. split; [intros tr; reflexivity|].
  intros (resp & st' & Hrun & Hstatus).
  vm_compute in Hrun. inversion Hrun; subst resp. discriminate Hstatus.
Qed.

(** *** Resolution of all services *)

Section BulkLookup.
Variable E : env.

Lemma query_one_returns (all_statuses : dict json) (s : string) (st : state) :
  exists entry st',
    query_one E all_statuses s st = (Ok (dict_set s entry all_statuses), st')
    /\ entry_for E (trace st) s entry
    /\ trace st' = EvSearch (index_name s) :: trace st
    /\ es_client st' = es_client st
    /\ clock_reads st' = clock_reads st.
Proof.
  unfold query_one, try_except, bind, search, lift, record, logger, ret,
    entry_for, found_entry, no_data_entry, error_entry.
  destruct (es_search E (trace st) (index_name s)) as [r|e] eqn:Hs;
    [destruct (has_hits r) as [[|]|e1] eqn:Hh;
     [destruct (first_source r) as [[| | | | |d]|e2] eqn:Hf| |]|];
    cbn; eexists _, _; (split; [reflexivity|]);
    repeat split; intros; congruence.
Qed.

Lemma get_all_services_status_returns (st : state) (u : string) :
  es_client st = Some u ->
  exists e1 e2 e3 st',
    get_all_services_status E st
    = (Ok (Some [("httpd", e1); ("rabbitmq", e2); ("postgresql", e3)]), st')
    /\ entry_for E (trace st) "httpd" e1
    /\ entry_for E (EvSearch (index_name "httpd") :: trace st) "rabbitmq" e2
    /\ entry_for E (EvSearch (index_name "rabbitmq")
                    :: EvSearch (index_name "httpd") :: trace st) "postgresql" e3
    /\ since st st' (map (fun s => EvSearch (index_name s))
                        (rev SUPPORTED_SERVICES))
    /\ clock_reads st' = clock_reads st.
Proof.
  intros Hc. unfold get_all_services_status, try_except.
  rewrite (bind_ok _ _ _ _ _ (get_elasticsearch_client_cached E _ _ Hc)).
  destruct (query_one_returns [] "httpd" st)
    as (e1 & st1 & Hq1 & He1 & Ht1 & _ & Hk1).
  destruct (query_one_returns (dict_set "httpd" e1 []) "rabbitmq" st1)
    as (e2 & st2 & Hq2 & He2 & Ht2 & _ & Hk2).
  destruct (query_one_returns
              (dict_set "rabbitmq" e2 (dict_set "httpd" e1 [])) "postgresql" st2)
    as (e3 & st3 & Hq3 & He3 & Ht3 & _ & Hk3).
  exists e1, e2, e3, st3.
  assert (Hloop : for_each (query_one E) SUPPORTED_SERVICES [] st
                  = (Ok [("httpd", e1); ("rabbitmq", e2); ("postgresql", e3)],
                     st3)).
  { unfold SUPPORTED_SERVICES, for_each.
    rewrite (bind_ok _ _ _ _ _ Hq1); cbv beta.
    rewrite (bind_ok _ _ _ _ _ Hq2); cbv beta.
    rewrite (bind_ok _ _ _ _ _ Hq3); cbv beta.
    reflexivity. }
  unfold SUPPORTED_SERVICES, for_each in Hloop |- *.
  rewrite (bind_ok _ _ _ _ _ Hloop). cbv beta.
  rewrite Ht1 in He2. rewrite Ht2, Ht1 in He3.
  split; [reflexivity|]. split; [exact He1|]. split; [exact He2|].
  split; [exact He3|]. split.
  - unfold since. rewrite Ht3, Ht2, Ht1. reflexivity.
  - congruence.
Qed.

Lemma searched_app (evs1 evs2 : list event) :
  searched (evs1 ++ evs2) = (searched evs2 ++ searched evs1)%list.
Proof.
  unfold searched. now rewrite rev_app_distr, flat_map_app.
Qed.

Lemma searched_no_store_access (evs : list event) :
  no_store_access evs -> searched evs = [].
Proof.
  unfold no_store_access. induction evs as [|ev evs IH]; intros H.
  - reflexivity.
  - cbn in H. apply andb_prop in H as [Hev Hevs].
    change (ev :: evs) with ([ev] ++ evs)%list.
    rewrite searched_app, (IH Hevs). destruct ev; cbn in *; congruence.
Qed.

Lemma written_app (evs1 evs2 : list event) :
  written (evs1 ++ evs2) = (written evs2 ++ written evs1)%list.
Proof.
  unfold written. now rewrite rev_app_distr, flat_map_app.
Qed.

Lemma written_no_store_access (evs : list event) :
  no_store_access evs -> written evs = [].
Proof.
  unfold no_store_access. induction evs as [|ev evs IH]; intros H.
  - reflexivity.
  - cbn in H. apply andb_prop in H as [Hev Hevs].
    change (ev :: evs) with ([ev] ++ evs)%list.
    rewrite written_app, (IH Hevs). destruct ev; cbn in *; congruence.
Qed.

(** [GET /healthcheck] on a store that the probe finds reachable. *)
Lemma healthcheck_healthy (st : state) :
  healthy E st = true ->
  exists statuses st' evs,
    healthcheck E st
    = (Ok (jsonify [("timestamp", JStr (utc_stamp (utcnow E (clock_reads st))));
                    ("services", JObj statuses)] 200), st')
    /\ dict_keys statuses = SUPPORTED_SERVICES
    /\ since st st' evs
    /\ searched evs = map index_name SUPPORTED_SERVICES
    /\ written evs = []
    /\ (forall s, In s SUPPORTED_SERVICES ->
                  exists entry evs',
                    dict_get s statuses = Some entry
                    /\ entry_for E (evs' ++ trace st)%list s entry).
Proof.
  intros Hh.
  destruct (probe_after_log E st INFO "GET /healthcheck")
    as (st1 & evs & Hrun & Hs & Hn & Hk & Hu).
  destruct (Hu Hh) as [u Hc].
  destruct (get_all_services_status_returns st1 u Hc)
    as (e1 & e2 & e3 & st2 & Hall & He1 & He2 & He3 & Hs2 & Hk2).
  unfold since in Hs, Hs2. rewrite Hs in He1, He2, He3.
  eexists _, _, (_ ++ evs)%list.
  split.
  { unfold healthcheck. unfold bind at 1, logger at 1. unfold bind at 1.
    rewrite Hrun, Hh. cbn [negb]. rewrite (bind_ok _ _ _ _ _ Hall).
    unfold bind, datetime_utcnow, logger, ret. rewrite Hk2, Hk.
    reflexivity. }
  split; [reflexivity|]. split.
  { unfold since. cbn [trace]. rewrite Hs2, Hs. now rewrite app_assoc. }
  split.
  { rewrite searched_app, (searched_no_store_access _ Hn). reflexivity. }
  split.
  { rewrite written_app, (written_no_store_access _ Hn). reflexivity. }
  intros s [<-|[<-|[<-|[]]]].
  - exists e1, evs. split; [reflexivity | exact He1].
  - exists e2, (EvSearch (index_name "httpd") :: evs). split; [reflexivity | exact He2].
  - exists e3, (EvSearch (index_name "rabbitmq")
                :: EvSearch (index_name "httpd") :: evs).
    split; [reflexivity | exact He3].
Qed.

End BulkLookup.

(** C2. On a store that the probe finds reachable, whatever each search
    does, [GET /healthcheck] answers 200 with a mapping whose keys are the
    registered services, each once; every registered index is searched,
    nothing is written; and a service whose search raises is mapped to
    ERROR. *)
Theorem resolveAll_covers_registry (E : env) (st : state) :
  healthy E st = true ->
  exists statuses st' evs,
    healthcheck E st
    = (Ok (jsonify [("timestamp", JStr (utc_stamp (utcnow E (clock_reads st))));
                    ("services", JObj statuses)] 200), st')
    /\ dict_keys statuses = SUPPORTED_SERVICES
    /\ NoDup (dict_keys statuses)
    /\ since st st' evs
    /\ searched evs = map index_name SUPPORTED_SERVICES
    /\ (forall s e,
          In s SUPPORTED_SERVICES ->
          (forall evs', es_search E (evs' ++ trace st)%list (index_name s)
                        = Raise e) ->
          dict_get s statuses = Some error_entry).
Proof.
  intros Hh.
  destruct (healthcheck_healthy E st Hh)
    as (statuses & st' & evs & Hrun & Hkeys & Hs & Hsearched & _ & Hentries).
  exists statuses, st', evs.
  split; [exact Hrun|]. split; [exact Hkeys|]. split.
  { rewrite Hkeys. unfold SUPPORTED_SERVICES.
    repeat constructor; cbn; intuition discriminate. }
  split; [exact Hs|]. split; [exact Hsearched|].
  intros s e Hin Hraise.
  destruct (Hentries s Hin) as (entry & evs' & Hget & Herr & _).
  rewrite Hget. f_equal. exact (Herr e (Hraise evs')).
Qed.

Lemma resolveAll_covers_registry_witness :
  exists statuses st' evs,
    healthcheck Scenario.flaky_store initial_state
    = (Ok (jsonify [("timestamp",
                     JStr (utc_stamp (utcnow Scenario.flaky_store
                                        (clock_reads initial_state))));
                    ("services", JObj statuses)] 200), st')
    /\ dict_keys statuses = SUPPORTED_SERVICES
    /\ NoDup (dict_keys statuses)
    /\ since initial_state st' evs
    /\ searched evs = map index_name SUPPORTED_SERVICES
    /\ (forall s e,
          In s SUPPORTED_SERVICES ->
          (forall evs', es_search Scenario.flaky_store
                          (evs' ++ trace initial_state)%list (index_name s)
                        = Raise e) ->
          dict_get s statuses = Some error_entry).
Proof.
  apply (resolveAll_covers_registry Scenario.flaky_store initial_state).
  reflexivity.
Defined.

(** C10. When the latest document of a registered service has no
    [service_status], both [GET /healthcheck/<service>] and
    [GET /healthcheck] report the status UNKNOWN for it and answer 200;
    when it has no [@timestamp], both report the timestamp N/A. *)
Theorem absent_fields_default (E : env) (st : state) (s : string)
  (r : json) (doc : dict json) :
  In s SUPPORTED_SERVICES ->
  healthy E st = true ->
  (forall evs, es_search E (evs ++ trace st)%list (index_name s) = Ok r) ->
  has_hits r = Ok true ->
  first_source r = Ok (JObj doc) ->
  (exists resp st',
     healthcheck_service E s st = (Ok resp, st')
     /\ code resp = 200
     /\ (dict_get "service_status" doc = None ->
         getitem (body resp) "status" = Ok (JStr "UNKNOWN"))
     /\ (dict_get "@timestamp" doc = None ->
         getitem (body resp) "timestamp" = Ok (JStr "N/A")))
  /\ (exists resp st' statuses entry,
        healthcheck E st = (Ok resp, st')
        /\ code resp = 200
        /\ getitem (body resp) "services" = Ok (JObj statuses)
        /\ dict_get s statuses = Some entry
        /\ (dict_get "service_status" doc = None ->
            getitem entry "status" = Ok (JStr "UNKNOWN"))
        /\ (dict_get "@timestamp" doc = None ->
            getitem entry "timestamp" = Ok (JStr "N/A"))).
Proof.
  intros Hin Hh Hs Hhits Hsrc. split.
  - destruct (healthcheck_service_reaches_lookup E st s Hin Hh)
      as (st1 & u & evs & Hc & Hev & _ & Hview).
    rewrite Hview. specialize (Hs evs). rewrite <- Hev in Hs.
    rewrite (bind_ok _ _ _ _ _ (lookup_found E st1 u s r doc Hc Hs Hhits Hsrc)).
    cbv beta iota zeta delta [report_status bind lift logger ret get_method].
    eexists _, _. split; [reflexivity|]. split; [reflexivity|].
    unfold dict_get_default. split; intros ->; reflexivity.
  - destruct (healthcheck_healthy E st Hh)
      as (statuses & st' & evs & Hrun & _ & _ & _ & _ & Hentries).
    destruct (Hentries s Hin) as (entry & evs' & Hget & _ & _ & Hfound).
    rewrite (Hfound r doc (Hs evs') Hhits Hsrc) in Hget.
    eexists _, _, statuses, _. split; [exact Hrun|].
    split; [reflexivity|]. split; [reflexivity|]. split; [exact Hget|].
    unfold found_entry, dict_get_default. split; intros ->; reflexivity.
Qed.

Lemma absent_fields_default_witness :
  (exists resp st',
     healthcheck_service Scenario.bare_store "httpd" initial_state
     = (Ok resp, st')
     /\ code resp = 200
     /\ (dict_get "service_status" [("host_name", JStr "h1")] = None ->
         getitem (body resp) "status" = Ok (JStr "UNKNOWN"))
     /\ (dict_get "@timestamp" [("host_name", JStr "h1")] = None ->
         getitem (body resp) "timestamp" = Ok (JStr "N/A")))
  /\ (exists resp st' statuses entry,
        healthcheck Scenario.bare_store initial_state = (Ok resp, st')
        /\ code resp = 200
        /\ getitem (body resp) "services" = Ok (JObj statuses)
        /\ dict_get "httpd" statuses = Some entry
        /\ (dict_get "service_status" [("host_name", JStr "h1")] = None ->
            getitem entry "status" = Ok (JStr "UNKNOWN"))
        /\ (dict_get "@timestamp" [("host_name", JStr "h1")] = None ->
            getitem entry "timestamp" = Ok (JStr "N/A"))).
Proof.
  apply (absent_fields_default Scenario.bare_store initial_state "httpd"
           (Scenario.search_result 1 [Scenario.bare_doc])
           [("host_name", JStr "h1")]).
  - cbn. auto.
  - reflexivity.
  - intros evs. reflexivity.
  - reflexivity.
  - reflexivity.
Defined.

(** *** Submission *)

Section Submission.
Variable E : env.

Lemma missing_fields_object (d : dict json) (st : state) :
  missing_fields (JObj d) st = (Ok (lacking d), st).
Proof.
  unfold missing_fields, lacking, required_fields, filter_m, filter, bind,
    lift, ret, contains.
  destruct (dict_mem "service_name" d), (dict_mem "service_status" d),
    (dict_mem "host_name" d); reflexivity.
Qed.

(** An object that lacks a required field is refused before anything
    else is looked at. *)
Lemma add_status_malformed (d : dict json) (st : state) :
  lacking d <> [] ->
  exists st',
    add_status E (json_request (JObj d)) st
    = (Ok (missing_fields_response (lacking d)), st')
    /\ same_backend st st'.
Proof.
  intros Hl. unfold add_status, json_request. cbn [is_json get_json negb].
  unfold bind at 1, logger at 1. unfold bind at 1, lift at 1.
  unfold bind at 1, logger at 1. unfold bind at 1.
  rewrite missing_fields_object.
  destruct (lacking d) as [|m ms]; [congruence|].
  unfold bind, logger, ret. eexists. split; [reflexivity|]. split; reflexivity.
Qed.

(** An object with the three fields and a name that is not registered is
    refused before the probe runs. *)
Lemma add_status_unknown (d : dict json) (st : state) :
  lacking d = [] ->
  json_in (service_name_of d) SUPPORTED_SERVICES = false ->
  exists st',
    add_status E (json_request (JObj d)) st
    = (Ok (unknown_service_add_response (service_name_of d)), st')
    /\ same_backend st st'.
Proof.
  intros Hl Hn. unfold add_status, json_request. cbn [is_json get_json negb].
  unfold bind at 1, logger at 1. unfold bind at 1, lift at 1.
  unfold bind at 1, logger at 1. unfold bind at 1.
  rewrite missing_fields_object, Hl.
  unfold bind at 1, lift at 1, get_method. fold (service_name_of d).
  rewrite Hn. cbn [negb].
  unfold bind, logger, ret. eexists. split; [reflexivity|]. split; reflexivity.
Qed.

(** An object with the three fields and a registered name reaches the
    probe, and the [try] block when the probe finds the store. *)
Lemma add_status_reaches_probe (d : dict json) (st : state) :
  lacking d = [] ->
  json_in (service_name_of d) SUPPORTED_SERVICES = true ->
  exists st1 evs,
    since st st1 evs /\ no_store_access evs
    /\ clock_reads st1 = clock_reads st
    /\ (healthy E st = true -> exists u, es_client st1 = Some u)
    /\ add_status E (json_request (JObj d)) st
       = (if negb (healthy E st) then
            logger ERROR "Cannot insert status: Elasticsearch unavailable" ;;
            ret add_unavailable_response
          else insert_status E (JObj d) (service_name_of d)) st1.
Proof.
  intros Hl Hn.
  destruct (probe_after_log E
              (State (es_client st) (trace st)
                     (Log INFO "POST /add" :: log st) (clock_reads st))
              INFO ("Received JSON: " ++ py_str (JObj d)))
    as (st1 & evs & Hrun & Hs & Hna & Hk & Hu).
  assert (Hsame : healthy E
                    (State (es_client st) (trace st)
                           (Log INFO "POST /add" :: log st) (clock_reads st))
                  = healthy E st).
  { apply healthy_same_backend. split; reflexivity. }
  rewrite Hsame in Hrun, Hu.
  exists st1, evs. split; [exact Hs|]. split; [exact Hna|].
  split; [exact Hk|]. split; [exact Hu|].
  unfold add_status, json_request. cbn [is_json get_json negb].
  unfold bind at 1, logger at 1. unfold bind at 1, lift at 1.
  unfold bind at 1, logger at 1. unfold bind at 1.
  rewrite missing_fields_object, Hl.
  unfold bind at 1, lift at 1, get_method. fold (service_name_of d).
  rewrite Hn. cbn [negb].
  unfold bind at 1. rewrite Hrun. reflexivity.
Qed.

Lemma add_status_unavailable (d : dict json) (st : state) :
  lacking d = [] ->
  json_in (service_name_of d) SUPPORTED_SERVICES = true ->
  healthy E st = false ->
  exists st' evs,
    add_status E (json_request (JObj d)) st = (Ok add_unavailable_response, st')
    /\ since st st' evs /\ no_store_access evs.
Proof.
  intros Hl Hn Hh.
  destruct (add_status_reaches_probe d st Hl Hn)
    as (st1 & evs & Hs & Hna & _ & _ & Hrun).
  rewrite Hrun, Hh. cbn [negb]. unfold bind, logger, ret.
  eexists _, evs. split; [reflexivity|]. split; assumption.
Qed.

Lemma healthcheck_service_unknown (s : string) (st : state) :
  str_in s SUPPORTED_SERVICES = false ->
  exists st',
    healthcheck_service E s st = (Ok (unknown_service_response s), st')
    /\ same_backend st st'.
Proof.
  intros Hn. unfold healthcheck_service. rewrite Hn. cbn [negb].
  unfold bind, logger, ret. eexists. split; [reflexivity|]. split; reflexivity.
Qed.

Lemma healthcheck_service_unavailable (s : string) (st : state) :
  In s SUPPORTED_SERVICES ->
  healthy E st = false ->
  exists st' evs,
    healthcheck_service E s st = (Ok (service_unavailable_response s), st')
    /\ since st st' evs /\ no_store_access evs.
Proof.
  intros Hin Hh. apply str_in_In in Hin.
  destruct (probe_after_log E st INFO
              ("GET /healthcheck/" ++ s ++ " - service: " ++ s))
    as (st1 & evs & Hrun & Hs & Hn & _ & _).
  unfold healthcheck_service. rewrite Hin. cbn [negb].
  unfold bind at 1, logger at 1. unfold bind at 1. rewrite Hrun, Hh.
  cbn [negb]. unfold bind, logger, ret.
  eexists _, evs. split; [reflexivity|]. split; assumption.
Qed.

Lemma healthcheck_unavailable (st : state) :
  healthy E st = false ->
  exists st' evs,
    healthcheck E st = (Ok all_unavailable_response, st')
    /\ since st st' evs /\ no_store_access evs.
Proof.
  intros Hh.
  destruct (probe_after_log E st INFO "GET /healthcheck")
    as (st1 & evs & Hrun & Hs & Hn & _ & _).
  unfold healthcheck.
  unfold bind at 1, logger at 1. unfold bind at 1. rewrite Hrun, Hh.
  cbn [negb]. unfold bind, logger, ret.
  eexists _, evs. split; [reflexivity|]. split; assumption.
Qed.

(** A body that is not an object is refused with 400 by the test on the
    fields, or raises there or at [data.get]; the registry, the probe and
    the store are not reached. *)
Lemma add_status_not_object (data : json) (st : state) :
  (forall d, data <> JObj d) ->
  exists o st',
    add_status E (json_request data) st = (o, st') /\ same_backend st st'
    /\ match o with Ok resp => code resp = 400 | Raise _ => True end.
Proof.
  intros Hno.
  unfold add_status, json_request, missing_fields, required_fields, filter_m.
  cbn [is_json get_json negb]. unfold bind, lift, logger, ret.
  destruct (contains data "service_name") as [[|]|e1];
    destruct (contains data "service_status") as [[|]|e2];
    destruct (contains data "host_name") as [[|]|e3]; cbn [negb];
    try (eexists _, _; split; [reflexivity | split; [split|]; reflexivity]);
    try (eexists _, _; split; [reflexivity | split; [split; reflexivity|exact I]]).
  destruct data as [| | | | |d]; cbn [get_method];
    try (eexists _, _; split; [reflexivity | split; [split; reflexivity|exact I]]).
  exfalso. now apply (Hno d).
Qed.

(** The same for any request that does not carry a JSON object. *)
Lemma add_status_without_object (req : request) (st : state) :
  (forall d, req <> json_request (JObj d)) ->
  exists o st',
    add_status E req st = (o, st') /\ same_backend st st'
    /\ match o with Ok resp => code resp = 400 | Raise _ => True end.
Proof.
  intros Hno. destruct req as [[|] [data|e]].
  - apply add_status_not_object. intros d ->. now apply (Hno d).
  - eexists _, _. split; [reflexivity|]. split; [split; reflexivity|exact I].
  - eexists _, _. split; [reflexivity|]. split; [split|]; reflexivity.
  - eexists _, _. split; [reflexivity|]. split; [split|]; reflexivity.
Qed.

Lemma json_in_string (v : json) (l : list string) :
  json_in v l = true -> exists s, v = JStr s.
Proof.
  destruct v; cbn; try discriminate. intros _. now eexists.
Qed.

(** With the store unreachable, no request to [POST /add] and no request
    to [GET /healthcheck/<service>] gets to a search or a write. *)
Lemma add_status_quiet_when_unreachable (req : request) (st : state) :
  healthy E st = false ->
  exists o st' evs,
    add_status E req st = (o, st') /\ since st st' evs /\ no_store_access evs.
Proof.
  intros Hh.
  assert (Hquiet : forall o st',
             add_status E req st = (o, st') -> same_backend st st' ->
             exists o st' evs,
               add_status E req st = (o, st')
               /\ since st st' evs /\ no_store_access evs).
  { intros o st' Hrun [_ Ht]. exists o, st', []. split; [exact Hrun|].
    split; [|reflexivity]. unfold since. now rewrite Ht. }
  destruct req as [[|] [data|e]].
  - assert (Hobj : (exists d, data = JObj d) \/ (forall d, data <> JObj d)).
    { destruct data; try (right; intros; discriminate). left. eauto. }
    destruct Hobj as [[d ->]|Hno].
    2: { destruct (add_status_not_object data st Hno)
           as (o & st' & Hrun & Hsame & _).
         exact (Hquiet _ _ Hrun Hsame). }
    destruct (lacking d) as [|m ms] eqn:Hl.
    + destruct (json_in (service_name_of d) SUPPORTED_SERVICES) eqn:Hreg.
      * destruct (add_status_unavailable d st Hl Hreg Hh)
          as (st' & evs & Hrun & Hs & Hn).
        now exists (Ok add_unavailable_response), st', evs.
      * destruct (add_status_unknown d st Hl Hreg) as (st' & Hrun & Hsame).
        exact (Hquiet _ _ Hrun Hsame).
    + destruct (add_status_malformed d st) as (st' & Hrun & Hsame).
      { rewrite Hl. discriminate. }
      exact (Hquiet _ _ Hrun Hsame).
  - apply (Hquiet (Raise e) _ eq_refl). split; reflexivity.
  - eapply Hquiet; [reflexivity|]. split; reflexivity.
  - eapply Hquiet; [reflexivity|]. split; reflexivity.
Qed.

Lemma healthcheck_service_quiet_when_unreachable (s : string) (st : state) :
  healthy E st = false ->
  exists o st' evs,
    healthcheck_service E s st = (o, st')
    /\ since st st' evs /\ no_store_access evs.
Proof.
  intros Hh. destruct (str_in s SUPPORTED_SERVICES) eqn:Hin.
  - apply str_in_In in Hin.
    destruct (healthcheck_service_unavailable s st Hin Hh)
      as (st' & evs & Hrun & Hs & Hn).
    now exists (Ok (service_unavailable_response s)), st', evs.
  - destruct (healthcheck_service_unknown s st Hin) as (st' & Hrun & _ & Ht).
    exists (Ok (unknown_service_response s)), st', []. split; [exact Hrun|].
    split; [|reflexivity]. unfold since. now rewrite Ht.
Qed.

Lemma stamped_timestamp (stamp : json) (d : dict json) :
  dict_get "timestamp" (stamped stamp d) = Some stamp
  /\ dict_get "@timestamp" (stamped stamp d) = Some stamp.
Proof.
  unfold stamped. split.
  - apply dict_get_set_same.
  - rewrite dict_get_set_other by discriminate. apply dict_get_set_same.
Qed.

Lemma stamped_keeps (k : string) (stamp : json) (d : dict json) :
  k <> "timestamp" -> k <> "@timestamp" ->
  dict_get k (stamped stamp d) = dict_get k d.
Proof.
  intros H1 H2. unfold stamped. now rewrite !dict_get_set_other.
Qed.

(** The [try] block, the client handle being there: one write of the
    stamped document, whatever the store then answers. *)
Lemma insert_status_writes (d : dict json) (s : string) (st : state) (u : string) :
  es_client st = Some u ->
  exists resp st',
    insert_status E (JObj d) (JStr s) st = (Ok resp, st')
    /\ since st st'
         [EvIndex (index_name s)
                  (JObj (stamped (JStr (utc_stamp (utcnow E (clock_reads st)))) d))]
    /\ (forall reply,
          es_index E (trace st) (index_name s)
                   (JObj (stamped (JStr (utc_stamp (utcnow E (clock_reads st)))) d))
          = Ok (JObj reply) ->
          resp = created_response s d
                   (JStr (utc_stamp (utcnow E (clock_reads st)))) reply).
Proof.
  intros Hc. unfold insert_status, try_except.
  rewrite (bind_ok _ _ _ _ _ (get_elasticsearch_client_cached E _ _ Hc)).
  cbv beta iota zeta delta [bind datetime_utcnow lift setitem getitem].
  rewrite dict_get_set_same.
  fold (stamped (JStr (utc_stamp (utcnow E (clock_reads st)))) d).
  unfold es_index_call, index_doc, record.
  change (py_str (JStr s)) with s.
  cbn [es_client trace log clock_reads].
  fold (index_name s).
  destruct (stamped_timestamp (JStr (utc_stamp (utcnow E (clock_reads st)))) d)
    as [_ Hat].
  destruct (es_index E (trace st) (index_name s) _) as [result|e] eqn:Hi.
  - unfold logger, ret, get_method at 1 2, dict_get_default.
    cbn [es_client trace log clock_reads].
    rewrite Hat, !stamped_keeps by discriminate.
    destruct result as [| | | | |reply0]; cbv beta iota delta [get_method];
      eexists _, _; (split; [reflexivity|]);
      (split; [reflexivity|]); intros reply Hr; try discriminate Hr.
    injection Hr as <-. reflexivity.
  - unfold logger, ret. cbv beta iota.
    eexists _, _. split; [reflexivity|]. split; [reflexivity|].
    intros reply Hr. discriminate Hr.
Qed.

End Submission.

(** C8. Whatever the construction of the client and the ping do, a raise
    included, the probe returns a boolean and raises nothing. *)
Theorem probe_is_total (E : env) (st : state) :
  exists (b : bool) (st' : state), is_elasticsearch_healthy E st = (Ok b, st').
Proof.
  destruct (probe_returns E st) as (b & st' & _ & Hrun & _).
  now exists b, st'.
Qed.

(** X21. On a body that is a JSON object [POST /add] applies its checks
    in the order of [spec_submit_checks]: a missing field answers 400
    whatever the name and the store; then an unregistered name answers 400
    whatever the store; then an unreachable store answers 503; the [try]
    block runs after the three. A request without a JSON object ends
    before the registry is looked at, with 400 or with an exception. The
    refusals make no call at all on the store side, and an unregistered
    name makes [GET /healthcheck/<service>] answer 400 with no call
    either. *)
Theorem submit_checks_in_order (E : env) (st : state) :
  (forall d,
   exists st' evs,
     since st st' evs /\ no_store_access evs
     /\ match spec_submit_checks E st d with
        | MalformedPayload missing =>
            add_status E (json_request (JObj d)) st
            = (Ok (missing_fields_response missing), st')
            /\ code (missing_fields_response missing) = 400 /\ evs = []
        | UnknownService name =>
            add_status E (json_request (JObj d)) st
            = (Ok (unknown_service_add_response name), st')
            /\ code (unknown_service_add_response name) = 400 /\ evs = []
        | BackendUnavailable =>
            add_status E (json_request (JObj d)) st
            = (Ok add_unavailable_response, st')
            /\ code add_unavailable_response = 503
        | Accepted =>
            add_status E (json_request (JObj d)) st
            = insert_status E (JObj d) (service_name_of d) st'
        end)
  /\ (forall req, (forall d, req <> json_request (JObj d)) ->
       exists o st',
         add_status E req st = (o, st') /\ since st st' []
         /\ match o with Ok resp => code resp = 400 | Raise _ => True end)
  /\ (forall s, ~ In s SUPPORTED_SERVICES ->
                exists st',
                  healthcheck_service E s st
                  = (Ok (unknown_service_response s), st')
                  /\ code (unknown_service_response s) = 400
                  /\ since st st' []).
Proof.
  split; [|split].
  - intros d. unfold spec_submit_checks.
    destruct (lacking d) as [|m ms] eqn:Hl.
    + destruct (json_in (service_name_of d) SUPPORTED_SERVICES) eqn:Hn;
        cbn [negb].
      * destruct (healthy E st) eqn:Hh; cbn [negb].
        -- destruct (add_status_reaches_probe E d st Hl Hn)
             as (st1 & evs & Hs & Hna & _ & _ & Hrun).
           rewrite Hh in Hrun. exists st1, evs. repeat split; assumption.
        -- destruct (add_status_unavailable E d st Hl Hn Hh)
             as (st' & evs & Hrun & Hs & Hna).
           exists st', evs. repeat split; assumption.
      * destruct (add_status_unknown E d st Hl Hn) as (st' & Hrun & _ & Ht).
        exists st', []. split; [symmetry; exact Ht|]. repeat split. exact Hrun.
    + destruct (add_status_malformed E d st) as (st' & Hrun & _ & Ht).
      { rewrite Hl. discriminate. }
      rewrite Hl in Hrun.
      exists st', []. split; [symmetry; exact Ht|]. repeat split. exact Hrun.
  - intros req Hno.
    destruct (add_status_without_object E req st Hno)
      as (o & st' & Hrun & [_ Ht] & Hcode).
    exists o, st'. split; [exact Hrun|]. split; [symmetry; exact Ht|].
    exact Hcode.
  - intros s Hnot.
    destruct (healthcheck_service_unknown E s st) as (st' & Hrun & _ & Ht).
    { destruct (str_in s SUPPORTED_SERVICES) eqn:Hin; [|reflexivity].
      apply str_in_In in Hin. contradiction. }
    exists st'. split; [exact Hrun|]. split; [reflexivity|].
    symmetry. exact Ht.
Qed.

Lemma submit_checks_in_order_witness :
  (exists st' evs,
     since initial_state st' evs /\ no_store_access evs
     /\ add_status Scenario.store_down
                   (json_request (JObj Scenario.payload_no_host)) initial_state
        = (Ok (missing_fields_response ["host_name"]), st')
     /\ code (missing_fields_response ["host_name"]) = 400 /\ evs = [])
  /\ (exists st' evs,
        since initial_state st' evs /\ no_store_access evs
        /\ add_status Scenario.store_down
                      (json_request (JObj Scenario.payload_ftp)) initial_state
           = (Ok (unknown_service_add_response (JStr "ftp")), st')
        /\ code (unknown_service_add_response (JStr "ftp")) = 400 /\ evs = [])
  /\ (exists st' evs,
        since initial_state st' evs /\ no_store_access evs
        /\ add_status Scenario.store_down
                      (json_request (JObj Scenario.payload_httpd)) initial_state
           = (Ok add_unavailable_response, st')
        /\ code add_unavailable_response = 503)
  /\ (exists o st',
        add_status Scenario.store_down (json_request (JNum 5)) initial_state
        = (o, st') /\ since initial_state st' []
        /\ match o with Ok resp => code resp = 400 | Raise _ => True end)
  /\ (exists st',
        healthcheck_service Scenario.store_down "ftp" initial_state
        = (Ok (unknown_service_response "ftp"), st')
        /\ code (unknown_service_response "ftp") = 400
        /\ since initial_state st' []).
Proof.
  destruct (submit_checks_in_order Scenario.store_down initial_state)
    as (Hobj & Hother & Hname).
  split; [exact (Hobj Scenario.payload_no_host)|].
  split; [exact (Hobj Scenario.payload_ftp)|].
  split; [exact (Hobj Scenario.payload_httpd)|].
  split.
  - apply Hother. intros d. discriminate.
  - apply Hname. cbn. intros [H|[H|[H|[]]]]; discriminate H.
Defined.

(** C3. A JSON body that is not an object is not refused as malformed.
    On a number, a boolean or [null] the test [field not in data] raises
    [TypeError]; on a list, or a string, that holds the three field names
    the test passes and [data.get] raises [AttributeError]. In each case
    the view returns no response, 400 or other, whatever the store does,
    and nothing on the store side is called. *)
Theorem submit_non_object_body_raises (E : env) (st : state) :
  (forall n, exists e st',
      add_status E (json_request (JNum n)) st = (Raise e, st')
      /\ exc_class e = "TypeError" /\ since st st' [])
  /\ (forall b, exists e st',
        add_status E (json_request (JBool b)) st = (Raise e, st')
        /\ exc_class e = "TypeError" /\ since st st' [])
  /\ (exists e st',
        add_status E (json_request JNull) st = (Raise e, st')
        /\ exc_class e = "TypeError" /\ since st st' [])
  /\ (exists e st',
        add_status E (json_request (JArr (map JStr required_fields))) st
        = (Raise e, st')
        /\ exc_class e = "AttributeError" /\ since st st' [])
  /\ (exists e st',
        add_status E
          (json_request (JStr "service_name service_status host_name")) st
        = (Raise e, st')
        /\ exc_class e = "AttributeError" /\ since st st' []).
Proof.
  unfold add_status, json_request, missing_fields, required_fields, filter_m.
  cbn [is_json get_json negb]. unfold bind, lift, logger, ret, since.
  split; [|split; [|split; [|split]]]; intros;
    eexists _, _; (split; [reflexivity|]); split; reflexivity.
Qed.

(** C6. When the probe finds the store unreachable, [GET /healthcheck],
    [GET /healthcheck/<service>] for a registered service and [POST /add]
    for a payload that passed validation each answer 503 right after the
    probe; and no request to these three endpoints, refused ones included,
    makes a search or a write. *)
Theorem unreachable_fails_fast (E : env) (st : state) :
  healthy E st = false ->
  (exists st' evs,
     healthcheck E st = (Ok all_unavailable_response, st')
     /\ code all_unavailable_response = 503
     /\ since st st' evs /\ no_store_access evs)
  /\ (forall s, In s SUPPORTED_SERVICES ->
       exists st' evs,
         healthcheck_service E s st = (Ok (service_unavailable_response s), st')
         /\ code (service_unavailable_response s) = 503
         /\ since st st' evs /\ no_store_access evs)
  /\ (forall d, lacking d = [] ->
       json_in (service_name_of d) SUPPORTED_SERVICES = true ->
       exists st' evs,
         add_status E (json_request (JObj d)) st
         = (Ok add_unavailable_response, st')
         /\ code add_unavailable_response = 503
         /\ since st st' evs /\ no_store_access evs)
  /\ (forall s, exists o st' evs,
         healthcheck_service E s st = (o, st')
         /\ since st st' evs /\ no_store_access evs)
  /\ (forall req, exists o st' evs,
         add_status E req st = (o, st')
         /\ since st st' evs /\ no_store_access evs).
Proof.
  intros Hh. split; [|split; [|split; [|split]]].
  - destruct (healthcheck_unavailable E st Hh) as (st' & evs & Hrun & Hs & Hn).
    exists st', evs. repeat split; assumption.
  - intros s Hin.
    destruct (healthcheck_service_unavailable E s st Hin Hh)
      as (st' & evs & Hrun & Hs & Hn).
    exists st', evs. repeat split; assumption.
  - intros d Hl Hreg.
    destruct (add_status_unavailable E d st Hl Hreg Hh)
      as (st' & evs & Hrun & Hs & Hn).
    exists st', evs. repeat split; assumption.
  - intros s. exact (healthcheck_service_quiet_when_unreachable E s st Hh).
  - intros req. exact (add_status_quiet_when_unreachable E req st Hh).
Qed.

Lemma unreachable_fails_fast_witness :
  (exists st' evs,
     healthcheck Scenario.store_down initial_state
     = (Ok all_unavailable_response, st')
     /\ code all_unavailable_response = 503
     /\ since initial_state st' evs /\ no_store_access evs)
  /\ (forall s, In s SUPPORTED_SERVICES ->
       exists st' evs,
         healthcheck_service Scenario.store_down s initial_state
         = (Ok (service_unavailable_response s), st')
         /\ code (service_unavailable_response s) = 503
         /\ since initial_state st' evs /\ no_store_access evs)
  /\ (forall d, lacking d = [] ->
       json_in (service_name_of d) SUPPORTED_SERVICES = true ->
       exists st' evs,
         add_status Scenario.store_down (json_request (JObj d)) initial_state
         = (Ok add_unavailable_response, st')
         /\ code add_unavailable_response = 503
         /\ since initial_state st' evs /\ no_store_access evs)
  /\ (forall s, exists o st' evs,
         healthcheck_service Scenario.store_down s initial_state = (o, st')
         /\ since initial_state st' evs /\ no_store_access evs)
  /\ (forall req, exists o st' evs,
         add_status Scenario.store_down req initial_state = (o, st')
         /\ since initial_state st' evs /\ no_store_access evs).
Proof.
  apply (unreachable_fails_fast Scenario.store_down initial_state).
  reflexivity.
Defined.

(** C5, as the code has it. For an object with the three fields and a
    registered name, a store that the probe finds reachable and a write
    that the store answers, [POST /add] sets [timestamp] and [@timestamp]
    to the current UTC time, a timestamp carried by the payload being
    replaced; it makes one write, of that document, to the index of the
    service; and it answers 201 with the service, the status and host name
    of the payload, the stamp and the identifier the store returned. *)
Theorem submit_stamps_and_writes
  (E : env) (st : state) (d : dict json) (s : string) (reply : dict json) :
  lacking d = [] ->
  service_name_of d = JStr s ->
  In s SUPPORTED_SERVICES ->
  healthy E st = true ->
  (forall evs doc,
     es_index E (evs ++ trace st)%list (index_name s) doc = Ok (JObj reply)) ->
  let stamp := JStr (utc_stamp (utcnow E (clock_reads st))) in
  exists st' evs,
    add_status E (json_request (JObj d)) st
    = (Ok (created_response s d stamp reply), st')
    /\ code (created_response s d stamp reply) = 201
    /\ since st st' evs
    /\ written evs = [(index_name s, JObj (stamped stamp d))]
    /\ searched evs = []
    /\ dict_get "timestamp" (stamped stamp d) = Some stamp
    /\ dict_get "@timestamp" (stamped stamp d) = Some stamp.
Proof.
  intros Hl Hname Hin Hh Hidx stamp.
  assert (Hreg : json_in (service_name_of d) SUPPORTED_SERVICES = true).
  { rewrite Hname. cbn [json_in]. now apply str_in_In. }
  destruct (add_status_reaches_probe E d st Hl Hreg)
    as (st1 & evs & Hs & Hna & Hk & Hu & Hrun).
  destruct (Hu Hh) as [u Hc].
  destruct (insert_status_writes E d s st1 u Hc)
    as (resp & st' & Hins & Hs' & Hresp).
  rewrite Hk in Hs', Hresp. fold stamp in Hs', Hresp.
  unfold since in Hs. rewrite Hs in Hresp.
  specialize (Hresp reply (Hidx evs _)). subst resp.
  exists st', ([EvIndex (index_name s) (JObj (stamped stamp d))] ++ evs)%list.
  split. { rewrite Hrun, Hh, Hname. exact Hins. }
  split; [reflexivity|]. split.
  { unfold since in *. rewrite Hs', Hs. now rewrite app_assoc. }
  split. { rewrite written_app, (written_no_store_access _ Hna). reflexivity. }
  split. { rewrite searched_app, (searched_no_store_access _ Hna). reflexivity. }
  apply stamped_timestamp.
Qed.

Lemma submit_stamps_and_writes_witness :
  let stamp := JStr (utc_stamp (utcnow Scenario.empty_store
                                  (clock_reads initial_state))) in
  exists st' evs,
    add_status Scenario.empty_store
               (json_request (JObj Scenario.payload_stamped)) initial_state
    = (Ok (created_response "httpd" Scenario.payload_stamped stamp
             [("_index", JStr "rbcapp1-httpd"); ("_id", JStr "Ab12");
              ("result", JStr "created")]), st')
    /\ code (created_response "httpd" Scenario.payload_stamped stamp
               [("_index", JStr "rbcapp1-httpd"); ("_id", JStr "Ab12");
                ("result", JStr "created")]) = 201
    /\ since initial_state st' evs
    /\ written evs
       = [(index_name "httpd", JObj (stamped stamp Scenario.payload_stamped))]
    /\ searched evs = []
    /\ dict_get "timestamp" (stamped stamp Scenario.payload_stamped) = Some stamp
    /\ dict_get "@timestamp" (stamped stamp Scenario.payload_stamped)
       = Some stamp.
Proof.
  apply (submit_stamps_and_writes Scenario.empty_store initial_state
           Scenario.payload_stamped "httpd").
  - reflexivity.
  - reflexivity.
  - cbn. auto.
  - reflexivity.
  - intros evs doc. reflexivity.
Defined.

(** C5 as worded fails: a payload that carries
    [timestamp = 2020-02-02T02:02:02Z] is accepted with 201, and the
    document written carries the time of the clock in [timestamp]. *)
Lemma submit_overwrites_supplied_timestamp :
  dict_get "timestamp" Scenario.payload_stamped
  = Some (JStr "2020-02-02T02:02:02Z")
  /\ exists resp st' doc,
       add_status Scenario.empty_store
                  (json_request (JObj Scenario.payload_stamped)) initial_state
       = (Ok resp, st')
       /\ code resp = 201
       /\ written (trace st') = [("rbcapp1-httpd", JObj doc)]
       /\ dict_get "timestamp" doc = Some (JStr "2025-01-09T07:05:00Z")
       /\ dict_get "timestamp" doc <> dict_get "timestamp" Scenario.payload_stamped.
Proof.
  split; [reflexivity|].
  eexists _, _, _. split; [vm_compute; reflexivity|].
  split; [reflexivity|]. split; [reflexivity|]. split; [reflexivity|].
  discriminate.
Qed.

End ApiProps.

(* ------------------------------------------------------------------ *)
(** ** Properties of the emitter *)

Module MonitorProps.
Import Monitor.

Section Props.
Variable E : env.

(** One status file: the write is attempted, with a payload that names the
    service and carries one reading of the clock in both time fields; the
    outcome of the write is the outcome of the call. *)
Lemma generate_status_json_steps (self : ServiceMonitor) (s status : string)
  (st : state) :
  exists filepath payload st',
    generate_status_json E self s status st
    = (write_file E (trace st) filepath payload, st')
    /\ getitem payload "service_name" = Ok (JStr s)
    /\ time_fields_agree payload
    /\ trace st' = EvWrite filepath payload :: trace st.
Proof.
  unfold generate_status_json, bind, datetime_utcnow, dump, logger.
  cbn [trace log clock_reads].
  match goal with
  | |- context [write_file E (trace st) ?p ?d] =>
      exists p, d; destruct (write_file E (trace st) p d) as [[]|x] eqn:Hw
  end; eexists; (split; [reflexivity|]); (split; [reflexivity|]);
    (split; [|reflexivity]);
    exists (utcnow E (clock_reads st)); split; reflexivity.
Qed.

Lemma attempted_snoc (evs : list event) (ev : event) :
  attempted (evs ++ [ev]) = service_of ev :: attempted evs.
Proof.
  unfold attempted. now rewrite rev_app_distr.
Qed.


(** Every status file of a cycle, written or not, has the two time fields
    equal. *)
Lemma loop_payloads_stamped (self : ServiceMonitor) (l : list string) :
  forall st,
  exists evs,
    since st (snd (for_each (cycle_body E self) l tt st)) evs
    /\ (forall filepath payload,
          In (EvWrite filepath payload) evs -> time_fields_agree payload).
Proof.
  induction l as [|a l IH]; intros st.
  - exists []. split; [reflexivity|]. intros ? ? [].
  - cbn [for_each]. unfold cycle_body at 1.
    destruct (generate_status_json_steps self a (get_service_status self a) st)
      as (p & d & st1 & Hrun & _ & Hagree & Ht).
    unfold bind at 1. rewrite Hrun.
    destruct (write_file E (trace st) p d) as [[]|x].
    + destruct (IH st1) as (evs & Hs & Hall).
      exists (evs ++ [EvWrite p d])%list. split.
      * unfold since in *. rewrite Hs, Ht. now rewrite <- app_assoc.
      * intros fp pl Hin. apply in_app_or in Hin as [Hin|[Heq|[]]].
        -- eapply Hall; eassumption.
        -- injection Heq as <- <-. exact Hagree.
    + exists [EvWrite p d]. split; [exact Ht|].
      intros fp pl [Heq|[]]. injection Heq as <- <-. exact Hagree.
Qed.


End Props.




End MonitorProps.

(* ------------------------------------------------------------------ *)
(** ** The write path: what is persisted *)

Module WritePath.

(** *** The printed instant *)

Lemma is_digit_digit (n : nat) : is_digit (digit n) = true.
Proof.
  unfold digit. pose proof (Nat.mod_upper_bound n 10 ltac:(discriminate)) as H.
  remember (n mod 10) as k eqn:Hk. clear Hk.
  do 10 (destruct k as [|k]; [reflexivity|]). lia.
Qed.

Lemma matches_app (p1 p2 s1 s2 : string) :
  matches p1 s1 = true -> matches p2 s2 = true ->
  matches (p1 ++ p2) (s1 ++ s2) = true.
Proof.
  revert s1. induction p1 as [|c p1 IH]; intros [|c1 s1] H1 H2; cbn in *;
    try discriminate.
  - exact H2.
  - apply andb_prop in H1 as [Hc Hs]. rewrite Hc. cbn. now apply IH.
Qed.

Lemma matches_pad (w n : nat) : matches (digits w) (pad w n) = true.
Proof.
  revert n. induction w as [|w IH]; intros n; cbn [digits pad].
  - reflexivity.
  - apply matches_app; [apply IH|].
    change (is_digit (digit n) && true = true).
    now rewrite is_digit_digit.
Qed.

(** Date and time of day, followed by anything that matches [tp]. *)
Lemma matches_date_time (t : datetime) (tp tl : string) :
  matches tp tl = true ->
  matches (digits 4 ++ "-" ++ digits 2 ++ "-" ++ digits 2 ++ "T"
           ++ digits 2 ++ ":" ++ digits 2 ++ ":" ++ digits 2 ++ tp)
          (pad 4 (year t) ++ "-" ++ pad 2 (month t) ++ "-" ++ pad 2 (day t)
           ++ "T" ++ pad 2 (hour t) ++ ":" ++ pad 2 (minute t) ++ ":"
           ++ pad 2 (second t) ++ tl) = true.
Proof.
  intros Htail.
  repeat (apply matches_app; [first [apply matches_pad | reflexivity]|]).
  exact Htail.
Qed.

Lemma utc_stamp_shape (t : datetime) : iso8601_utc_z (utc_stamp t) = true.
Proof.
  unfold iso8601_utc_z, utc_stamp, isoformat. apply orb_true_iff.
  destruct (Nat.eqb (microsecond t) 0).
  - left.
    change "dddd-dd-ddTdd:dd:ddZ"
      with ((digits 4 ++ "-" ++ digits 2 ++ "-" ++ digits 2 ++ "T"
             ++ digits 2 ++ ":" ++ digits 2 ++ ":" ++ digits 2 ++ "") ++ "Z").
    apply matches_app; [|reflexivity].
    now apply matches_date_time.
  - right.
    change "dddd-dd-ddTdd:dd:dd.ddddddZ"
      with ((digits 4 ++ "-" ++ digits 2 ++ "-" ++ digits 2 ++ "T"
             ++ digits 2 ++ ":" ++ digits 2 ++ ":" ++ digits 2
             ++ "." ++ digits 6) ++ "Z").
    apply matches_app; [|reflexivity].
    apply matches_date_time.
    apply matches_app; [reflexivity | apply matches_pad].
Qed.

(** *** What [POST /add] writes, for any request *)

Section AnyRequest.
Variable E : Api.env.
Import Api.

Lemma add_status_written (req : request) (st : state) :
  exists evs,
    since st (snd (add_status E req st)) evs
    /\ (forall i doc, In (i, doc) (written evs) -> time_fields_agree doc).
Proof.
  assert (Hquiet : forall o st',
             add_status E req st = (o, st') -> same_backend st st' ->
             exists evs,
               since st (snd (add_status E req st)) evs
               /\ (forall i doc, In (i, doc) (written evs) ->
                                 time_fields_agree doc)).
  { intros o st' Hrun [_ Ht]. exists []. rewrite Hrun. split.
    - unfold since. cbn. now rewrite Ht.
    - intros i doc []. }
  assert (Hprobe : forall o st' evs,
             add_status E req st = (o, st') -> since st st' evs ->
             no_store_access evs ->
             exists evs,
               since st (snd (add_status E req st)) evs
               /\ (forall i doc, In (i, doc) (written evs) ->
                                 time_fields_agree doc)).
  { intros o st' evs Hrun Hs Hn. exists evs. rewrite Hrun. split; [exact Hs|].
    rewrite (ApiProps.written_no_store_access _ Hn). intros i doc []. }
  destruct req as [[|] [data|e]].
  - assert (Hobj : (exists d, data = JObj d) \/ (forall d, data <> JObj d)).
    { destruct data; try (right; intros; discriminate). left. eauto. }
    destruct Hobj as [[d ->]|Hno].
    2: { destruct (ApiProps.add_status_not_object E data st Hno)
           as (o & st' & Hrun & Hsame & _).
         exact (Hquiet _ _ Hrun Hsame). }
    destruct (lacking d) as [|m ms] eqn:Hl.
    + destruct (json_in (service_name_of d) SUPPORTED_SERVICES) eqn:Hreg.
      * destruct (healthy E st) eqn:Hh.
        -- destruct (ApiProps.add_status_reaches_probe E d st Hl Hreg)
             as (st1 & evs & Hs & Hna & Hk & Hu & Hrun).
           destruct (Hu Hh) as [u Hc]. rewrite Hh in Hrun. cbn [negb] in Hrun.
           destruct (ApiProps.json_in_string _ _ Hreg) as [s Hname].
           rewrite Hname in Hrun.
           destruct (ApiProps.insert_status_writes E d s st1 u Hc)
             as (resp & st' & Hins & Hs' & _).
           eexists (_ ++ evs)%list.
           change (add_status E {| is_json := true; get_json := Ok (JObj d) |} st)
             with (add_status E (json_request (JObj d)) st).
           rewrite Hrun, Hins. split.
           ++ unfold since in *. cbn [snd]. rewrite Hs', Hs.
              now rewrite app_assoc.
           ++ intros i doc Hin.
              rewrite ApiProps.written_app,
                (ApiProps.written_no_store_access _ Hna) in Hin.
              destruct Hin as [Heq|[]]. injection Heq as _ <-.
              exists (utcnow E (clock_reads st1)). unfold getitem.
              destruct (ApiProps.stamped_timestamp
                          (JStr (utc_stamp (utcnow E (clock_reads st1)))) d)
                as [H1 H2].
              now rewrite H1, H2.
        -- destruct (ApiProps.add_status_unavailable E d st Hl Hreg Hh)
             as (st' & evs & Hrun & Hs & Hn).
           exact (Hprobe _ _ _ Hrun Hs Hn).
      * destruct (ApiProps.add_status_unknown E d st Hl Hreg)
          as (st' & Hrun & Hsame).
        exact (Hquiet _ _ Hrun Hsame).
    + destruct (ApiProps.add_status_malformed E d st) as (st' & Hrun & Hsame).
      { rewrite Hl. discriminate. }
      exact (Hquiet _ _ Hrun Hsame).
  - apply (Hquiet (Raise e) _ eq_refl). split; reflexivity.
  - eapply Hquiet; [reflexivity|]. split; reflexivity.
  - eapply Hquiet; [reflexivity|]. split; reflexivity.
Qed.

End AnyRequest.

(** C9. Every document that [POST /add] writes to the store and every
    status file of an emitter cycle has a [timestamp] and an [@timestamp]
    field; the two hold the same reading of the clock, printed as an
    ISO-8601 instant that ends in Z. *)
Theorem persisted_records_carry_both_stamps :
  (forall (E : Api.env) (req : Api.request) (st : Api.state),
     exists evs,
       Api.since st (snd (Api.add_status E req st)) evs
       /\ (forall i doc, In (i, doc) (Api.written evs) ->
                         time_fields_agree doc))
  /\ (forall (E : Monitor.env) (self : Monitor.ServiceMonitor)
             (st : Monitor.state),
       exists evs,
         Monitor.since st (snd (Monitor.monitor_all_services E self st)) evs
         /\ (forall filepath payload,
               In (Monitor.EvWrite filepath payload) evs ->
               time_fields_agree payload))
  /\ (forall t, iso8601_utc_z (utc_stamp t) = true
                /\ exists instant, utc_stamp t = instant ++ "Z").
Proof.
  split; [exact add_status_written|]. split.
  - intros E self st. unfold Monitor.monitor_all_services. cbv zeta.
    destruct (MonitorProps.loop_payloads_stamped E self
                (dict_keys (Monitor.service_status_config self)) st)
      as (evs & Hs & Hall).
    exists evs. split; [|exact Hall].
    unfold bind.
    destruct (for_each _ _ tt st) as [[[]|x] st']; exact Hs.
  - intros t. split; [apply utc_stamp_shape|].
    exists (isoformat t). reflexivity.
Qed.

Lemma persisted_records_carry_both_stamps_witness :
  (exists evs,
     Api.since Api.initial_state
       (snd (Api.add_status Scenario.empty_store
               (Api.json_request (JObj Scenario.payload_stamped))
               Api.initial_state)) evs
     /\ (forall i doc, In (i, doc) (Api.written evs) -> time_fields_agree doc))
  /\ (exists evs,
        Monitor.since Monitor.initial_state
          (snd (Monitor.monitor_all_services Scenario.disk_ok
                  Scenario.the_monitor Monitor.initial_state)) evs
        /\ (forall filepath payload,
              In (Monitor.EvWrite filepath payload) evs ->
              time_fields_agree payload))
  /\ iso8601_utc_z (utc_stamp (Scenario.clock 0)) = true.
Proof.
  destruct persisted_records_carry_both_stamps as (Hapi & Hmon & Hiso).
  split; [apply Hapi|]. split; [apply Hmon|]. apply Hiso.
Defined.

End WritePath.

(* ------------------------------------------------------------------ *)
(** ** The model at work *)

Module Examples.
Import Scenario.

Example utc_stamp_whole_second :
  utc_stamp (Datetime 2025 1 9 7 5 0 0) = "2025-01-09T07:05:00Z".
Proof. reflexivity. Qed.

Example utc_stamp_fraction :
  utc_stamp (Datetime 2025 11 30 23 59 58 1200)
  = "2025-11-30T23:59:58.001200Z".
Proof. reflexivity. Qed.

Example py_str_missing_fields :
  py_str (JArr [JStr "service_name"; JStr "host_name"])
  = "['service_name', 'host_name']".
Proof. reflexivity. Qed.

(** A text with an apostrophe is printed between double quotes, a
    backslash is doubled, a line feed is written as an escape. *)
Example py_repr_apostrophe :
  py_repr (JArr [JStr "it's"])
  = "[" ++ String double_quote ("it's" ++ String double_quote "]").
Proof. reflexivity. Qed.

Example py_repr_backslash :
  py_repr (JObj [("a\b", JStr (String (ascii_of_nat 10) ""))])
  = "{'a\\b': '\n'}".
Proof. reflexivity. Qed.

Example es_url_default : Api.es_url empty_store = "http://elasticsearch:9200".
Proof. reflexivity. Qed.

Example init_builds_the_monitor :
  fst (Monitor.init disk_ok Monitor.initial_state) = Ok the_monitor.
Proof. reflexivity. Qed.

Example the_monitor_services :
  dict_keys (Monitor.service_status_config the_monitor)
  = Monitor.configured_services.
Proof. reflexivity. Qed.

(** A submission for [httpd] is answered 201 with the status it carried. *)
Example submit_httpd_up :
  exists resp st',
    Api.add_status empty_store (Api.json_request (JObj payload_httpd))
                   Api.initial_state = (Ok resp, st')
    /\ Api.code resp = 201
    /\ getitem (Api.body resp) "status" = Ok (JStr "UP")
    /\ getitem (Api.body resp) "elasticsearch_id" = Ok (JStr "Ab12").
Proof. eexists _, _. split; [vm_compute; reflexivity|]. repeat split. Qed.

(** The latest document of [httpd] is reported as it is stored. *)
Example resolve_httpd_up :
  fst (Api.healthcheck_service flaky_store "httpd" Api.initial_state)
  = Ok (Api.jsonify [("service", JStr "httpd"); ("status", JStr "UP");
                     ("host_name", JStr "h1");
                     ("timestamp", JStr "2025-01-09T07:04:00Z")] 200).
Proof. reflexivity. Qed.

(** [GET /healthcheck/ftp] is answered 400 with the registered names. *)
Example resolve_ftp :
  exists resp st',
    Api.healthcheck_service empty_store "ftp" Api.initial_state = (Ok resp, st')
    /\ Api.code resp = 400
    /\ getitem (Api.body resp) "available_services"
       = Ok (JArr [JStr "httpd"; JStr "rabbitmq"; JStr "postgresql"]).
Proof. eexists _, _. repeat split. Qed.

(** With the store down a valid submission is answered 503 and nothing is
    written. *)
Example submit_store_down :
  exists resp st',
    Api.add_status store_down (Api.json_request (JObj payload_httpd))
                   Api.initial_state = (Ok resp, st')
    /\ Api.code resp = 503
    /\ getitem (Api.body resp) "status" = Ok (JStr "FAILED")
    /\ Api.written (Api.trace st') = [].
Proof. eexists _, _. split; [vm_compute; reflexivity|]. repeat split. Qed.

(** All services at once, one search failing. *)
Example resolve_all_flaky :
  fst (Api.healthcheck flaky_store Api.initial_state)
  = Ok (Api.jsonify
          [("timestamp", JStr "2025-01-09T07:05:00Z");
           ("services",
            JObj [("httpd", Api.status_entry (JStr "UP")
                              (JStr "2025-01-09T07:04:00Z"));
                  ("rabbitmq", Api.error_entry);
                  ("postgresql", Api.no_data_entry)])] 200).
Proof. reflexivity. Qed.

(** A JSON body that is not an object raises inside the view, before the
    registry and the store are looked at. *)
Example submit_number_raises :
  exists e st',
    Api.add_status empty_store (Api.json_request (JNum 5)) Api.initial_state
    = (Raise e, st')
    /\ exc_class e = "TypeError" /\ Api.trace st' = [].
Proof. eexists _, _. repeat split. Qed.

Example submit_list_of_names_raises :
  exists e st',
    Api.add_status empty_store
      (Api.json_request (JArr (map JStr Api.required_fields))) Api.initial_state
    = (Raise e, st')
    /\ exc_class e = "AttributeError" /\ Api.trace st' = [].
Proof. eexists _, _. repeat split. Qed.

(** Two cycles on a machine whose disk takes every file: six files, and
    the loop goes on. *)
Example two_cycles :
  fst (Monitor.main disk_ok 2 Monitor.initial_state) = Ok Monitor.Looping
  /\ Monitor.attempted
       (Monitor.trace (snd (Monitor.main disk_ok 2 Monitor.initial_state)))
     = map JStr (Monitor.configured_services ++ Monitor.configured_services).
Proof. split; vm_compute; reflexivity. Qed.

(** [Ctrl-C] during the first sleep: [main] returns. *)
Example interrupted_in_sleep :
  fst (Monitor.main
         (Monitor.Env "host1" clock (Ok tt) (fun _ _ _ => Ok tt)
                      (fun _ => Raise Monitor.KeyboardInterrupt))
         3 Monitor.initial_state)
  = Ok Monitor.Returned.
Proof. vm_compute. reflexivity. Qed.

End Examples.

(* ------------------------------------------------------------------ *)
(** ** More on the API: the client handle, the probe, the answers *)

Module ApiMore.
Import Api.

Section Handle.
Variable E : env.

Lemma get_elasticsearch_client_cases (st : state) :
  (exists u, es_client st = Some u
             /\ get_elasticsearch_client E st = (Ok (Some u), st))
  \/ (es_client st = None
      /\ exists st1,
           since st st1 [EvConstruct (es_url E)]
           /\ clock_reads st1 = clock_reads st
           /\ ((es_construct E (trace st) (es_url E) = Ok tt
                /\ es_client st1 = Some (es_url E)
                /\ get_elasticsearch_client E st
                   = (Ok (Some (es_url E)), st1))
               \/ (exists e,
                     es_construct E (trace st) (es_url E) = Raise e
                     /\ es_client st1 = None
                     /\ head (log st1)
                        = Some (Log ERROR ("Failed to create Elasticsearch client: "
                                           ++ exc_str e))
                     /\ get_elasticsearch_client E st = (Ok None, st1)))).
Proof.
  destruct (es_client st) as [u|] eqn:Hc.
  - left. exists u. split; [reflexivity|].
    now apply ApiProps.get_elasticsearch_client_cached.
  - right. split; [reflexivity|].
    unfold get_elasticsearch_client, bind, read_es_client, try_except,
      Elasticsearch, logger, write_es_client, record, ret, since.
    rewrite Hc. cbn [es_client trace log clock_reads].
    destruct (es_construct E (trace st) (es_url E)) as [[]|e];
      cbn [es_client trace log clock_reads].
    + exists (State (Some (es_url E)) (EvConstruct (es_url E) :: trace st)
                (Log INFO "Elasticsearch client created successfully"
                 :: Log INFO ("Connecting to Elasticsearch at: " ++ es_url E)
                 :: log st)
                (clock_reads st)).
      split; [reflexivity|]. split; [reflexivity|]. left. repeat split.
    + exists (State None (EvConstruct (es_url E) :: trace st)
                (Log ERROR ("Failed to create Elasticsearch client: "
                            ++ exc_str e)
                 :: Log INFO ("Connecting to Elasticsearch at: " ++ es_url E)
                 :: log st)
                (clock_reads st)).
      split; [reflexivity|]. split; [reflexivity|]. right. exists e.
      repeat split.
Qed.

End Handle.

(** X1. The handle is created on first use and reused: a call makes at
    most one construction and nothing else, and once a call has returned a
    handle every later call returns the same handle without any call to
    the outside, whatever the environment has become. *)
Theorem client_handle_is_reused (E : env) (st : state) :
  exists o st1 evs,
    get_elasticsearch_client E st = (Ok o, st1)
    /\ es_client st1 = o
    /\ since st st1 evs
    /\ constructions evs <= 1 /\ pings evs = 0 /\ no_store_access evs
    /\ (forall c, o = Some c ->
         forall E', get_elasticsearch_client E' st1 = (Ok (Some c), st1)).
Proof.
  destruct (get_elasticsearch_client_cases E st)
    as [(u & Hc & Hrun)|(Hc & st1 & Hs & _ & [(_ & Hc1 & Hrun)|(e & _ & Hc1 & _ & Hrun)])].
  - exists (Some u), st, []. repeat split; auto.
    intros c [= <-] E'. now apply ApiProps.get_elasticsearch_client_cached.
  - exists (Some (es_url E)), st1, [EvConstruct (es_url E)]. repeat split; auto.
    intros c [= <-] E'. now apply ApiProps.get_elasticsearch_client_cached.
  - exists None, st1, [EvConstruct (es_url E)]. repeat split; auto.
    intros c [=].
Qed.

Lemma client_handle_is_reused_witness :
  exists o st1 evs,
    get_elasticsearch_client Scenario.empty_store initial_state = (Ok o, st1)
    /\ es_client st1 = o
    /\ since initial_state st1 evs
    /\ constructions evs <= 1 /\ pings evs = 0 /\ no_store_access evs
    /\ (forall c, o = Some c ->
         forall E', get_elasticsearch_client E' st1 = (Ok (Some c), st1)).
Proof.
  exact (client_handle_is_reused Scenario.empty_store initial_state).
Defined.

(** X2. A construction that raises does not poison the handle: the call
    returns [None], logs the error and leaves [es_client] at [None], and
    the next call constructs again and returns the handle if the
    construction then succeeds. *)
Theorem failed_construction_is_retried (E : env) (st : state) (e : exc) :
  es_client st = None ->
  es_construct E (trace st) (es_url E) = Raise e ->
  exists st1,
    get_elasticsearch_client E st = (Ok None, st1)
    /\ es_client st1 = None
    /\ since st st1 [EvConstruct (es_url E)]
    /\ head (log st1)
       = Some (Log ERROR ("Failed to create Elasticsearch client: " ++ exc_str e))
    /\ (es_construct E (trace st1) (es_url E) = Ok tt ->
        exists st2,
          get_elasticsearch_client E st1 = (Ok (Some (es_url E)), st2)
          /\ es_client st2 = Some (es_url E)
          /\ since st1 st2 [EvConstruct (es_url E)]).
Proof.
  intros Hc Hfail.
  destruct (get_elasticsearch_client_cases E st)
    as [(u & Hc' & _)|(_ & st1 & Hs & _ & [(Hok & _)|(e' & He' & Hc1 & Hlog & Hrun)])];
    try congruence.
  assert (e' = e) by congruence. subst e'.
  exists st1. repeat split; auto.
  intros Hok.
  destruct (get_elasticsearch_client_cases E st1)
    as [(u & Hc' & _)|(_ & st2 & Hs2 & _ & [(_ & Hc2 & Hrun2)|(e2 & He2 & _)])];
    try congruence.
  exists st2. repeat split; auto.
Qed.

Lemma failed_construction_is_retried_witness :
  exists st1,
    get_elasticsearch_client Scenario.store_late initial_state = (Ok None, st1)
    /\ es_client st1 = None
    /\ since initial_state st1 [EvConstruct (es_url Scenario.store_late)]
    /\ head (log st1)
       = Some (Log ERROR ("Failed to create Elasticsearch client: "
                          ++ "URL must include a 'scheme'"))
    /\ (es_construct Scenario.store_late (trace st1)
                     (es_url Scenario.store_late) = Ok tt ->
        exists st2,
          get_elasticsearch_client Scenario.store_late st1
          = (Ok (Some (es_url Scenario.store_late)), st2)
          /\ es_client st2 = Some (es_url Scenario.store_late)
          /\ since st1 st2 [EvConstruct (es_url Scenario.store_late)]).
Proof.
  apply (failed_construction_is_retried Scenario.store_late initial_state
           (Exc "ValueError" "URL must include a 'scheme'")).
  - reflexivity.
  - reflexivity.
Defined.

Section Probe.
Variable E : env.

(** The probe, by what the handle and the ping do. *)
Lemma probe_cases (st : state) :
  exists o st1,
    get_elasticsearch_client E st = (Ok o, st1)
    /\ match o with
       | None =>
           exists st', is_elasticsearch_healthy E st = (Ok false, st')
                       /\ trace st' = trace st1 /\ es_client st' = None
       | Some c =>
           exists st',
             is_elasticsearch_healthy E st
             = (Ok (match es_ping E (trace st1) with
                    | Ok b => b
                    | Raise _ => false
                    end), st')
             /\ trace st' = EvPing :: trace st1 /\ es_client st' = Some c
       end.
Proof.
  destruct (get_elasticsearch_client_cases E st)
    as [(u & Hc & Hrun)|(Hc & st1 & Hs & _ & [(_ & Hc1 & Hrun)|(e & _ & Hc1 & _ & Hrun)])].
  - exists (Some u), st. split; [exact Hrun|].
    unfold is_elasticsearch_healthy, try_except.
    rewrite (bind_ok _ _ _ _ _ Hrun). unfold bind, ping, record, logger, ret.
    destruct (es_ping E (trace st)) as [[|]|e]; eexists;
      (split; [reflexivity|]); split; [reflexivity | exact Hc | reflexivity
                                       | exact Hc | reflexivity | exact Hc].
  - exists (Some (es_url E)), st1. split; [exact Hrun|].
    unfold is_elasticsearch_healthy, try_except.
    rewrite (bind_ok _ _ _ _ _ Hrun). unfold bind, ping, record, logger, ret.
    destruct (es_ping E (trace st1)) as [[|]|e]; eexists;
      (split; [reflexivity|]); split; [reflexivity | exact Hc1 | reflexivity
                                       | exact Hc1 | reflexivity | exact Hc1].
  - exists None, st1. split; [exact Hrun|].
    unfold is_elasticsearch_healthy, try_except.
    rewrite (bind_ok _ _ _ _ _ Hrun). unfold bind, logger, ret.
    eexists. split; [reflexivity|]. split; [reflexivity | exact Hc1].
Qed.

(** What one probe calls. *)
Lemma probe_events (st : state) :
  exists b st' evs,
    is_elasticsearch_healthy E st = (Ok b, st')
    /\ since st st' evs
    /\ ((es_client st <> None /\ evs = [EvPing])
        \/ (es_client st = None /\ es_client st' <> None
            /\ evs = [EvPing; EvConstruct (es_url E)])
        \/ (es_client st = None /\ es_client st' = None
            /\ evs = [EvConstruct (es_url E)])).
Proof.
  destruct (probe_cases st) as (o & st1 & Hget & Hprobe).
  destruct (get_elasticsearch_client_cases E st)
    as [(u & Hc & Hrun)|(Hc & st1' & Hs & _ & Hcase)].
  - rewrite Hrun in Hget. injection Hget as <- <-.
    destruct Hprobe as (st' & Hp & Ht & Hc').
    eexists _, st', [EvPing]. split; [exact Hp|]. split; [exact Ht|].
    left. split; congruence.
  - assert (Hst1 : exists o', get_elasticsearch_client E st = (Ok o', st1')
                              /\ es_client st1' = o').
    { destruct Hcase as [(_ & Hc1 & Hrun)|(e & _ & Hc1 & _ & Hrun)]; eauto. }
    destruct Hst1 as (o' & Hrun & Hc1). rewrite Hrun in Hget.
    injection Hget as <- <-. unfold since in Hs.
    destruct o' as [c|]; destruct Hprobe as (st' & Hp & Ht & Hc').
    + eexists _, st', [EvPing; EvConstruct (es_url E)].
      split; [exact Hp|]. split; [unfold since; now rewrite Ht, Hs|].
      right. left. repeat split; congruence.
    + eexists _, st', [EvConstruct (es_url E)].
      split; [exact Hp|]. split; [unfold since; now rewrite Ht, Hs|].
      right. right. repeat split; congruence.
Qed.

End Probe.

(** X3. The probe answers True exactly when a handle is there (cached, or
    just constructed) and the ping made on it returns True; a ping that
    returns False or raises, and a missing handle, all give False. One
    probe makes at most one construction and at most one ping, no ping
    without a handle, and only the ping when the handle was cached. *)
Theorem probe_true_iff_ping (E : env) (st : state) :
  (healthy E st = true <->
   exists c st1, get_elasticsearch_client E st = (Ok (Some c), st1)
                 /\ es_ping E (trace st1) = Ok true)
  /\ exists b st' evs,
       is_elasticsearch_healthy E st = (Ok b, st')
       /\ since st st' evs
       /\ pings evs <= 1 /\ constructions evs <= 1
       /\ (es_client st' = None -> pings evs = 0)
       /\ (forall u, es_client st = Some u -> evs = [EvPing]).
Proof.
  destruct (probe_cases E st) as (o & st1 & Hget & Hprobe).
  destruct (get_elasticsearch_client_cases E st)
    as [(u & Hc & Hrun)|(Hc & st1' & Hs & _ & Hcase)].
  - rewrite Hrun in Hget. injection Hget as <- <-.
    destruct Hprobe as (st' & Hp & Ht & Hc').
    split.
    + unfold healthy. rewrite Hp. split.
      * intros Hb. exists u, st. split; [exact Hrun|].
        destruct (es_ping E (trace st)) as [[|]|]; congruence.
      * intros (c & st2 & Hg & Hping). rewrite Hrun in Hg.
        injection Hg as <- <-. now rewrite Hping.
    + eexists _, st', [EvPing]. split; [exact Hp|]. split; [exact Ht|].
      cbn. repeat split; auto. congruence.
  - assert (Hst1 : exists o', get_elasticsearch_client E st = (Ok o', st1')
                              /\ es_client st1' = o').
    { destruct Hcase as [(_ & Hc1 & Hrun)|(e & _ & Hc1 & _ & Hrun)]; eauto. }
    destruct Hst1 as (o' & Hrun & Hc1). rewrite Hrun in Hget.
    injection Hget as <- <-. unfold since in Hs.
    destruct o' as [c|].
    + destruct Hprobe as (st' & Hp & Ht & Hc').
      split.
      * unfold healthy. rewrite Hp. split.
        -- intros Hb. exists c, st1'. split; [exact Hrun|].
           destruct (es_ping E (trace st1')) as [[|]|]; congruence.
        -- intros (c2 & st2 & Hg & Hping). rewrite Hrun in Hg.
           injection Hg as <- <-. now rewrite Hping.
      * eexists _, st', [EvPing; EvConstruct (es_url E)].
        split; [exact Hp|]. split; [unfold since; now rewrite Ht, Hs|].
        cbn. repeat split; auto; congruence.
    + destruct Hprobe as (st' & Hp & Ht & Hc').
      split.
      * unfold healthy. rewrite Hp. split; [discriminate|].
        intros (c2 & st2 & Hg & _). rewrite Hrun in Hg. discriminate Hg.
      * eexists _, st', [EvConstruct (es_url E)].
        split; [exact Hp|]. split; [unfold since; now rewrite Ht, Hs|].
        cbn. repeat split; auto; congruence.
Qed.

(** X4. [GET /health] answers 200 with status healthy when the probe
    answers True and 503 with status unhealthy otherwise; it never raises
    and makes no search and no write. *)
Theorem health_reports_the_probe (E : env) (st : state) :
  exists st' evs,
    health E st
    = (Ok (if healthy E st then jsonify [("status", JStr "healthy")] 200
           else jsonify [("status", JStr "unhealthy")] 503), st')
    /\ since st st' evs /\ no_store_access evs /\ pings evs <= 1.
Proof.
  set (st0 := State (es_client st) (trace st)
                    (Log INFO "GET /health" :: log st) (clock_reads st)).
  destruct (probe_events E st0) as (b & st1 & evs & Hrun & Hs & Hev).
  assert (Hb : healthy E st = b).
  { rewrite (ApiProps.healthy_same_backend E st st0) by (split; reflexivity).
    unfold healthy. now rewrite Hrun. }
  unfold health. unfold bind at 1, logger at 1. unfold bind at 1.
  fold st0. rewrite Hrun, Hb.
  assert (Hquiet : no_store_access evs /\ pings evs <= 1).
  { destruct Hev as [(_ & ->)|[(_ & _ & ->)|(_ & _ & ->)]];
      unfold no_store_access, pings; cbn; split; (reflexivity || lia). }
  destruct b; unfold bind, logger, ret;
    eexists _, evs; (split; [reflexivity|]); (split; [exact Hs|]);
    exact Hquiet.
Qed.

Section Reads.
Variable E : env.

(** The single lookup, the handle being there: one search, and [None] or
    an object. *)
Lemma lookup_returns (st : state) (u s : string) :
  es_client st = Some u ->
  exists o st',
    get_service_status_from_elasticsearch E s st = (Ok o, st')
    /\ trace st' = EvSearch (index_name s) :: trace st
    /\ es_client st' = Some u
    /\ (o = None \/ exists doc, o = Some (JObj doc))
    /\ (forall r, es_search E (trace st) (index_name s) = Ok r ->
                  unreadable r ->
                  o = None
                  /\ exists e, head (log st')
                               = Some (Log ERROR
                                         ("Error querying Elasticsearch for "
                                          ++ s ++ ": " ++ exc_str e))).
Proof.
  intros Hc. unfold get_service_status_from_elasticsearch, try_except.
  rewrite (bind_ok _ _ _ _ _
             (ApiProps.get_elasticsearch_client_cached E _ _ Hc)).
  unfold bind, search, record, lift, unreadable.
  destruct (es_search E (trace st) (index_name s)) as [r|e] eqn:Hs;
    [destruct (has_hits r) as [[|]|e1] eqn:Hh;
     [destruct (first_source r) as [[| | | | |d]|e2] eqn:Hf| |]|];
    cbv beta iota delta [get_method logger ret];
    cbn [es_client trace log clock_reads];
    eexists _, _; (split; [reflexivity|]); (split; [reflexivity|]);
    (split; [exact Hc|]);
    (split; [first [left; reflexivity | right; eexists; reflexivity]|]);
    intros r' Hr' Hun;
    first
      [ discriminate Hr'
      | injection Hr' as <-;
        first
          [ split; [reflexivity | eexists; reflexivity]
          | destruct Hun as [(e' & He')|(Ht & Hno)];
            [congruence
            | first [congruence | exfalso; eapply Hno; eassumption]] ] ].
Qed.

Lemma report_status_returns (s : string) (o : option json) (st : state) :
  (o = None \/ exists doc, o = Some (JObj doc)) ->
  exists resp st',
    report_status s o st = (Ok resp, st')
    /\ code resp = 200 /\ same_backend st st'.
Proof.
  intros [->|(doc & ->)];
    cbv beta iota zeta delta [report_status bind lift logger ret get_method];
    eexists _, _; (split; [reflexivity|]); split; [reflexivity | split; reflexivity
                                                   | reflexivity | split; reflexivity].
Qed.

End Reads.

(** X5. [GET /healthcheck/<service>] always answers, and never with 500:
    400 exactly when the name is not registered, 503 exactly when it is
    and the probe answers False, 200 otherwise. It makes at most one
    search, on the index of the service, and never writes. *)
Theorem resolveOne_always_answers (E : env) (st : state) (s : string) :
  exists resp st' evs,
    healthcheck_service E s st = (Ok resp, st')
    /\ code resp
       = (if negb (str_in s SUPPORTED_SERVICES) then 400
          else if healthy E st then 200 else 503)
    /\ since st st' evs
    /\ written evs = []
    /\ searched evs
       = (if str_in s SUPPORTED_SERVICES && healthy E st
          then [index_name s] else []).
Proof.
  destruct (str_in s SUPPORTED_SERVICES) eqn:Hin; cbn [negb andb].
  - apply str_in_In in Hin.
    destruct (healthy E st) eqn:Hh.
    + destruct (ApiProps.healthcheck_service_reaches_lookup E st s Hin Hh)
        as (st1 & u & evs & Hc & Hs & Hn & Hview).
      destruct (lookup_returns E st1 u s Hc)
        as (o & st2 & Hlook & Ht2 & _ & Ho & _).
      destruct (report_status_returns s o st2 Ho)
        as (resp & st3 & Hrep & Hcode & _ & Ht3).
      exists resp, st3, (EvSearch (index_name s) :: evs).
      split. { rewrite Hview, (bind_ok _ _ _ _ _ Hlook). exact Hrep. }
      split; [exact Hcode|]. split.
      { unfold since in *. now rewrite <- Ht3, Ht2, Hs. }
      change (EvSearch (index_name s) :: evs)
        with ([EvSearch (index_name s)] ++ evs)%list.
      rewrite ApiProps.written_app, ApiProps.searched_app,
        (ApiProps.written_no_store_access _ Hn),
        (ApiProps.searched_no_store_access _ Hn).
      split; reflexivity.
    + destruct (ApiProps.healthcheck_service_unavailable E s st Hin Hh)
        as (st' & evs & Hrun & Hs & Hn).
      exists (service_unavailable_response s), st', evs.
      split; [exact Hrun|]. split; [reflexivity|]. split; [exact Hs|].
      split; [now apply ApiProps.written_no_store_access
             | now apply ApiProps.searched_no_store_access].
  - destruct (ApiProps.healthcheck_service_unknown E s st Hin)
      as (st' & Hrun & _ & Ht).
    exists (unknown_service_response s), st', [].
    split; [exact Hrun|]. split; [reflexivity|].
    split; [unfold since; now rewrite Ht|]. split; reflexivity.
Qed.

(** X6. [GET /healthcheck] always answers 200 or 503, by what the probe
    says: the branch that answers 500 is never taken, since after a probe
    that answered True the handle is there and every failure inside the
    loop is caught. It never writes. *)
Theorem resolveAll_never_500 (E : env) (st : state) :
  exists resp st' evs,
    healthcheck E st = (Ok resp, st')
    /\ code resp = (if healthy E st then 200 else 503)
    /\ since st st' evs
    /\ written evs = []
    /\ searched evs
       = (if healthy E st then map index_name SUPPORTED_SERVICES else []).
Proof.
  destruct (healthy E st) eqn:Hh.
  - destruct (ApiProps.healthcheck_healthy E st Hh)
      as (statuses & st' & evs & Hrun & _ & Hs & Hsearched & Hwritten & _).
    eexists _, st', evs. split; [exact Hrun|]. split; [reflexivity|].
    split; [exact Hs|]. split; assumption.
  - destruct (ApiProps.healthcheck_unavailable E st Hh)
      as (st' & evs & Hrun & Hs & Hn).
    exists all_unavailable_response, st', evs.
    split; [exact Hrun|]. split; [reflexivity|]. split; [exact Hs|].
    split; [now apply ApiProps.written_no_store_access
           | now apply ApiProps.searched_no_store_access].
Qed.

Section Compare.
Variable E : env.

Lemma query_one_unreadable (acc : dict json) (s : string) (st : state) (r : json) :
  es_search E (trace st) (index_name s) = Ok r ->
  unreadable r ->
  exists st', query_one E acc s st = (Ok (dict_set s error_entry acc), st').
Proof.
  intros Hs Hun. unfold query_one, try_except, bind, search, record, lift.
  rewrite Hs. destruct Hun as [(e & He)|(Ht & Hno)].
  - rewrite He. eexists. reflexivity.
  - rewrite Ht.
    destruct (first_source r) as [[| | | | |d]|e2] eqn:Hf;
      try (eexists; reflexivity).
    exfalso. now apply (Hno d).
Qed.

(** The entries of the bulk lookup are those that [query_one] stores, one
    run per registered service, each after the calls of the request so
    far. *)
Lemma bulk_entries (st : state) (u : string) :
  es_client st = Some u ->
  exists statuses st',
    get_all_services_status E st = (Ok (Some statuses), st')
    /\ clock_reads st' = clock_reads st
    /\ forall s, In s SUPPORTED_SERVICES ->
         exists entry acc stk stk' evs',
           dict_get s statuses = Some entry
           /\ query_one E acc s stk = (Ok (dict_set s entry acc), stk')
           /\ trace stk = (evs' ++ trace st)%list.
Proof.
  intros Hc. unfold get_all_services_status, try_except.
  rewrite (bind_ok _ _ _ _ _
             (ApiProps.get_elasticsearch_client_cached E _ _ Hc)).
  destruct (ApiProps.query_one_returns E [] "httpd" st)
    as (e1 & st1 & Hq1 & _ & Ht1 & _ & Hk1).
  destruct (ApiProps.query_one_returns E (dict_set "httpd" e1 []) "rabbitmq" st1)
    as (e2 & st2 & Hq2 & _ & Ht2 & _ & Hk2).
  destruct (ApiProps.query_one_returns E
              (dict_set "rabbitmq" e2 (dict_set "httpd" e1 [])) "postgresql" st2)
    as (e3 & st3 & Hq3 & _ & Ht3 & _ & Hk3).
  assert (Hloop : for_each (query_one E) SUPPORTED_SERVICES [] st
                  = (Ok [("httpd", e1); ("rabbitmq", e2); ("postgresql", e3)],
                     st3)).
  { unfold SUPPORTED_SERVICES, for_each.
    rewrite (bind_ok _ _ _ _ _ Hq1); cbv beta.
    rewrite (bind_ok _ _ _ _ _ Hq2); cbv beta.
    rewrite (bind_ok _ _ _ _ _ Hq3); cbv beta.
    reflexivity. }
  rewrite (bind_ok _ _ _ _ _ Hloop). cbv beta.
  eexists _, st3. split; [reflexivity|]. split; [congruence|].
  intros s [<-|[<-|[<-|[]]]].
  - exists e1, [], st, st1, []. repeat split. exact Hq1.
  - exists e2, (dict_set "httpd" e1 []), st1, st2, [EvSearch (index_name "httpd")].
    repeat split; [exact Hq2 | now rewrite Ht1].
  - exists e3, (dict_set "rabbitmq" e2 (dict_set "httpd" e1 [])), st2, st3,
      [EvSearch (index_name "rabbitmq"); EvSearch (index_name "httpd")].
    repeat split; [exact Hq3 | now rewrite Ht2, Ht1].
Qed.

Lemma healthcheck_entries (st : state) :
  healthy E st = true ->
  exists statuses st',
    healthcheck E st
    = (Ok (jsonify [("timestamp", JStr (utc_stamp (utcnow E (clock_reads st))));
                    ("services", JObj statuses)] 200), st')
    /\ forall s, In s SUPPORTED_SERVICES ->
         exists entry acc stk stk' evs',
           dict_get s statuses = Some entry
           /\ query_one E acc s stk = (Ok (dict_set s entry acc), stk')
           /\ trace stk = (evs' ++ trace st)%list.
Proof.
  intros Hh.
  destruct (ApiProps.probe_after_log E st INFO "GET /healthcheck")
    as (st1 & evs & Hrun & Hs & _ & Hk & Hu).
  destruct (Hu Hh) as [u Hc].
  destruct (bulk_entries st1 u Hc) as (statuses & st2 & Hall & Hk2 & Hent).
  exists statuses. eexists. split.
  { unfold healthcheck. unfold bind at 1, logger at 1. unfold bind at 1.
    rewrite Hrun, Hh. cbn [negb]. rewrite (bind_ok _ _ _ _ _ Hall).
    unfold bind, datetime_utcnow, logger, ret. rewrite Hk2, Hk.
    reflexivity. }
  intros s Hin.
  destruct (Hent s Hin) as (entry & acc & stk & stk' & evs' & Hget & Hq & Ht).
  exists entry, acc, stk, stk', (evs' ++ evs)%list.
  split; [exact Hget|]. split; [exact Hq|].
  unfold since in Hs. now rewrite Ht, Hs, app_assoc.
Qed.

End Compare.

(** X7. A search that returns a body the code cannot read (no count of
    hits, or hits announced without an object as first [_source]) is
    treated as a failed query on both paths, and the two paths name it
    differently: [GET /healthcheck/<service>] answers 200 with NO_DATA and
    logs the error, [GET /healthcheck] maps the service to ERROR. *)
Theorem unreadable_result_NO_DATA_single_ERROR_bulk
  (E : env) (st : state) (s : string) (r : json) :
  In s SUPPORTED_SERVICES ->
  healthy E st = true ->
  (forall evs, es_search E (evs ++ trace st)%list (index_name s) = Ok r) ->
  unreadable r ->
  (exists st' e,
     healthcheck_service E s st = (Ok (no_data_response s), st')
     /\ head (log st')
        = Some (Log INFO ("No data found for " ++ s))
     /\ In (Log ERROR ("Error querying Elasticsearch for " ++ s ++ ": "
                       ++ exc_str e)) (log st'))
  /\ (exists resp st' statuses,
        healthcheck E st = (Ok resp, st')
        /\ code resp = 200
        /\ getitem (body resp) "services" = Ok (JObj statuses)
        /\ dict_get s statuses = Some error_entry).
Proof.
  intros Hin Hh Hs Hun. split.
  - destruct (ApiProps.healthcheck_service_reaches_lookup E st s Hin Hh)
      as (st1 & u & evs & Hc & Hev & _ & Hview).
    destruct (lookup_returns E st1 u s Hc)
      as (o & st2 & Hlook & _ & _ & _ & Hbad).
    unfold since in Hev. rewrite Hev in Hbad.
    destruct (Hbad r (Hs evs) Hun) as (-> & e & Hlog).
    rewrite Hview, (bind_ok _ _ _ _ _ Hlook).
    unfold report_status, bind, logger, ret.
    eexists _, e. split; [reflexivity|]. split; [reflexivity|].
    cbn [log]. right.
    destruct (log st2) as [|l ls]; [discriminate Hlog|].
    injection Hlog as ->. now left.
  - destruct (healthcheck_entries E st Hh) as (statuses & st' & Hrun & Hent).
    destruct (Hent s Hin)
      as (entry & acc & stk & stk' & evs' & Hget & Hq & Ht).
    destruct (query_one_unreadable E acc s stk r) as (stk2 & Hq2);
      [rewrite Ht; apply Hs | exact Hun |].
    rewrite Hq in Hq2. injection Hq2 as Hd _.
    assert (Heq : Some entry = Some error_entry).
    { rewrite <- (dict_get_set_same s entry acc),
        <- (dict_get_set_same s error_entry acc). now rewrite Hd. }
    injection Heq as ->.
    eexists _, st', statuses. split; [exact Hrun|].
    split; [reflexivity|]. split; [reflexivity | exact Hget].
Qed.

Lemma unreadable_result_NO_DATA_single_ERROR_bulk_witness :
  (exists st' e,
     healthcheck_service Scenario.store_garbled "httpd" initial_state
     = (Ok (no_data_response "httpd"), st')
     /\ head (log st') = Some (Log INFO ("No data found for " ++ "httpd"))
     /\ In (Log ERROR ("Error querying Elasticsearch for " ++ "httpd" ++ ": "
                       ++ exc_str e)) (log st'))
  /\ (exists resp st' statuses,
        healthcheck Scenario.store_garbled initial_state = (Ok resp, st')
        /\ code resp = 200
        /\ getitem (body resp) "services" = Ok (JObj statuses)
        /\ dict_get "httpd" statuses = Some error_entry).
Proof.
  apply (unreadable_result_NO_DATA_single_ERROR_bulk Scenario.store_garbled
           initial_state "httpd" (JObj [("took", JNum 3)])).
  - cbn. auto.
  - reflexivity.
  - intros evs. reflexivity.
  - left. eexists. reflexivity.
Defined.

(** X8. When the latest document of a registered service is found, both
    read paths report it verbatim: the single answer carries its
    [service_status], [host_name] and [@timestamp] (the document's own
    [timestamp] field is not read), the bulk answer carries the same
    status and timestamp; one search is made on the single path. *)
Theorem found_document_is_reported_verbatim
  (E : env) (st : state) (s : string) (r : json) (doc : dict json) :
  In s SUPPORTED_SERVICES ->
  healthy E st = true ->
  (forall evs, es_search E (evs ++ trace st)%list (index_name s) = Ok r) ->
  has_hits r = Ok true ->
  first_source r = Ok (JObj doc) ->
  (exists st',
     healthcheck_service E s st = (Ok (found_response s doc), st')
     /\ (forall v, dict_get "service_status" doc = Some v ->
                   getitem (body (found_response s doc)) "status" = Ok v)
     /\ (forall v, dict_get "host_name" doc = Some v ->
                   getitem (body (found_response s doc)) "host_name" = Ok v)
     /\ (forall v, dict_get "@timestamp" doc = Some v ->
                   getitem (body (found_response s doc)) "timestamp" = Ok v))
  /\ (exists resp st' statuses,
        healthcheck E st = (Ok resp, st')
        /\ getitem (body resp) "services" = Ok (JObj statuses)
        /\ dict_get s statuses = Some (found_entry doc)
        /\ getitem (found_entry doc) "status"
           = getitem (body (found_response s doc)) "status"
        /\ getitem (found_entry doc) "timestamp"
           = getitem (body (found_response s doc)) "timestamp").
Proof.
  intros Hin Hh Hs Hhits Hsrc. split.
  - destruct (ApiProps.healthcheck_service_reaches_lookup E st s Hin Hh)
      as (st1 & u & evs & Hc & Hev & _ & Hview).
    rewrite Hview. specialize (Hs evs). rewrite <- Hev in Hs.
    rewrite (bind_ok _ _ _ _ _
               (ApiProps.lookup_found E st1 u s r doc Hc Hs Hhits Hsrc)).
    cbv beta iota zeta delta [report_status bind lift logger ret get_method].
    eexists. split; [reflexivity|].
    unfold found_response, dict_get_default.
    repeat split; intros v ->; reflexivity.
  - destruct (ApiProps.healthcheck_healthy E st Hh)
      as (statuses & st' & evs & Hrun & _ & _ & _ & _ & Hentries).
    destruct (Hentries s Hin) as (entry & evs' & Hget & _ & _ & Hfound).
    rewrite (Hfound r doc (Hs evs') Hhits Hsrc) in Hget.
    eexists _, st', statuses. split; [exact Hrun|].
    split; [reflexivity|]. split; [exact Hget|]. split; reflexivity.
Qed.

Lemma found_document_is_reported_verbatim_witness :
  (exists st',
     healthcheck_service Scenario.flaky_store "httpd" initial_state
     = (Ok (found_response "httpd" Scenario.httpd_up_fields), st')
     /\ (forall v, dict_get "service_status" Scenario.httpd_up_fields = Some v ->
                   getitem (body (found_response "httpd" Scenario.httpd_up_fields))
                           "status" = Ok v)
     /\ (forall v, dict_get "host_name" Scenario.httpd_up_fields = Some v ->
                   getitem (body (found_response "httpd" Scenario.httpd_up_fields))
                           "host_name" = Ok v)
     /\ (forall v, dict_get "@timestamp" Scenario.httpd_up_fields = Some v ->
                   getitem (body (found_response "httpd" Scenario.httpd_up_fields))
                           "timestamp" = Ok v))
  /\ (exists resp st' statuses,
        healthcheck Scenario.flaky_store initial_state = (Ok resp, st')
        /\ getitem (body resp) "services" = Ok (JObj statuses)
        /\ dict_get "httpd" statuses
           = Some (found_entry Scenario.httpd_up_fields)
        /\ getitem (found_entry Scenario.httpd_up_fields) "status"
           = getitem (body (found_response "httpd" Scenario.httpd_up_fields))
                     "status"
        /\ getitem (found_entry Scenario.httpd_up_fields) "timestamp"
           = getitem (body (found_response "httpd" Scenario.httpd_up_fields))
                     "timestamp").
Proof.
  apply (found_document_is_reported_verbatim Scenario.flaky_store initial_state
           "httpd" (Scenario.search_result 1 [Scenario.httpd_up])
           Scenario.httpd_up_fields).
  - cbn. auto.
  - reflexivity.
  - intros evs. reflexivity.
  - reflexivity.
  - reflexivity.
Defined.

(** X9. In the bulk answer a registered service whose collection is empty
    is mapped to NO_DATA with timestamp N/A, the status the single path
    gives for it. *)
Theorem resolveAll_empty_is_NO_DATA
  (E : env) (st : state) (s : string) (r : json) :
  In s SUPPORTED_SERVICES ->
  healthy E st = true ->
  (forall evs, es_search E (evs ++ trace st)%list (index_name s) = Ok r) ->
  has_hits r = Ok false ->
  exists resp st' statuses,
    healthcheck E st = (Ok resp, st')
    /\ code resp = 200
    /\ getitem (body resp) "services" = Ok (JObj statuses)
    /\ dict_get s statuses = Some no_data_entry
    /\ getitem no_data_entry "status"
       = getitem (body (no_data_response s)) "status".
Proof.
  intros Hin Hh Hs Hempty.
  destruct (ApiProps.healthcheck_healthy E st Hh)
    as (statuses & st' & evs & Hrun & _ & _ & _ & _ & Hentries).
  destruct (Hentries s Hin) as (entry & evs' & Hget & _ & Hno & _).
  rewrite (Hno r (Hs evs') Hempty) in Hget.
  eexists _, st', statuses. split; [exact Hrun|].
  split; [reflexivity|]. split; [reflexivity|]. split; [exact Hget|].
  reflexivity.
Qed.

Lemma resolveAll_empty_is_NO_DATA_witness :
  exists resp st' statuses,
    healthcheck Scenario.empty_store initial_state = (Ok resp, st')
    /\ code resp = 200
    /\ getitem (body resp) "services" = Ok (JObj statuses)
    /\ dict_get "rabbitmq" statuses = Some no_data_entry
    /\ getitem no_data_entry "status"
       = getitem (body (no_data_response "rabbitmq")) "status".
Proof.
  apply (resolveAll_empty_is_NO_DATA Scenario.empty_store initial_state
           "rabbitmq" (Scenario.search_result 0 [])).
  - cbn. auto.
  - reflexivity.
  - intros evs. reflexivity.
  - reflexivity.
Defined.

Section Writes.
Variable E : env.

(** The [try] block, the handle being there: one write is attempted, and
    the answer is 201 when the store returns an object, 500 otherwise. *)
Lemma insert_status_outcome (d : dict json) (s : string) (st : state) (u : string) :
  es_client st = Some u ->
  exists resp st',
    insert_status E (JObj d) (JStr s) st = (Ok resp, st')
    /\ since st st'
         [EvIndex (index_name s)
                  (JObj (stamped (JStr (utc_stamp (utcnow E (clock_reads st)))) d))]
    /\ (code resp = 201 \/ code resp = 500)
    /\ (code resp = 201 <->
        exists reply,
          es_index E (trace st) (index_name s)
                   (JObj (stamped (JStr (utc_stamp (utcnow E (clock_reads st)))) d))
          = Ok (JObj reply))
    /\ (forall e,
          es_index E (trace st) (index_name s)
                   (JObj (stamped (JStr (utc_stamp (utcnow E (clock_reads st)))) d))
          = Raise e ->
          resp = insert_failed_response e
          /\ head (log st')
             = Some (Log ERROR ("Error inserting status into Elasticsearch: "
                                ++ exc_str e))).
Proof.
  intros Hc. unfold insert_status, try_except.
  rewrite (bind_ok _ _ _ _ _
             (ApiProps.get_elasticsearch_client_cached E _ _ Hc)).
  cbv beta iota zeta delta [bind datetime_utcnow lift setitem getitem].
  rewrite dict_get_set_same.
  fold (stamped (JStr (utc_stamp (utcnow E (clock_reads st)))) d).
  unfold es_index_call, index_doc, record.
  change (py_str (JStr s)) with s.
  cbn [es_client trace log clock_reads].
  fold (index_name s).
  destruct (ApiProps.stamped_timestamp
              (JStr (utc_stamp (utcnow E (clock_reads st)))) d) as [_ Hat].
  destruct (es_index E (trace st) (index_name s) _) as [result|e] eqn:Hi.
  - unfold logger, ret, get_method at 1 2, dict_get_default.
    cbn [es_client trace log clock_reads].
    rewrite Hat, !ApiProps.stamped_keeps by discriminate.
    destruct result as [| | | | |reply0]; cbv beta iota delta [get_method];
      eexists _, _; (split; [reflexivity|]); (split; [reflexivity|]);
      cbn [code jsonify];
      (split; [first [left; reflexivity | right; reflexivity]|]);
      (split; [split; [intros H; first [discriminate H | eexists; reflexivity]
                      | intros (reply & Hr); first [discriminate Hr | reflexivity]]
              | intros e He; discriminate He]).
  - unfold logger, ret. cbv beta iota.
    eexists _, _. split; [reflexivity|]. split; [reflexivity|].
    cbn [code jsonify]. split; [right; reflexivity|].
    split; [split; [intros H; discriminate H | intros (reply & Hr); discriminate Hr]|].
    intros e' He'. injection He' as <-. split; reflexivity.
Qed.

End Writes.

(** X10. On a JSON object [POST /add] always answers, with 400, 503, 201
    or 500: 201 or 500 exactly when the three checks pass, and then one
    write is attempted; in the other cases none. It never searches. *)
Theorem submit_object_always_answers (E : env) (st : state) (d : dict json) :
  exists resp st' evs,
    add_status E (json_request (JObj d)) st = (Ok resp, st')
    /\ since st st' evs
    /\ searched evs = []
    /\ match spec_submit_checks E st d with
       | Accepted => (code resp = 201 \/ code resp = 500)
                     /\ length (written evs) = 1
       | BackendUnavailable => code resp = 503 /\ written evs = []
       | MalformedPayload _ | UnknownService _ =>
           code resp = 400 /\ written evs = []
       end.
Proof.
  unfold spec_submit_checks.
  destruct (lacking d) as [|m ms] eqn:Hl.
  - destruct (json_in (service_name_of d) SUPPORTED_SERVICES) eqn:Hreg;
      cbn [negb].
    + destruct (healthy E st) eqn:Hh; cbn [negb].
      * destruct (ApiProps.add_status_reaches_probe E d st Hl Hreg)
          as (st1 & evs & Hs & Hna & _ & Hu & Hrun).
        destruct (Hu Hh) as [u Hc]. rewrite Hh in Hrun. cbn [negb] in Hrun.
        destruct (ApiProps.json_in_string _ _ Hreg) as [s Hname].
        rewrite Hname in Hrun.
        destruct (insert_status_outcome E d s st1 u Hc)
          as (resp & st' & Hins & Hs' & Hcode & _).
        exists resp, st',
          ([EvIndex (index_name s)
                    (JObj (stamped (JStr (utc_stamp (utcnow E (clock_reads st1))))
                                   d))] ++ evs)%list.
        split; [now rewrite Hrun|]. split.
        { unfold since in *. rewrite Hs', Hs. now rewrite app_assoc. }
        rewrite ApiProps.searched_app, ApiProps.written_app,
          (ApiProps.searched_no_store_access _ Hna),
          (ApiProps.written_no_store_access _ Hna).
        split; [reflexivity|]. split; [exact Hcode | reflexivity].
      * destruct (ApiProps.add_status_unavailable E d st Hl Hreg Hh)
          as (st' & evs & Hrun & Hs & Hn).
        exists add_unavailable_response, st', evs.
        split; [exact Hrun|]. split; [exact Hs|].
        split; [now apply ApiProps.searched_no_store_access|].
        split; [reflexivity | now apply ApiProps.written_no_store_access].
    + destruct (ApiProps.add_status_unknown E d st Hl Hreg)
        as (st' & Hrun & _ & Ht).
      eexists _, st', []. split; [exact Hrun|].
      split; [unfold since; now rewrite Ht|]. repeat split.
  - destruct (ApiProps.add_status_malformed E d st) as (st' & Hrun & _ & Ht).
    { rewrite Hl. discriminate. }
    eexists _, st', []. split; [exact Hrun|].
    split; [unfold since; now rewrite Ht|]. repeat split.
Qed.

(** X11. A write that the store refuses is reported and not retried: for
    a payload that passed the checks, when [es.index] raises, [POST /add]
    answers 500 with status FAILED and the text of the exception, logs
    the error, and has made that one attempt only. *)
Theorem write_failure_is_reported_once
  (E : env) (st : state) (d : dict json) (s : string) (e : exc) :
  lacking d = [] ->
  service_name_of d = JStr s ->
  In s SUPPORTED_SERVICES ->
  healthy E st = true ->
  (forall evs doc,
     es_index E (evs ++ trace st)%list (index_name s) doc = Raise e) ->
  exists st' evs doc,
    add_status E (json_request (JObj d)) st
    = (Ok (insert_failed_response e), st')
    /\ code (insert_failed_response e) = 500
    /\ getitem (body (insert_failed_response e)) "status" = Ok (JStr "FAILED")
    /\ since st st' evs
    /\ written evs = [(index_name s, doc)]
    /\ head (log st')
       = Some (Log ERROR ("Error inserting status into Elasticsearch: "
                          ++ exc_str e)).
Proof.
  intros Hl Hname Hin Hh Hidx.
  assert (Hreg : json_in (service_name_of d) SUPPORTED_SERVICES = true).
  { rewrite Hname. cbn [json_in]. now apply str_in_In. }
  destruct (ApiProps.add_status_reaches_probe E d st Hl Hreg)
    as (st1 & evs & Hs & Hna & _ & Hu & Hrun).
  destruct (Hu Hh) as [u Hc]. rewrite Hh, Hname in Hrun. cbn [negb] in Hrun.
  destruct (insert_status_outcome E d s st1 u Hc)
    as (resp & st' & Hins & Hs' & _ & _ & Hfail).
  unfold since in Hs. rewrite Hs in Hfail.
  destruct (Hfail e (Hidx evs _)) as (-> & Hlog).
  exists st',
    ([EvIndex (index_name s)
              (JObj (stamped (JStr (utc_stamp (utcnow E (clock_reads st1)))) d))]
     ++ evs)%list,
    (JObj (stamped (JStr (utc_stamp (utcnow E (clock_reads st1)))) d)).
  split; [now rewrite Hrun|]. split; [reflexivity|]. split; [reflexivity|].
  split. { unfold since in *. rewrite Hs', Hs. now rewrite app_assoc. }
  split; [|exact Hlog].
  rewrite ApiProps.written_app, (ApiProps.written_no_store_access _ Hna).
  reflexivity.
Qed.

Lemma write_failure_is_reported_once_witness :
  exists st' evs doc,
    add_status Scenario.store_read_only
               (json_request (JObj Scenario.payload_httpd)) initial_state
    = (Ok (insert_failed_response
             (Exc "AuthorizationException" "index is read-only")), st')
    /\ code (insert_failed_response
               (Exc "AuthorizationException" "index is read-only")) = 500
    /\ getitem (body (insert_failed_response
                        (Exc "AuthorizationException" "index is read-only")))
               "status" = Ok (JStr "FAILED")
    /\ since initial_state st' evs
    /\ written evs = [(index_name "httpd", doc)]
    /\ head (log st')
       = Some (Log ERROR ("Error inserting status into Elasticsearch: "
                          ++ "index is read-only")).
Proof.
  apply (write_failure_is_reported_once Scenario.store_read_only initial_state
           Scenario.payload_httpd "httpd"
           (Exc "AuthorizationException" "index is read-only")).
  - reflexivity.
  - reflexivity.
  - cbn. auto.
  - reflexivity.
  - intros evs doc. reflexivity.
Defined.

(** X12. Whatever the request, [POST /add] never searches and writes at
    most once; a write happens only after a probe that answered True, and
    only to the index [rbcapp1-<name>] of a registered service. *)
Theorem submit_writes_at_most_once (E : env) (req : request) (st : state) :
  exists evs,
    since st (snd (add_status E req st)) evs
    /\ searched evs = []
    /\ length (written evs) <= 1
    /\ (written evs <> [] -> healthy E st = true)
    /\ (forall i doc, In (i, doc) (written evs) ->
                      exists name, In name SUPPORTED_SERVICES
                                   /\ i = index_name name).
Proof.
  assert (Hquiet : forall o st' evs,
             add_status E req st = (o, st') -> since st st' evs ->
             no_store_access evs ->
             exists evs,
               since st (snd (add_status E req st)) evs
               /\ searched evs = []
               /\ length (written evs) <= 1
               /\ (written evs <> [] -> healthy E st = true)
               /\ (forall i doc, In (i, doc) (written evs) ->
                                 exists name, In name SUPPORTED_SERVICES
                                              /\ i = index_name name)).
  { intros o st' evs Hrun Hs Hn. exists evs. rewrite Hrun.
    rewrite (ApiProps.written_no_store_access _ Hn),
      (ApiProps.searched_no_store_access _ Hn).
    split; [exact Hs|]. split; [reflexivity|]. split; [cbn; lia|].
    split; [congruence | intros i doc []]. }
  assert (Hsame : forall o st',
             add_status E req st = (o, st') -> same_backend st st' ->
             exists evs,
               since st (snd (add_status E req st)) evs
               /\ searched evs = []
               /\ length (written evs) <= 1
               /\ (written evs <> [] -> healthy E st = true)
               /\ (forall i doc, In (i, doc) (written evs) ->
                                 exists name, In name SUPPORTED_SERVICES
                                              /\ i = index_name name)).
  { intros o st' Hrun [_ Ht]. apply (Hquiet o st' [] Hrun); [|reflexivity].
    unfold since. now rewrite Ht. }
  destruct req as [[|] [data|e]].
  - assert (Hobj : (exists d, data = JObj d) \/ (forall d, data <> JObj d)).
    { destruct data; try (right; intros; discriminate). left. eauto. }
    destruct Hobj as [[d ->]|Hno].
    2: { destruct (ApiProps.add_status_not_object E data st Hno)
           as (o & st' & Hrun & Hsm & _).
         exact (Hsame _ _ Hrun Hsm). }
    destruct (lacking d) as [|m ms] eqn:Hl.
    + destruct (json_in (service_name_of d) SUPPORTED_SERVICES) eqn:Hreg.
      * destruct (healthy E st) eqn:Hh.
        -- destruct (ApiProps.add_status_reaches_probe E d st Hl Hreg)
             as (st1 & evs & Hs & Hna & _ & Hu & Hrun).
           destruct (Hu Hh) as [u Hc]. rewrite Hh in Hrun. cbn [negb] in Hrun.
           destruct (ApiProps.json_in_string _ _ Hreg) as [s Hname].
           rewrite Hname in Hrun, Hreg. cbn [json_in] in Hreg.
           apply str_in_In in Hreg.
           destruct (insert_status_outcome E d s st1 u Hc)
             as (resp & st' & Hins & Hs' & _).
           exists ([EvIndex (index_name s)
                     (JObj (stamped (JStr (utc_stamp (utcnow E (clock_reads st1))))
                                    d))] ++ evs)%list.
           change (add_status E {| is_json := true; get_json := Ok (JObj d) |} st)
             with (add_status E (json_request (JObj d)) st).
           rewrite Hrun, Hins.
           rewrite ApiProps.searched_app, ApiProps.written_app,
             (ApiProps.searched_no_store_access _ Hna),
             (ApiProps.written_no_store_access _ Hna).
           split.
           { unfold since in *. cbn [snd]. rewrite Hs', Hs.
             now rewrite app_assoc. }
           split; [reflexivity|]. split; [cbn; lia|]. split; [reflexivity|].
           intros i doc [Heq|[]]. injection Heq as <- _. now exists s.
        -- destruct (ApiProps.add_status_unavailable E d st Hl Hreg Hh)
             as (st' & evs & Hrun & Hs & Hn).
           exact (Hquiet _ _ _ Hrun Hs Hn).
      * destruct (ApiProps.add_status_unknown E d st Hl Hreg)
          as (st' & Hrun & Hsm).
        exact (Hsame _ _ Hrun Hsm).
    + destruct (ApiProps.add_status_malformed E d st) as (st' & Hrun & Hsm).
      { rewrite Hl. discriminate. }
      exact (Hsame _ _ Hrun Hsm).
  - apply (Hsame (Raise e) _ eq_refl). split; reflexivity.
  - eapply Hsame; [reflexivity|]. split; reflexivity.
  - eapply Hsame; [reflexivity|]. split; reflexivity.
Qed.

Lemma dict_keys_set_incl {V} (k k' : string) (v : V) (d : dict V) :
  In k (dict_keys d) -> In k (dict_keys (dict_set k' v d)).
Proof.
  unfold dict_keys. induction d as [|[k0 v0] d IH]; cbn; [tauto|].
  destruct (String.eqb k' k0); cbn; tauto.
Qed.

(** X13. The document written for an accepted submission is the payload
    with the two time fields set: every other field of the payload, the
    three required ones and any extra one, is stored with the value that
    was sent, and no field is dropped. This holds whatever the store then
    answers to the write. *)
Theorem stored_document_keeps_payload
  (E : env) (st : state) (d : dict json) (s : string) :
  lacking d = [] ->
  service_name_of d = JStr s ->
  In s SUPPORTED_SERVICES ->
  healthy E st = true ->
  exists evs doc,
    since st (snd (add_status E (json_request (JObj d)) st)) evs
    /\ written evs = [(index_name s, JObj doc)]
    /\ (forall k, k <> "timestamp" -> k <> "@timestamp" ->
                  dict_get k doc = dict_get k d)
    /\ (forall k, In k (dict_keys d) -> In k (dict_keys doc))
    /\ dict_get "service_name" doc = Some (JStr s).
Proof.
  intros Hl Hname Hin Hh.
  assert (Hreg : json_in (service_name_of d) SUPPORTED_SERVICES = true).
  { rewrite Hname. cbn [json_in]. now apply str_in_In. }
  destruct (ApiProps.add_status_reaches_probe E d st Hl Hreg)
    as (st1 & evs & Hs & Hna & _ & Hu & Hrun).
  destruct (Hu Hh) as [u Hc]. rewrite Hh, Hname in Hrun. cbn [negb] in Hrun.
  destruct (insert_status_outcome E d s st1 u Hc)
    as (resp & st' & Hins & Hs' & _).
  exists ([EvIndex (index_name s)
            (JObj (stamped (JStr (utc_stamp (utcnow E (clock_reads st1)))) d))]
          ++ evs)%list,
    (stamped (JStr (utc_stamp (utcnow E (clock_reads st1)))) d).
  rewrite Hrun, Hins.
  split. { unfold since in *. cbn [snd]. rewrite Hs', Hs. now rewrite app_assoc. }
  split.
  { rewrite ApiProps.written_app, (ApiProps.written_no_store_access _ Hna).
    reflexivity. }
  split. { intros k H1 H2. now apply ApiProps.stamped_keeps. }
  split. { intros k Hk. unfold stamped. now do 2 apply dict_keys_set_incl. }
  rewrite ApiProps.stamped_keeps by discriminate.
  unfold service_name_of, dict_get_default in Hname.
  assert (Hmem : dict_mem "service_name" d = true).
  { unfold lacking, required_fields in Hl. cbn [filter] in Hl.
    destruct (dict_mem "service_name" d); [reflexivity|].
    cbn [negb] in Hl. discriminate Hl. }
  unfold dict_mem in Hmem.
  destruct (dict_get "service_name" d); [now subst | discriminate Hmem].
Qed.

Lemma stored_document_keeps_payload_witness :
  exists evs doc,
    since initial_state
      (snd (add_status Scenario.empty_store
              (json_request (JObj Scenario.payload_stamped)) initial_state)) evs
    /\ written evs = [(index_name "httpd", JObj doc)]
    /\ (forall k, k <> "timestamp" -> k <> "@timestamp" ->
                  dict_get k doc = dict_get k Scenario.payload_stamped)
    /\ (forall k, In k (dict_keys Scenario.payload_stamped) ->
                  In k (dict_keys doc))
    /\ dict_get "service_name" doc = Some (JStr "httpd").
Proof.
  apply (stored_document_keeps_payload Scenario.empty_store initial_state
           Scenario.payload_stamped "httpd").
  - reflexivity.
  - reflexivity.
  - cbn. auto.
  - reflexivity.
Defined.

Section Steady.
Variable E : env.
Hypothesis Hsteady : steady E.

Lemma probe_steady (st : state) :
  exists st1,
    is_elasticsearch_healthy E st = (Ok (obtainable E st && ping_true E), st1)
    /\ obtainable E st1 = obtainable E st.
Proof.
  destruct Hsteady as (Hcons & Hping & _).
  destruct (probe_cases E st) as (o & st1 & Hget & Hprobe).
  unfold obtainable, ping_true.
  destruct (get_elasticsearch_client_cases E st)
    as [(u & Hc & Hrun)|(Hc & st1' & Hs & _ & Hcase)].
  - rewrite Hrun in Hget. injection Hget as <- <-.
    destruct Hprobe as (st' & Hp & _ & Hc').
    exists st'. rewrite Hc, Hc', (Hping [] (trace st)). split; [exact Hp|].
    reflexivity.
  - rewrite Hc, (Hcons [] (trace st)).
    destruct Hcase as [(Hok & Hc1 & Hrun)|(e & Hfail & Hc1 & _ & Hrun)];
      rewrite Hrun in Hget; injection Hget as <- <-.
    + destruct Hprobe as (st' & Hp & _ & Hc').
      exists st'. rewrite Hok, Hc', (Hping [] (trace st1')).
      split; [exact Hp | reflexivity].
    + destruct Hprobe as (st' & Hp & _ & Hc').
      exists st'. rewrite Hfail, Hc'. split; [exact Hp | reflexivity].
Qed.

Lemma healthy_steady (st : state) :
  healthy E st = obtainable E st && ping_true E.
Proof.
  destruct (probe_steady st) as (st1 & Hp & _). unfold healthy. now rewrite Hp.
Qed.

(** With a handle, the single lookup returns the same thing in any two
    states. *)
Lemma lookup_steady (s : string) (st1 st2 : state) (u1 u2 : string) :
  es_client st1 = Some u1 -> es_client st2 = Some u2 ->
  fst (get_service_status_from_elasticsearch E s st1)
  = fst (get_service_status_from_elasticsearch E s st2).
Proof.
  intros H1 H2. destruct Hsteady as (_ & _ & Hsearch).
  unfold get_service_status_from_elasticsearch, try_except.
  rewrite (bind_ok _ _ _ _ _
             (ApiProps.get_elasticsearch_client_cached E _ _ H1)),
    (bind_ok _ _ _ _ _ (ApiProps.get_elasticsearch_client_cached E _ _ H2)).
  unfold bind, search, record, lift.
  rewrite (Hsearch (trace st1) (trace st2)).
  destruct (es_search E (trace st2) (index_name s)) as [r|e];
    [destruct (has_hits r) as [[|]|e1];
     [destruct (first_source r) as [[| | | | |d]|e2]| |]|];
    reflexivity.
Qed.

Lemma report_status_steady (s : string) (o : option json) (st1 st2 : state) :
  fst (report_status s o st1) = fst (report_status s o st2).
Proof.
  unfold report_status, bind, lift, logger, ret.
  destruct o as [[| | | | |d]|]; reflexivity.
Qed.

(** The answer of the single view depends on the state through
    [obtainable] only, and the view keeps [obtainable]. *)
Lemma healthcheck_service_steady (s : string) (st : state) :
  exists resp st',
    healthcheck_service E s st = (Ok resp, st')
    /\ obtainable E st' = obtainable E st
    /\ forall st2, obtainable E st2 = obtainable E st ->
                  fst (healthcheck_service E s st2) = Ok resp.
Proof.
  destruct (str_in s SUPPORTED_SERVICES) eqn:Hin.
  - pose proof Hin as Hin'. apply str_in_In in Hin'.
    destruct (healthy E st) eqn:Hh.
    + destruct (ApiProps.healthcheck_service_reaches_lookup E st s Hin' Hh)
        as (st1 & u & evs & Hc & _ & _ & Hview).
      destruct (lookup_returns E st1 u s Hc)
        as (o & st2 & Hlook & _ & Hc2 & Ho & _).
      destruct (report_status_returns s o st2 Ho)
        as (resp & st3 & Hrep & _ & Hc3 & _).
      exists resp, st3. split.
      { rewrite Hview, (bind_ok _ _ _ _ _ Hlook). exact Hrep. }
      assert (Hob : obtainable E st = true).
      { rewrite healthy_steady in Hh. now apply andb_prop in Hh as [? _]. }
      split.
      { rewrite Hob. unfold obtainable. now rewrite <- Hc3, Hc2. }
      intros st4 Hob4.
      assert (Hh4 : healthy E st4 = true).
      { rewrite healthy_steady, Hob4, <- healthy_steady. exact Hh. }
      destruct (ApiProps.healthcheck_service_reaches_lookup E st4 s Hin' Hh4)
        as (st5 & u5 & evs5 & Hc5 & _ & _ & Hview5).
      rewrite Hview5. unfold bind.
      pose proof (lookup_steady s st5 st1 u5 u Hc5 Hc) as Heq.
      rewrite Hlook in Heq.
      destruct (get_service_status_from_elasticsearch E s st5) as [o5 st6].
      cbn [fst] in Heq. subst o5.
      rewrite (report_status_steady s o st6 st2), Hrep. reflexivity.
    + set (st0 := State (es_client st) (trace st)
                        (Log INFO ("GET /healthcheck/" ++ s ++ " - service: " ++ s)
                         :: log st) (clock_reads st)).
      destruct (probe_steady st0) as (st1 & Hp & Hob1).
      assert (Hb : obtainable E st0 && ping_true E = false).
      { rewrite <- healthy_steady.
        rewrite <- (ApiProps.healthy_same_backend E st st0)
          by (split; reflexivity).
        exact Hh. }
      rewrite Hb in Hp.
      eexists _, _. split.
      { unfold healthcheck_service. rewrite Hin. cbn [negb].
        unfold bind at 1, logger at 1. unfold bind at 1. fold st0.
        rewrite Hp. cbn [negb]. unfold bind, logger, ret. reflexivity. }
      split. { unfold obtainable. cbn [es_client]. exact Hob1. }
      intros st4 Hob4.
      assert (Hh4 : healthy E st4 = false).
      { rewrite healthy_steady, Hob4, <- healthy_steady. exact Hh. }
      destruct (ApiProps.healthcheck_service_unavailable E s st4 Hin' Hh4)
        as (st5 & evs5 & Hrun5 & _).
      rewrite Hrun5. reflexivity.
  - destruct (ApiProps.healthcheck_service_unknown E s st Hin)
      as (st' & Hrun & Hc & _).
    exists (unknown_service_response s), st'. split; [exact Hrun|].
    split. { unfold obtainable. now rewrite Hc. }
    intros st2 _.
    destruct (ApiProps.healthcheck_service_unknown E s st2 Hin)
      as (st2' & Hrun2 & _).
    now rewrite Hrun2.
Qed.

End Steady.

(** X14. Reads are idempotent on a store whose answers do not depend on
    the calls made before: [GET /healthcheck/<service>] asked again right
    after itself gives the same answer, any number of times, whether or
    not the first request had to construct the client. *)
Theorem resolveOne_is_idempotent (E : env) (s : string) (st : state) :
  steady E ->
  forall n,
    fst (healthcheck_service E s
           (Nat.iter n (fun st => snd (healthcheck_service E s st)) st))
    = fst (healthcheck_service E s st).
Proof.
  intros Hsteady n.
  destruct (healthcheck_service_steady E Hsteady s st)
    as (resp & st' & Hrun & _ & Hall).
  rewrite Hrun. cbn [fst]. apply Hall.
  induction n as [|n IH]; [reflexivity|].
  change (Nat.iter (S n) (fun st => snd (healthcheck_service E s st)) st)
    with (snd (healthcheck_service E s
                 (Nat.iter n (fun st => snd (healthcheck_service E s st)) st))).
  destruct (healthcheck_service_steady E Hsteady s
              (Nat.iter n (fun st => snd (healthcheck_service E s st)) st))
    as (resp' & st'' & Hrun' & Hob' & _).
  rewrite Hrun'. cbn [snd]. now rewrite Hob'.
Qed.

Lemma resolveOne_is_idempotent_witness :
  fst (healthcheck_service Scenario.flaky_store "httpd"
         (Nat.iter 2 (fun st => snd (healthcheck_service Scenario.flaky_store
                                       "httpd" st)) initial_state))
  = fst (healthcheck_service Scenario.flaky_store "httpd" initial_state).
Proof.
  apply (resolveOne_is_idempotent Scenario.flaky_store "httpd" initial_state).
  repeat split; reflexivity.
Defined.

(** X15. The client is always built with a URL that has a scheme: a host
    given with one is used as it is, any other host gets [http://] in
    front. *)
Theorem es_url_has_scheme (E : env) :
  substring_in "://" (es_url E) = true
  /\ (substring_in "://" (ES_HOST E) = true -> es_url E = ES_HOST E)
  /\ (substring_in "://" (ES_HOST E) = false ->
      es_url E = "http://" ++ ES_HOST E)
  /\ forall st st' c,
       es_client st = None ->
       get_elasticsearch_client E st = (Ok (Some c), st') ->
       c = es_url E.
Proof.
  split; [|split; [|split]].
  - unfold es_url.
    destruct (substring_in "://" (ES_HOST E)) eqn:Hs; [exact Hs|].
    destruct (ES_HOST E); vm_compute; reflexivity.
  - unfold es_url. intros ->. reflexivity.
  - unfold es_url. intros ->. reflexivity.
  - intros st st' c Hc Hrun.
    destruct (get_elasticsearch_client_cases E st)
      as [(u & Hc' & _)|(_ & st1 & _ & _ & [(_ & _ & Hrun')|(e & _ & _ & _ & Hrun')])];
      congruence.
Qed.

Lemma es_url_has_scheme_witness :
  substring_in "://" (es_url Scenario.empty_store) = true
  /\ (substring_in "://" (ES_HOST Scenario.empty_store) = true ->
      es_url Scenario.empty_store = ES_HOST Scenario.empty_store)
  /\ (substring_in "://" (ES_HOST Scenario.empty_store) = false ->
      es_url Scenario.empty_store = "http://" ++ ES_HOST Scenario.empty_store)
  /\ forall st st' c,
       es_client st = None ->
       get_elasticsearch_client Scenario.empty_store st = (Ok (Some c), st') ->
       c = es_url Scenario.empty_store.
Proof.
  exact (es_url_has_scheme Scenario.empty_store).
Defined.

End ApiMore.

(* ------------------------------------------------------------------ *)
(** ** More on the emitter: clean cycles, interruption, start-up *)

Module MonitorMore.
Import Monitor.

Section Cycle.
Variable E : env.

Lemma generate_status_json_run (self : ServiceMonitor) (s status : string)
  (st : state) :
  exists st',
    generate_status_json E self s status st
    = (write_file E (trace st)
         (status_filepath self s status (utcnow E (S (clock_reads st))))
         (status_payload E s status (utcnow E (clock_reads st))),
       st')
    /\ trace st'
       = EvWrite (status_filepath self s status (utcnow E (S (clock_reads st))))
                 (status_payload E s status (utcnow E (clock_reads st)))
         :: trace st
    /\ clock_reads st' = 2 + clock_reads st.
Proof.
  unfold generate_status_json, bind, datetime_utcnow, dump, logger,
    status_filepath, status_payload.
  cbn [trace log clock_reads].
  destruct (write_file E (trace st) _ _) as [[]|x];
    eexists; (split; [reflexivity|]); split; reflexivity.
Qed.

Lemma dict_get_of_key {V} (k : string) (d : dict V) :
  In k (dict_keys d) -> exists v, dict_get k d = Some v.
Proof.
  unfold dict_keys. induction d as [|[k0 v0] d IH]; cbn; [tauto|].
  intros [->|Hin].
  - rewrite String.eqb_refl. eauto.
  - destruct (String.eqb k k0); eauto.
Qed.

(** The loop over [l], every write succeeding. *)
Lemma loop_clean (self : ServiceMonitor) (l : list string) :
  (forall s, In s l -> writes_ok E s) ->
  forall st,
  exists st' evs,
    for_each (cycle_body E self) l tt st = (Ok tt, st')
    /\ since st st' evs
    /\ attempted evs = map JStr l
    /\ clock_reads st' = 2 * length l + clock_reads st.
Proof.
  induction l as [|a l IH]; intros Hok st.
  - exists st, []. repeat split.
  - cbn [for_each]. unfold cycle_body at 1.
    destruct (generate_status_json_run self a (get_service_status self a) st)
      as (st1 & Hrun & Ht & Hk).
    assert (Hname : getitem (status_payload E a (get_service_status self a)
                                            (utcnow E (clock_reads st)))
                            "service_name" = Ok (JStr a)) by reflexivity.
    rewrite (Hok a (or_introl eq_refl) (trace st) _ _ Hname) in Hrun.
    destruct (IH (fun s Hs => Hok s (or_intror Hs)) st1)
      as (st' & evs & Hloop & Hs & Hatt & Hk').
    match type of Ht with _ = ?ev :: _ => exists st', (evs ++ [ev])%list end.
    split.
    + unfold bind at 1. rewrite Hrun. exact Hloop.
    + split; [|split].
      * unfold since in *. rewrite Hs, Ht. now rewrite <- app_assoc.
      * rewrite MonitorProps.attempted_snoc, Hatt. reflexivity.
      * rewrite Hk', Hk. cbn [length]. lia.
Qed.

Lemma cycle_clean (self : ServiceMonitor) (st : state) :
  (forall s, In s (dict_keys (service_status_config self)) -> writes_ok E s) ->
  exists st' evs,
    monitor_all_services E self st = (Ok tt, st')
    /\ since st st' evs
    /\ attempted evs = map JStr (dict_keys (service_status_config self))
    /\ clock_reads st'
       = 2 * length (service_status_config self) + clock_reads st
    /\ head (log st') = Some (Log INFO "Monitor cycle complete").
Proof.
  intros Hok.
  destruct (loop_clean self _ Hok st) as (st' & evs & Hloop & Hs & Hatt & Hk).
  unfold monitor_all_services. cbv zeta. rewrite (bind_ok _ _ _ _ _ Hloop).
  unfold logger. eexists _, evs. split; [reflexivity|].
  split; [exact Hs|]. split; [exact Hatt|]. split; [|reflexivity].
  cbn [clock_reads]. rewrite Hk. unfold dict_keys. now rewrite length_map.
Qed.

(** What every status file of a cycle holds, written or not. *)
Lemma loop_payloads (self : ServiceMonitor) (l : list string) :
  forall st,
  exists evs,
    since st (snd (for_each (cycle_body E self) l tt st)) evs
    /\ forall filepath payload,
         In (EvWrite filepath payload) evs ->
         exists s k,
           In s l
           /\ clock_reads st <= k
           /\ payload = status_payload E s (get_service_status self s)
                                       (utcnow E k)
           /\ filepath = status_filepath self s (get_service_status self s)
                                         (utcnow E (S k)).
Proof.
  induction l as [|a l IH]; intros st.
  - exists []. split; [reflexivity|]. intros ? ? [].
  - cbn [for_each]. unfold cycle_body at 1.
    destruct (generate_status_json_run self a (get_service_status self a) st)
      as (st1 & Hrun & Ht & Hk).
    unfold bind at 1. rewrite Hrun.
    assert (Hhere : forall fp pl,
               EvWrite (status_filepath self a (get_service_status self a)
                          (utcnow E (S (clock_reads st))))
                       (status_payload E a (get_service_status self a)
                          (utcnow E (clock_reads st)))
               = EvWrite fp pl ->
               exists s k,
                 In s (a :: l) /\ clock_reads st <= k
                 /\ pl = status_payload E s (get_service_status self s)
                                        (utcnow E k)
                 /\ fp = status_filepath self s (get_service_status self s)
                                         (utcnow E (S k))).
    { intros fp pl Heq. injection Heq as <- <-.
      exists a, (clock_reads st). repeat split; [now left | lia]. }
    destruct (write_file E (trace st) _ _) as [[]|x].
    + destruct (IH st1) as (evs & Hs & Hall).
      match type of Ht with _ = ?ev :: _ => exists (evs ++ [ev])%list end.
      split.
      * unfold since in *. rewrite Hs, Ht. now rewrite <- app_assoc.
      * intros fp pl Hin. apply in_app_or in Hin as [Hin|[Heq|[]]].
        -- destruct (Hall fp pl Hin) as (s & k & Hs' & Hk' & Hp & Hf).
           exists s, k. repeat split; [now right | lia | exact Hp | exact Hf].
        -- now apply Hhere.
    + match type of Ht with _ = ?ev :: _ => exists [ev] end.
      split; [exact Ht|].
      intros fp pl [Heq|[]]. now apply Hhere.
Qed.

End Cycle.

(** X16. A cycle in which every write succeeds emits exactly one status
    file per configured service, in the order of the configuration, reads
    the clock twice per file, logs its completion and returns. *)
Theorem clean_cycle_emits_one_file_per_service
  (E : env) (self : ServiceMonitor) (st : state) :
  (forall s, In s (dict_keys (service_status_config self)) -> writes_ok E s) ->
  exists st' evs,
    monitor_all_services E self st = (Ok tt, st')
    /\ since st st' evs
    /\ attempted evs = map JStr (dict_keys (service_status_config self))
    /\ length evs = length (service_status_config self)
    /\ clock_reads st'
       = 2 * length (service_status_config self) + clock_reads st
    /\ head (log st') = Some (Log INFO "Monitor cycle complete").
Proof.
  intros Hok.
  destruct (cycle_clean E self st Hok) as (st' & evs & Hrun & Hs & Hatt & Hk & Hl).
  exists st', evs. repeat split; try assumption.
  apply (f_equal (@length json)) in Hatt.
  unfold attempted, dict_keys in Hatt.
  now rewrite !length_map, length_rev in Hatt.
Qed.

Lemma clean_cycle_emits_one_file_per_service_witness :
  exists st' evs,
    monitor_all_services Scenario.disk_ok Scenario.the_monitor initial_state
    = (Ok tt, st')
    /\ since initial_state st' evs
    /\ attempted evs
       = map JStr (dict_keys (service_status_config Scenario.the_monitor))
    /\ length evs = length (service_status_config Scenario.the_monitor)
    /\ clock_reads st'
       = 2 * length (service_status_config Scenario.the_monitor)
         + clock_reads initial_state
    /\ head (log st') = Some (Log INFO "Monitor cycle complete").
Proof.
  apply (clean_cycle_emits_one_file_per_service Scenario.disk_ok
           Scenario.the_monitor initial_state).
  intros s _ tr filepath payload _. reflexivity.
Defined.

(** X17. Every status file of a cycle, written or not, is for a configured
    service and holds five fields: the service, the status configured for
    it (the default UNKNOWN is never used), the host name, and one clock
    reading in both time fields; its name is built from the service, the
    status and the next clock reading, under the output directory. *)
Theorem status_files_hold_the_configured_status
  (E : env) (self : ServiceMonitor) (st : state) :
  exists evs,
    since st (snd (monitor_all_services E self st)) evs
    /\ forall filepath payload,
         In (EvWrite filepath payload) evs ->
         exists s status k,
           dict_get s (service_status_config self) = Some status
           /\ clock_reads st <= k
           /\ payload = status_payload E s status (utcnow E k)
           /\ filepath = status_filepath self s status (utcnow E (S k)).
Proof.
  destruct (loop_payloads E self (dict_keys (service_status_config self)) st)
    as (evs & Hs & Hall).
  exists evs. split.
  - unfold monitor_all_services. cbv zeta. unfold bind.
    destruct (for_each _ _ tt st) as [[[]|x] st']; exact Hs.
  - intros fp pl Hin.
    destruct (Hall fp pl Hin) as (s & k & Hkey & Hk & Hp & Hf).
    destruct (dict_get_of_key s _ Hkey) as [status Hget].
    exists s, status, k. split; [exact Hget|]. split; [exact Hk|].
    unfold get_service_status, dict_get_default in Hp, Hf.
    rewrite Hget in Hp, Hf. split; assumption.
Qed.

Section Loop.
Variable E : env.

Lemma attempted_app (evs1 evs2 : list event) :
  attempted (evs1 ++ evs2) = (attempted evs2 ++ attempted evs1)%list.
Proof.
  unfold attempted. now rewrite rev_app_distr, map_app.
Qed.

(** [n] turns of the loop in which nothing raises. *)
Lemma cycles_clean (self : ServiceMonitor) (n : nat) :
  (forall s, In s (dict_keys (service_status_config self)) -> writes_ok E s) ->
  forall c st,
    sleeps_return E c n ->
    exists st' evs,
      cycles E n self c st = (Ok tt, st')
      /\ since st st' evs
      /\ attempted evs
         = concat (repeat (map JStr (dict_keys (service_status_config self))) n).
Proof.
  intros Hok. induction n as [|n IH]; intros c st Hsleep.
  - exists st, []. repeat split.
  - cbn [cycles].
    rewrite (bind_ok (logger INFO _) _ _ _ _ eq_refl).
    match goal with
    | |- context [bind (monitor_all_services E self) _ ?st0] =>
        destruct (cycle_clean E self st0 Hok)
          as (st1 & evs1 & Hrun & Hs1 & Hatt1 & _)
    end.
    rewrite (bind_ok _ _ _ _ _ Hrun).
    rewrite (bind_ok (logger INFO _) _ _ _ _ eq_refl).
    rewrite (Hsleep (c + 1)) by lia.
    rewrite (bind_ok (lift (Ok tt)) _ _ _ _ eq_refl).
    match goal with
    | |- context [cycles E n self (c + 1) ?st2] =>
        destruct (IH (c + 1) st2) as (st' & evs2 & Hrest & Hs2 & Hatt2)
    end.
    { intros k Hk1 Hk2. apply Hsleep; lia. }
    exists st', (evs2 ++ evs1)%list. split; [exact Hrest|]. split.
    + unfold since in *. cbn [trace] in *. rewrite Hs2, Hs1.
      now rewrite app_assoc.
    + rewrite attempted_app, Hatt1, Hatt2. reflexivity.
Qed.

(** The loop when the sleep of turn [j + 1] raises and nothing does
    before. *)
Lemma cycles_interrupted (self : ServiceMonitor) (x : raised) (j : nat) :
  (forall s, In s (dict_keys (service_status_config self)) -> writes_ok E s) ->
  forall n c st,
    j < n ->
    sleeps_return E c j ->
    sleep E (c + j + 1) = Raise x ->
    exists st' evs,
      cycles E n self c st = (Raise x, st')
      /\ since st st' evs
      /\ attempted evs
         = concat (repeat (map JStr (dict_keys (service_status_config self)))
                          (S j)).
Proof.
  intros Hok. induction j as [|j IH]; intros n c st Hlt Hsleep Hraise;
    (destruct n as [|n]; [lia|]); cbn [cycles];
    rewrite (bind_ok (logger INFO _) _ _ _ _ eq_refl);
    match goal with
    | |- context [bind (monitor_all_services E self) _ ?st0] =>
        destruct (cycle_clean E self st0 Hok)
          as (st1 & evs1 & Hrun & Hs1 & Hatt1 & _)
    end;
    rewrite (bind_ok _ _ _ _ _ Hrun);
    rewrite (bind_ok (logger INFO _) _ _ _ _ eq_refl).
  - replace (c + 0 + 1) with (c + 1) in Hraise by lia. rewrite Hraise.
    rewrite (bind_raise (lift (Raise x)) _ _ _ _ eq_refl).
    eexists _, evs1. split; [reflexivity|]. split.
    + unfold since in *. cbn [trace] in *. exact Hs1.
    + cbn [repeat concat]. now rewrite app_nil_r.
  - rewrite (Hsleep (c + 1)) by lia.
    rewrite (bind_ok (lift (Ok tt)) _ _ _ _ eq_refl).
    match goal with
    | |- context [cycles E n self (c + 1) ?st2] =>
        destruct (IH n (c + 1) st2) as (st' & evs2 & Hrest & Hs2 & Hatt2)
    end.
    + lia.
    + intros k Hk1 Hk2. apply Hsleep; lia.
    + replace (c + 1 + j + 1) with (c + S j + 1) by lia. exact Hraise.
    + exists st', (evs2 ++ evs1)%list. split; [exact Hrest|]. split.
      * unfold since in *. cbn [trace] in *. rewrite Hs2, Hs1.
        now rewrite app_assoc.
      * rewrite attempted_app, Hatt1, Hatt2. reflexivity.
Qed.

End Loop.

(** X18. As long as the directory can be made, the files written and the
    sleeps return, [main] keeps looping: after [n] turns it has emitted
    the configured services [n] times over, in order, three files a turn,
    and has neither returned nor raised. *)
Theorem main_emits_every_service_every_cycle (E : env) (n : nat) (st : state) :
  makedirs E = Ok tt ->
  (forall s, In s configured_services -> writes_ok E s) ->
  sleeps_return E 0 n ->
  exists st' evs,
    main E n st = (Ok Looping, st')
    /\ since st st' evs
    /\ attempted evs = concat (repeat (map JStr configured_services) n)
    /\ length evs = 3 * n.
Proof.
  intros Hmk Hok Hsleep.
  unfold main, init.
  rewrite (bind_ok (logger INFO banner) _ _ _ _ eq_refl).
  rewrite (bind_ok (logger INFO _) _ _ _ _ eq_refl).
  rewrite (bind_ok (logger INFO banner) _ _ _ _ eq_refl).
  rewrite Hmk.
  rewrite (bind_ok (bind (lift (Ok tt)) _) _ _ _ _ eq_refl).
  match goal with
  | |- context [cycles E n ?self 0 ?st0] =>
      destruct (cycles_clean E self n Hok 0 st0 Hsleep)
        as (st' & evs & Hrun & Hs & Hatt)
  end.
  rewrite Hrun. exists st', evs. split; [reflexivity|].
  split; [exact Hs|]. split; [exact Hatt|].
  apply (f_equal (@length json)) in Hatt.
  unfold attempted in Hatt. rewrite length_map, length_rev in Hatt.
  rewrite Hatt. clear. induction n as [|n IH]; [reflexivity|].
  cbn [repeat concat]. rewrite length_app, IH. cbn. lia.
Qed.

Lemma main_emits_every_service_every_cycle_witness :
  exists st' evs,
    main Scenario.disk_ok 4 initial_state = (Ok Looping, st')
    /\ since initial_state st' evs
    /\ attempted evs = concat (repeat (map JStr configured_services) 4)
    /\ length evs = 3 * 4.
Proof.
  apply (main_emits_every_service_every_cycle Scenario.disk_ok 4 initial_state).
  - reflexivity.
  - intros s _ tr filepath payload _. reflexivity.
  - intros k _ _. reflexivity.
Defined.

(** X19. A [KeyboardInterrupt] during the sleep that follows turn [j + 1]
    stops the emitter cleanly: [main] logs the shutdown and returns, the
    turns before it are complete ([j + 1] times the configured services)
    and no further turn starts. *)
Theorem interrupt_during_sleep_stops_cleanly
  (E : env) (n j : nat) (st : state) :
  makedirs E = Ok tt ->
  (forall s, In s configured_services -> writes_ok E s) ->
  j < n ->
  sleeps_return E 0 j ->
  sleep E (S j) = Raise KeyboardInterrupt ->
  exists st' evs,
    main E n st = (Ok Returned, st')
    /\ since st st' evs
    /\ attempted evs = concat (repeat (map JStr configured_services) (S j))
    /\ head (log st') = Some (Log INFO "Monitor interrupted. Shutting down...").
Proof.
  intros Hmk Hok Hlt Hsleep Hint.
  unfold main, init.
  rewrite (bind_ok (logger INFO banner) _ _ _ _ eq_refl).
  rewrite (bind_ok (logger INFO _) _ _ _ _ eq_refl).
  rewrite (bind_ok (logger INFO banner) _ _ _ _ eq_refl).
  rewrite Hmk.
  rewrite (bind_ok (bind (lift (Ok tt)) _) _ _ _ _ eq_refl).
  match goal with
  | |- context [cycles E n ?self 0 ?st0] =>
      destruct (cycles_interrupted E self KeyboardInterrupt j Hok n 0 st0)
        as (st' & evs & Hrun & Hs & Hatt)
  end; [exact Hlt | exact Hsleep | replace (0 + j + 1) with (S j) by lia; exact Hint |].
  rewrite Hrun. unfold bind, logger, ret.
  eexists _, evs. split; [reflexivity|]. split; [exact Hs|].
  split; [exact Hatt | reflexivity].
Qed.

Lemma interrupt_during_sleep_stops_cleanly_witness :
  exists st' evs,
    main (Env "host1" Scenario.clock (Ok tt) (fun _ _ _ => Ok tt)
              (fun k => if Nat.eqb k 2 then Raise KeyboardInterrupt else Ok tt))
         5 initial_state
    = (Ok Returned, st')
    /\ since initial_state st' evs
    /\ attempted evs = concat (repeat (map JStr configured_services) 2)
    /\ head (log st') = Some (Log INFO "Monitor interrupted. Shutting down...").
Proof.
  apply (interrupt_during_sleep_stops_cleanly
           (Env "host1" Scenario.clock (Ok tt) (fun _ _ _ => Ok tt)
                (fun k => if Nat.eqb k 2 then Raise KeyboardInterrupt else Ok tt))
           5 1 initial_state).
  - reflexivity.
  - intros s _ tr filepath payload _. reflexivity.
  - lia.
  - intros k Hk1 Hk2. assert (k = 1) by lia. subst k. reflexivity.
  - reflexivity.
Defined.

(** X20. When the output directory cannot be made, [main] ends before any
    cycle: no status file is attempted, an [Exception] is logged as
    critical and raised again, a [KeyboardInterrupt] makes [main]
    return. *)
Theorem startup_failure_ends_before_any_cycle
  (E : env) (n : nat) (st : state) (x : raised) :
  makedirs E = Raise x ->
  exists st',
    main E n st
    = (match x with
       | KeyboardInterrupt => Ok Returned
       | Error e => Raise (Error e)
       end, st')
    /\ since st st' []
    /\ head (log st')
       = Some (match x with
               | KeyboardInterrupt =>
                   Log INFO "Monitor interrupted. Shutting down..."
               | Error e => Log ERROR ("Critical error: " ++ exc_str e)
               end).
Proof.
  intros Hmk. unfold main, init.
  rewrite (bind_ok (logger INFO banner) _ _ _ _ eq_refl).
  rewrite (bind_ok (logger INFO _) _ _ _ _ eq_refl).
  rewrite (bind_ok (logger INFO banner) _ _ _ _ eq_refl).
  rewrite Hmk.
  rewrite (bind_raise (bind (lift (Raise x)) _) _ _ _ _ eq_refl).
  destruct x as [|e]; unfold bind, logger, ret, raise;
    eexists; (split; [reflexivity|]); split; reflexivity.
Qed.

Lemma startup_failure_ends_before_any_cycle_witness :
  exists st',
    main (Env "host1" Scenario.clock
              (Raise (Error (Exc "PermissionError" "[Errno 13] Permission denied")))
              (fun _ _ _ => Ok tt) (fun _ => Ok tt))
         3 initial_state
    = (Raise (Error (Exc "PermissionError" "[Errno 13] Permission denied")), st')
    /\ since initial_state st' []
    /\ head (log st')
       = Some (Log ERROR ("Critical error: " ++ "[Errno 13] Permission denied")).
Proof.
  apply (startup_failure_ends_before_any_cycle
           (Env "host1" Scenario.clock
                (Raise (Error (Exc "PermissionError" "[Errno 13] Permission denied")))
                (fun _ _ _ => Ok tt) (fun _ => Ok tt))
           3 initial_state
           (Error (Exc "PermissionError" "[Errno 13] Permission denied"))).
  reflexivity.
Defined.

End MonitorMore.
